(** * Thirteen / Big Two rules engine: cards, classification, comparison,
      validation.

    Shallow embedding of [Card.h], [Card.cpp], [GameRules.h] and
    [GameRules.cpp].  C++ exceptions are modelled by the [Result] type,
    [std::vector<Card>] by [list Card], [std::string] by [string], enum
    classes by inductive types together with their underlying integer
    value. *)

From Stdlib Require Import ZArith Lia Bool List String Ascii.
From Stdlib Require Import Permutation Sorted DecimalString.
Import ListNotations.

Local Open Scope Z_scope.

(** ** Exceptions *)

Inductive exception : Type :=
| invalid_argument (what : string)
| runtime_error (what : string).

Inductive Result (A : Type) : Type :=
| Ok (a : A)
| Throw (e : exception).

Arguments Ok {A} a.
Arguments Throw {A} e.

Definition bind {A B : Type} (m : Result A) (k : A -> Result B) : Result B :=
  match m with
  | Ok a => k a
  | Throw e => Throw e
  end.

Notation "x <- m ;; k" := (bind m (fun x => k))
  (at level 61, m at next level, right associativity).

(** ** Card.h: ranks, suits, cards *)

Inductive Rank : Type :=
| Three | Four | Five | Six | Seven | Eight | Nine | Ten
| Jack | Queen | King | Ace | Two.

Inductive Suit : Type :=
| Diamonds | Clubs | Hearts | Spades.

(** Underlying value of [enum class Rank]. *)
Definition rankValue (r : Rank) : Z :=
  match r with
  | Three => 3 | Four => 4 | Five => 5 | Six => 6 | Seven => 7
  | Eight => 8 | Nine => 9 | Ten => 10 | Jack => 11 | Queen => 12
  | King => 13 | Ace => 14 | Two => 15
  end.

(** Underlying value of [enum class Suit]. *)
Definition suitValue (s : Suit) : Z :=
  match s with
  | Diamonds => 0 | Clubs => 1 | Hearts => 2 | Spades => 3
  end.

Definition rank_eqb (a b : Rank) : bool := rankValue a =? rankValue b.
Definition rank_ltb (a b : Rank) : bool := rankValue a <? rankValue b.
Definition suit_eqb (a b : Suit) : bool := suitValue a =? suitValue b.
Definition suit_ltb (a b : Suit) : bool := suitValue a <? suitValue b.

Record Card : Type := mkCard { getRank : Rank; getSuit : Suit }.

(** ** Card.cpp: comparison operators *)

Module CardOps.

(** [Card::operator==] *)
Definition eq (a b : Card) : bool :=
  rank_eqb (getRank a) (getRank b) && suit_eqb (getSuit a) (getSuit b).

(** [Card::operator!=] *)
Definition ne (a b : Card) : bool := negb (eq a b).

(** [Card::operator<] *)
Definition lt (a b : Card) : bool :=
  if negb (rank_eqb (getRank a) (getRank b))
  then rank_ltb (getRank a) (getRank b)
  else suit_ltb (getSuit a) (getSuit b).

(** [Card::operator>] *)
Definition gt (a b : Card) : bool := lt b a.

(** [Card::operator<=] *)
Definition le (a b : Card) : bool := negb (lt b a).

(** [Card::operator>=] *)
Definition ge (a b : Card) : bool := negb (lt a b).

End CardOps.

(** ** Card.cpp: text encoding *)

(** [std::toupper] in the C locale. *)
Definition toupper (c : ascii) : ascii :=
  let n := nat_of_ascii c in
  if (Nat.leb 97 n && Nat.leb n 122)%bool then ascii_of_nat (n - 32) else c.

(** [Card::charToRank] *)
Definition charToRank (c : ascii) : Result Rank :=
  let c := toupper c in
  if Ascii.eqb c "3" then Ok Three
  else if Ascii.eqb c "4" then Ok Four
  else if Ascii.eqb c "5" then Ok Five
  else if Ascii.eqb c "6" then Ok Six
  else if Ascii.eqb c "7" then Ok Seven
  else if Ascii.eqb c "8" then Ok Eight
  else if Ascii.eqb c "9" then Ok Nine
  else if Ascii.eqb c "T" || Ascii.eqb c "1" then Ok Ten
  else if Ascii.eqb c "J" then Ok Jack
  else if Ascii.eqb c "Q" then Ok Queen
  else if Ascii.eqb c "K" then Ok King
  else if Ascii.eqb c "A" then Ok Ace
  else if Ascii.eqb c "2" then Ok Two
  else Throw (invalid_argument (String.append "Invalid rank character: " (String c EmptyString))).

(** [Card::charToSuit] *)
Definition charToSuit (c : ascii) : Result Suit :=
  let c := toupper c in
  if Ascii.eqb c "D" then Ok Diamonds
  else if Ascii.eqb c "C" then Ok Clubs
  else if Ascii.eqb c "H" then Ok Hearts
  else if Ascii.eqb c "S" then Ok Spades
  else Throw (invalid_argument (String.append "Invalid suit character: " (String c EmptyString))).

(** [Card::rankToChar]; the [default] branch is excluded by the type. *)
Definition rankToChar (r : Rank) : ascii :=
  match r with
  | Three => "3" | Four => "4" | Five => "5" | Six => "6" | Seven => "7"
  | Eight => "8" | Nine => "9" | Ten => "T" | Jack => "J" | Queen => "Q"
  | King => "K" | Ace => "A" | Two => "2"
  end%char.

(** [Card::suitToChar] *)
Definition suitToChar (s : Suit) : ascii :=
  match s with
  | Diamonds => "D" | Clubs => "C" | Hearts => "H" | Spades => "S"
  end%char.

(** [Card::suitToSymbol] *)
Definition suitToSymbol (s : Suit) : string :=
  match s with
  | Diamonds => "D" | Clubs => "C" | Hearts => "H" | Spades => "S"
  end%string.

(** [Card::Card(const std::string&)] *)
Definition parseCard (cardStr : string) : Result Card :=
  if Nat.ltb (String.length cardStr) 2
  then Throw (invalid_argument (String.append "Invalid card string: " cardStr))
  else
    let '(rankStr, suitPos) :=
      if (Nat.leb 3 (String.length cardStr)
          && String.eqb (String.substring 0 2 cardStr) "10")%bool
      then ("10"%string, 2%nat)
      else (String.substring 0 1 cardStr, 1%nat) in
    if Nat.leb (String.length cardStr) suitPos
    then Throw (invalid_argument (String.append "Invalid card string: " cardStr))
    else
      match String.get 0 rankStr, String.get suitPos cardStr with
      | Some rc, Some sc =>
          r0 <- charToRank rc ;;
          let r := if String.eqb rankStr "10" then Ten else r0 in
          s <- charToSuit sc ;;
          Ok (mkCard r s)
      | _, _ => Throw (invalid_argument (String.append "Invalid card string: " cardStr))
      end.

(** [Card::getRankChar], [Card::getSuitChar] *)
Definition getRankChar (c : Card) : ascii := rankToChar (getRank c).
Definition getSuitChar (c : Card) : ascii := suitToChar (getSuit c).

(** [Card::toString] *)
Definition toString (c : Card) : string :=
  String (getRankChar c) (String (getSuitChar c) EmptyString).

(** [Card::toDisplayString] *)
Definition toDisplayString (c : Card) : string :=
  String.append
    (if rank_eqb (getRank c) Ten then "10"%string
     else String (getRankChar c) EmptyString)
    (suitToSymbol (getSuit c)).

(** ** GameRules.h: play types and the validation verdict *)

Module PlayType.
Inductive t : Type := Invalid | Single | Pair | Triple | FiveCard.

Definition eqb (a b : t) : bool :=
  match a, b with
  | Invalid, Invalid | Single, Single | Pair, Pair
  | Triple, Triple | FiveCard, FiveCard => true
  | _, _ => false
  end.
End PlayType.

Module FiveCardType.
Inductive t : Type :=
| None | Straight | Flush | FullHouse | FourOfAKind | StraightFlush.

Definition eqb (a b : t) : bool :=
  match a, b with
  | None, None | Straight, Straight | Flush, Flush
  | FullHouse, FullHouse | FourOfAKind, FourOfAKind
  | StraightFlush, StraightFlush => true
  | _, _ => false
  end.
End FiveCardType.

Record PlayValidation : Type := mkPlayValidation {
  isValid : bool;
  playType : PlayType.t;
  fiveCardType : FiveCardType.t;
  errorMessage : string
}.

(** [PlayValidation::PlayValidation()] *)
Definition newPlayValidation : PlayValidation :=
  mkPlayValidation false PlayType.Invalid FiveCardType.None EmptyString.

Definition set_isValid (r : PlayValidation) (b : bool) : PlayValidation :=
  mkPlayValidation b (playType r) (fiveCardType r) (errorMessage r).
Definition set_playType (r : PlayValidation) (p : PlayType.t) : PlayValidation :=
  mkPlayValidation (isValid r) p (fiveCardType r) (errorMessage r).
Definition set_fiveCardType (r : PlayValidation) (f : FiveCardType.t)
  : PlayValidation :=
  mkPlayValidation (isValid r) (playType r) f (errorMessage r).
Definition set_errorMessage (r : PlayValidation) (m : string) : PlayValidation :=
  mkPlayValidation (isValid r) (playType r) (fiveCardType r) m.

(** ** GameRules.cpp *)

Module GameRules.

Definition empty (cards : list Card) : bool :=
  match cards with [] => true | _ :: _ => false end.

(** The comparator handed to [std::sort] by [sortByRank]. *)
Definition rankLess (a b : Card) : bool :=
  rank_ltb (getRank a) (getRank b).

(** [std::sort] with [rankLess]: modelled by a stable insertion sort.
    [std::sort] leaves the relative order of cards of equal rank
    unspecified; every caller reads only the ranks of the result, and
    lemma [sorted_ranks_unique] below shows that those do not depend on
    that choice. *)
Fixpoint insertByRank (c : Card) (l : list Card) : list Card :=
  match l with
  | [] => [c]
  | h :: t => if rankLess h c then h :: insertByRank c t else c :: h :: t
  end.

(** [GameRules::sortByRank] *)
Definition sortByRank (cards : list Card) : list Card :=
  fold_right insertByRank [] cards.

(** [GameRules::isSingle] *)
Definition isSingle (cards : list Card) : bool :=
  Nat.eqb (List.length cards) 1.

(** [GameRules::isPair] *)
Definition isPair (cards : list Card) : bool :=
  match cards with
  | [c0; c1] => rank_eqb (getRank c0) (getRank c1)
  | _ => false
  end.

(** [GameRules::isTriple] *)
Definition isTriple (cards : list Card) : bool :=
  match cards with
  | [c0; c1; c2] =>
      rank_eqb (getRank c0) (getRank c1) && rank_eqb (getRank c1) (getRank c2)
  | _ => false
  end.

(** Loop of [isStraight]: [sorted[i] == sorted[i-1] + 1] for each
    [i >= 1], leaving at the first failure. *)
Fixpoint consecutiveRanks (sorted : list Card) : bool :=
  match sorted with
  | prev :: (curr :: _) as rest =>
      if negb (rankValue (getRank curr) =? rankValue (getRank prev) + 1)
      then false
      else consecutiveRanks rest
  | _ => true
  end.

(** [GameRules::isStraight] *)
Definition isStraight (cards : list Card) : bool :=
  if negb (Nat.eqb (List.length cards) 5) then false
  else consecutiveRanks (sortByRank cards).

(** Loop of [isFlush]. *)
Fixpoint sameSuit (suit : Suit) (rest : list Card) : bool :=
  match rest with
  | [] => true
  | c :: t => if negb (suit_eqb (getSuit c) suit) then false else sameSuit suit t
  end.

(** [GameRules::isFlush] *)
Definition isFlush (cards : list Card) : bool :=
  if negb (Nat.eqb (List.length cards) 5) then false
  else match cards with
       | c0 :: rest => sameSuit (getSuit c0) rest
       | [] => false
       end.

(** [GameRules::isFullHouse] *)
Definition isFullHouse (cards : list Card) : bool :=
  if negb (Nat.eqb (List.length cards) 5) then false
  else match sortByRank cards with
       | [s0; s1; s2; s3; s4] =>
           let pattern1 :=
             rank_eqb (getRank s0) (getRank s1) &&
             rank_eqb (getRank s1) (getRank s2) &&
             rank_eqb (getRank s3) (getRank s4) in
           let pattern2 :=
             rank_eqb (getRank s0) (getRank s1) &&
             rank_eqb (getRank s2) (getRank s3) &&
             rank_eqb (getRank s3) (getRank s4) in
           pattern1 || pattern2
       | _ => false
       end.

(** [GameRules::isFourOfAKind] *)
Definition isFourOfAKind (cards : list Card) : bool :=
  if negb (Nat.eqb (List.length cards) 5) then false
  else match sortByRank cards with
       | [s0; s1; s2; s3; s4] =>
           let pattern1 :=
             rank_eqb (getRank s0) (getRank s1) &&
             rank_eqb (getRank s1) (getRank s2) &&
             rank_eqb (getRank s2) (getRank s3) in
           let pattern2 :=
             rank_eqb (getRank s1) (getRank s2) &&
             rank_eqb (getRank s2) (getRank s3) &&
             rank_eqb (getRank s3) (getRank s4) in
           pattern1 || pattern2
       | _ => false
       end.

(** [GameRules::isStraightFlush] *)
Definition isStraightFlush (cards : list Card) : bool :=
  isStraight cards && isFlush cards.

(** [GameRules::determineFiveCardType] *)
Definition determineFiveCardType (cards : list Card) : FiveCardType.t :=
  if negb (Nat.eqb (List.length cards) 5) then FiveCardType.None
  else if isStraightFlush cards then FiveCardType.StraightFlush
  else if isFourOfAKind cards then FiveCardType.FourOfAKind
  else if isFullHouse cards then FiveCardType.FullHouse
  else if isFlush cards then FiveCardType.Flush
  else if isStraight cards then FiveCardType.Straight
  else FiveCardType.None.

(** [GameRules::determinePlayType] *)
Definition determinePlayType (cards : list Card) : PlayType.t :=
  let size := List.length cards in
  if Nat.eqb size 1 then PlayType.Single
  else if Nat.eqb size 2 && isPair cards then PlayType.Pair
  else if Nat.eqb size 3 && isTriple cards then PlayType.Triple
  else if Nat.eqb size 5 then
    let fiveType := determineFiveCardType cards in
    if negb (FiveCardType.eqb fiveType FiveCardType.None)
    then PlayType.FiveCard
    else PlayType.Invalid
  else PlayType.Invalid.

(** Loop of [getHighestCard]. *)
Fixpoint highestFrom (highest : Card) (rest : list Card) : Card :=
  match rest with
  | [] => highest
  | c :: t => highestFrom (if CardOps.gt c highest then c else highest) t
  end.

(** [GameRules::getHighestCard] *)
Definition getHighestCard (cards : list Card) : Result Card :=
  match cards with
  | [] => Throw (runtime_error "Cannot get highest card from empty set")
  | c0 :: rest => Ok (highestFrom c0 rest)
  end.

(** [GameRules::getFiveCardRank] *)
Definition getFiveCardRank (type : FiveCardType.t) : Z :=
  match type with
  | FiveCardType.Straight => 1
  | FiveCardType.Flush => 2
  | FiveCardType.FullHouse => 3
  | FiveCardType.FourOfAKind => 4
  | FiveCardType.StraightFlush => 5
  | FiveCardType.None => 0
  end.

(** [GameRules::singleBeats] *)
Definition singleBeats (newCard lastCard : Card) : bool :=
  CardOps.gt newCard lastCard.

(** [GameRules::pairBeats] *)
Definition pairBeats (newPair lastPair : list Card) : Result bool :=
  if negb (Nat.eqb (List.length newPair) 2) || negb (Nat.eqb (List.length lastPair) 2)
  then Ok false
  else
    newHigh <- getHighestCard newPair ;;
    lastHigh <- getHighestCard lastPair ;;
    Ok (CardOps.gt newHigh lastHigh).

(** [GameRules::tripleBeats] *)
Definition tripleBeats (newTriple lastTriple : list Card) : Result bool :=
  if negb (Nat.eqb (List.length newTriple) 3) || negb (Nat.eqb (List.length lastTriple) 3)
  then Ok false
  else
    newHigh <- getHighestCard newTriple ;;
    lastHigh <- getHighestCard lastTriple ;;
    Ok (CardOps.gt newHigh lastHigh).

(** [GameRules::fiveCardBeats] *)
Definition fiveCardBeats (newCards lastCards : list Card) : Result bool :=
  let newType := determineFiveCardType newCards in
  let lastType := determineFiveCardType lastCards in
  let newRank := getFiveCardRank newType in
  let lastRank := getFiveCardRank lastType in
  if newRank >? lastRank then Ok true
  else if newRank <? lastRank then Ok false
  else
    newHigh <- getHighestCard newCards ;;
    lastHigh <- getHighestCard lastCards ;;
    Ok (CardOps.gt newHigh lastHigh).

(** [GameRules::doesPlayBeat] *)
Definition doesPlayBeat (newPlay lastPlay : list Card) : Result bool :=
  if empty lastPlay then Ok true
  else if negb (Nat.eqb (List.length newPlay) (List.length lastPlay)) then Ok false
  else
    match determinePlayType newPlay with
    | PlayType.Single =>
        match newPlay, lastPlay with
        | n0 :: _, l0 :: _ => Ok (singleBeats n0 l0)
        | _, _ => Ok false
        end
    | PlayType.Pair => pairBeats newPlay lastPlay
    | PlayType.Triple => tripleBeats newPlay lastPlay
    | PlayType.FiveCard => fiveCardBeats newPlay lastPlay
    | PlayType.Invalid => Ok false
    end.

(** [GameRules::containsThreeOfDiamonds] *)
Definition containsThreeOfDiamonds (cards : list Card) : bool :=
  let threeOfDiamonds := mkCard Three Diamonds in
  existsb (fun c => CardOps.eq c threeOfDiamonds) cards.

(** Body of [GameRules::validatePlay], with the comparator it calls at
    its one call site taken as a parameter, so that statements about
    when the comparator is consulted can be made. *)
Definition validatePlayWith
    (beats : list Card -> list Card -> Result bool)
    (cards lastPlay : list Card)
    (isFirstPlay mustIncludeThreeOfDiamonds : bool)
  : Result PlayValidation :=
  let result := newPlayValidation in
  if empty cards then
    Ok (set_errorMessage result "No cards selected")
  else if mustIncludeThreeOfDiamonds && negb (containsThreeOfDiamonds cards) then
    Ok (set_errorMessage result "First play must include 3 of Diamonds")
  else
    let result := set_playType result (determinePlayType cards) in
    if PlayType.eqb (playType result) PlayType.Invalid then
      Ok (set_errorMessage result "Invalid card combination")
    else
      let continue (result : PlayValidation) : Result PlayValidation :=
        if isFirstPlay || empty lastPlay then
          Ok (set_isValid result true)
        else if negb (Nat.eqb (List.length cards) (List.length lastPlay)) then
          Ok (set_errorMessage result
                "Must play same number of cards as last play")
        else
          b <- beats cards lastPlay ;;
          if negb b then
            Ok (set_errorMessage result "Play does not beat the previous play")
          else
            Ok (set_isValid result true)
      in
      if PlayType.eqb (playType result) PlayType.FiveCard then
        let result :=
          set_fiveCardType result (determineFiveCardType cards) in
        if FiveCardType.eqb (fiveCardType result) FiveCardType.None then
          Ok (set_errorMessage result "Invalid five-card combination")
        else continue result
      else continue result.

(** [GameRules::validatePlay] *)
Definition validatePlay := validatePlayWith doesPlayBeat.

End GameRules.

(** ** Deck.cpp *)

Module Deck.

(** The state of a [Deck] is its vector [cards_]; the top of the deck is
    the back of the vector.  The generator [rng_] enters only through
    [shuffle]. *)

(** [Deck::initializeDeck] *)
Definition initializeDeck : list Card :=
  let ranks :=
    [Three; Four; Five; Six; Seven; Eight; Nine; Ten;
     Jack; Queen; King; Ace; Two] in
  let suits := [Diamonds; Clubs; Hearts; Spades] in
  flat_map (fun rank => map (fun suit => mkCard rank suit) suits) ranks.

(** [Deck::reset] *)
Definition reset (cards_ : list Card) : list Card := initializeDeck.

(** [Deck::shuffle]: [std::shuffle] driven by the generator, which is
    taken as the rearrangement [rng] it performs. *)
Definition shuffle (rng : list Card -> list Card) (cards_ : list Card)
  : list Card := rng cards_.

(** [Deck::size], [Deck::isEmpty] *)
Definition size (cards_ : list Card) : nat := List.length cards_.
Definition isEmpty (cards_ : list Card) : bool :=
  match cards_ with [] => true | _ :: _ => false end.

(** [Deck::deal]: the dealt card and the remaining deck. *)
Definition deal (cards_ : list Card) : Result (Card * list Card) :=
  match cards_ with
  | [] => Throw (runtime_error "Cannot deal from empty deck")
  | c0 :: _ => Ok (last cards_ c0, removelast cards_)
  end.

(** [std::to_string] on a [size_t]. *)
Definition to_string (n : nat) : string :=
  NilZero.string_of_uint (Nat.to_uint n).

(** Loop of [dealMultiple]. *)
Fixpoint dealLoop (count : nat) (dealt cards_ : list Card)
  : Result (list Card * list Card) :=
  match count with
  | O => Ok (dealt, cards_)
  | S n =>
      r <- deal cards_ ;;
      dealLoop n (dealt ++ [fst r]) (snd r)
  end.

(** [Deck::dealMultiple]: the dealt cards and the remaining deck. *)
Definition dealMultiple (count : nat) (cards_ : list Card)
  : Result (list Card * list Card) :=
  if Nat.ltb (size cards_) count then
    Throw (runtime_error
             (String.append "Not enough cards in deck. Requested: "
                (String.append (to_string count)
                   (String.append ", Available: " (to_string (size cards_))))))
  else dealLoop count [] cards_.

End Deck.

(** ** Hand.h, Hand.cpp *)

Inductive SortOrder : Type := ByRank | BySuit.

Module Hand.

(** The state of a [Hand] is its vector [cards_]. *)

(** [Hand::addCard] *)
Definition addCard (cards_ : list Card) (card : Card) : list Card :=
  cards_ ++ [card].

(** [Hand::addCards] *)
Definition addCards (cards_ cards : list Card) : list Card :=
  cards_ ++ cards.

(** [Hand::hasCard] *)
Definition hasCard (cards_ : list Card) (card : Card) : bool :=
  existsb (fun c => CardOps.eq c card) cards_.

(** [Hand::removeCard]: [std::find] then [erase] of the position found;
    the result flag and the hand afterwards. *)
Fixpoint removeCard (cards_ : list Card) (card : Card) : bool * list Card :=
  match cards_ with
  | [] => (false, [])
  | c :: rest =>
      if CardOps.eq c card then (true, rest)
      else let r := removeCard rest card in (fst r, c :: snd r)
  end.

(** [Hand::hasCards] *)
Fixpoint hasCards (cards_ cards : list Card) : bool :=
  match cards with
  | [] => true
  | card :: rest =>
      if negb (hasCard cards_ card) then false else hasCards cards_ rest
  end.

(** Second loop of [removeCards]: each card is removed in turn, the
    flag of [removeCard] being dropped. *)
Fixpoint removeEach (cards_ cards : list Card) : list Card :=
  match cards with
  | [] => cards_
  | card :: rest => removeEach (snd (removeCard cards_ card)) rest
  end.

(** [Hand::removeCards]; its first loop is the loop of [hasCards]. *)
Definition removeCards (cards_ cards : list Card) : bool * list Card :=
  if negb (hasCards cards_ cards) then (false, cards_)
  else (true, removeEach cards_ cards).

(** [Hand::compareByRank] *)
Definition compareByRank (a b : Card) : bool :=
  if negb (rank_eqb (getRank a) (getRank b))
  then rank_ltb (getRank a) (getRank b)
  else suit_ltb (getSuit a) (getSuit b).

(** [Hand::compareBySuit] *)
Definition compareBySuit (a b : Card) : bool :=
  if negb (suit_eqb (getSuit a) (getSuit b))
  then suit_ltb (getSuit a) (getSuit b)
  else rank_ltb (getRank a) (getRank b).

(** [std::sort] with a comparator: modelled by insertion sort.  Both
    comparators of [Hand] are strict total orders on cards, so the sorted
    arrangement of a given hand is unique. *)
Fixpoint insertSorted (less : Card -> Card -> bool) (c : Card)
    (l : list Card) : list Card :=
  match l with
  | [] => [c]
  | h :: t => if less h c then h :: insertSorted less c t else c :: h :: t
  end.

Definition stdSort (less : Card -> Card -> bool) (l : list Card) : list Card :=
  fold_right (insertSorted less) [] l.

(** [Hand::sort] *)
Definition sort (order : SortOrder) (cards_ : list Card) : list Card :=
  match order with
  | ByRank => stdSort compareByRank cards_
  | BySuit => stdSort compareBySuit cards_
  end.

(** [Hand::findCards]: a string that fails to parse is skipped, as is a
    card that is not in the hand. *)
Fixpoint findCards (cards_ : list Card) (cardStrings : list string)
  : list Card :=
  match cardStrings with
  | [] => []
  | cardStr :: rest =>
      match parseCard cardStr with
      | Ok searchCard =>
          if hasCard cards_ searchCard
          then searchCard :: findCards cards_ rest
          else findCards cards_ rest
      | Throw _ => findCards cards_ rest
      end
  end.

(** [Hand::size], [Hand::isEmpty], [Hand::clear] *)
Definition size (cards_ : list Card) : nat := List.length cards_.
Definition isEmpty (cards_ : list Card) : bool :=
  match cards_ with [] => true | _ :: _ => false end.
Definition clear (cards_ : list Card) : list Card := [].

(** [Hand::hasThreeOfDiamonds] *)
Definition hasThreeOfDiamonds (cards_ : list Card) : bool :=
  let threeOfDiamonds := mkCard Three Diamonds in
  hasCard cards_ threeOfDiamonds.

(** The loop shared by [Hand::toString] and [Hand::toDisplayString]:
    the encodings separated by single spaces. *)
Fixpoint joinCards (encode : Card -> string) (first : bool)
    (cards_ : list Card) : string :=
  match cards_ with
  | [] => EmptyString
  | c :: rest =>
      String.append (if first then EmptyString else " "%string)
        (String.append (encode c) (joinCards encode false rest))
  end.

(** [Hand::toString] *)
Definition toString (cards_ : list Card) : string :=
  if isEmpty cards_ then "Empty hand"%string
  else joinCards toString true cards_.

(** [Hand::toDisplayString] *)
Definition toDisplayString (cards_ : list Card) : string :=
  if isEmpty cards_ then "Empty hand"%string
  else joinCards toDisplayString true cards_.

End Hand.

(** ** GameRules.cpp: play type names *)

(** [GameRules::getPlayTypeName] *)
Definition getPlayTypeName (type : PlayType.t) (fiveCardType : FiveCardType.t)
  : string :=
  match type with
  | PlayType.Single => "Single"
  | PlayType.Pair => "Pair"
  | PlayType.Triple => "Triple"
  | PlayType.FiveCard =>
      match fiveCardType with
      | FiveCardType.Straight => "Straight"
      | FiveCardType.Flush => "Flush"
      | FiveCardType.FullHouse => "Full House"
      | FiveCardType.FourOfAKind => "Four of a Kind"
      | FiveCardType.StraightFlush => "Straight Flush"
      | FiveCardType.None => "Five Card"
      end
  | PlayType.Invalid => "Invalid"
  end%string.

(** ** Player.h, Player.cpp *)

Inductive PlayerType : Type := Human | AI.

Record Player : Type := mkPlayer {
  name_ : string;
  type_ : PlayerType;
  hand_ : list Card;
  score_ : Z;
  hasPassed_ : bool
}.

Module PlayerOps.

(** [Player::Player] *)
Definition newPlayer (name : string) (type : PlayerType) : Player :=
  mkPlayer name type [] 0 false.

(** Access to the hand through [Player::getHand]. *)
Definition withHand (p : Player) (hand : list Card) : Player :=
  mkPlayer (name_ p) (type_ p) hand (score_ p) (hasPassed_ p).

(** [Player::setHasPassed], [Player::resetPass] *)
Definition setHasPassed (p : Player) (passed : bool) : Player :=
  mkPlayer (name_ p) (type_ p) (hand_ p) (score_ p) passed.
Definition resetPass (p : Player) : Player := setHasPassed p false.

(** [Player::hasWon] *)
Definition hasWon (p : Player) : bool := Hand.isEmpty (hand_ p).

(** [Player::clearHand] *)
Definition clearHand (p : Player) : Player := withHand p (Hand.clear (hand_ p)).

(** [Player::dealCards] *)
Definition dealCards (p : Player) (cards : list Card) : Player :=
  withHand p (Hand.addCards (hand_ p) cards).

End PlayerOps.

(** ** GameState.h, GameState.cpp *)

Inductive GamePhase : Type := NotStarted | InProgress | Finished.

Record GameState : Type := mkGameState {
  players_ : list Player;
  deck_ : list Card;
  currentPlayerIndex_ : N;
  lastPlay_ : list Card;
  lastPlayingPlayerIndex_ : N;
  phase_ : GamePhase;
  consecutivePasses_ : Z;
  firstPlayOfGame_ : bool
}.

Module GameStateOps.

(** [GameState::GameState]; the deck starts as [Deck::Deck] leaves it. *)
Definition newGameState : GameState :=
  mkGameState [] Deck.initializeDeck 0 [] 0 NotStarted 0 true.

(** [std::to_string] on a [size_t]. *)
Definition to_string (n : N) : string := NilZero.string_of_uint (N.to_uint n).

(** [GameState::generatePlayerName]; [index + 1] is a [size_t] sum. *)
Definition generatePlayerName (index : N) (type : PlayerType) : string :=
  match type with
  | Human =>
      if N.eqb index 0 then "You"%string
      else String.append "Player " (to_string ((index + 1) mod 2 ^ 64))
  | AI =>
      let aiNames := ["CPU Alice"; "CPU Bob"; "CPU Charlie"; "CPU Dana"]%string in
      match nth_error aiNames (N.to_nat index) with
      | Some name => name
      | None => String.append "CPU " (to_string ((index + 1) mod 2 ^ 64))
      end
  end.

(** The values [i] of a loop [for (int i = from; i < to; ++i)]. *)
Definition intRange (from to : Z) : list Z :=
  map (fun k => from + Z.of_nat k) (seq 0 (Z.to_nat (to - from))).

(** [GameState::initializePlayers]: the players created. *)
Definition initializePlayers (numPlayers numHumans : Z) : list Player :=
  let numPlayers := Z.max 2 (Z.min 4 numPlayers) in
  let numHumans := Z.max 0 (Z.min numHumans numPlayers) in
  map (fun i => PlayerOps.newPlayer (generatePlayerName (Z.to_N i) Human) Human)
      (intRange 0 numHumans) ++
  map (fun i => PlayerOps.newPlayer (generatePlayerName (Z.to_N i) AI) AI)
      (intRange numHumans numPlayers).

(** [players_[playerIndex].getHand().addCard(card)] *)
Fixpoint giveCard (playerIndex : nat) (card : Card) (players : list Player)
  : list Player :=
  match players, playerIndex with
  | [], _ => []
  | p :: rest, O => PlayerOps.withHand p (Hand.addCard (hand_ p) card) :: rest
  | p :: rest, S k => p :: giveCard k card rest
  end.

(** First loop of [dealCards], from iteration [i], [count] iterations
    to go. *)
Fixpoint dealRounds (count i numPlayers : nat)
    (players : list Player) (deck : list Card)
  : Result (list Player * list Card) :=
  match count with
  | O => Ok (players, deck)
  | S count' =>
      r <- Deck.deal deck ;;
      dealRounds count' (S i) numPlayers
        (giveCard (i mod numPlayers) (fst r) players) (snd r)
  end.

(** [GameState::dealCards]: the players and the deck afterwards. *)
Definition dealCards (players : list Player) (deck : list Card)
  : Result (list Player * list Card) :=
  match players with
  | [] => Ok (players, deck)
  | _ :: _ =>
      let numPlayers := List.length players in
      let cardsPerPlayer := (52 / numPlayers)%nat in
      r <- dealRounds (cardsPerPlayer * numPlayers) 0 numPlayers players deck ;;
      Ok (map (fun p => PlayerOps.withHand p (Hand.sort ByRank (hand_ p)))
            (fst r),
          snd r)
  end.

(** Loop of [findStartingPlayer], from index [i]. *)
Fixpoint findThreeOfDiamonds (i : N) (players : list Player) : option N :=
  match players with
  | [] => None
  | p :: rest =>
      if Hand.hasThreeOfDiamonds (hand_ p) then Some i
      else findThreeOfDiamonds (i + 1) rest
  end.

(** [GameState::findStartingPlayer] *)
Definition findStartingPlayer (players : list Player) : N :=
  match findThreeOfDiamonds 0 players with
  | Some i => i
  | None => 0
  end.

(** [GameState::startNewGame]; [rng] is the rearrangement the shuffle
    performs. *)
Definition startNewGame (rng : list Card -> list Card) (g : GameState)
  : Result GameState :=
  let deck := Deck.shuffle rng (Deck.reset (deck_ g)) in
  let players :=
    map (fun p => PlayerOps.resetPass (PlayerOps.clearHand p)) (players_ g) in
  r <- dealCards players deck ;;
  let current := findStartingPlayer (fst r) in
  Ok (mkGameState (fst r) (snd r) current [] current InProgress 0 true).

(** [GameState::getCurrentPlayer], [GameState::getPlayer]: [None] is the
    null pointer. *)
Definition getPlayer (g : GameState) (index : N) : option Player :=
  if N.leb (N.of_nat (List.length (players_ g))) index then None
  else nth_error (players_ g) (N.to_nat index).
Definition getCurrentPlayer (g : GameState) : option Player :=
  getPlayer g (currentPlayerIndex_ g).
Definition getLastPlayingPlayer (g : GameState) : option Player :=
  getPlayer g (lastPlayingPlayerIndex_ g).

(** [GameState::resetAllPasses] *)
Definition resetAllPasses (g : GameState) : GameState :=
  mkGameState (map PlayerOps.resetPass (players_ g)) (deck_ g)
    (currentPlayerIndex_ g) (lastPlay_ g) (lastPlayingPlayerIndex_ g)
    (phase_ g) (consecutivePasses_ g) (firstPlayOfGame_ g).

(** [GameState::resetPasses] *)
Definition resetPasses (g : GameState) : GameState :=
  mkGameState (players_ g) (deck_ g) (currentPlayerIndex_ g) (lastPlay_ g)
    (lastPlayingPlayerIndex_ g) (phase_ g) 0 (firstPlayOfGame_ g).

(** [GameState::setLastPlay] *)
Definition setLastPlay (g : GameState) (cards : list Card) (playerIndex : N)
  : GameState :=
  resetPasses
    (mkGameState (players_ g) (deck_ g) (currentPlayerIndex_ g) cards
       playerIndex (phase_ g) (consecutivePasses_ g) (firstPlayOfGame_ g)).

(** [GameState::clearLastPlay] *)
Definition clearLastPlay (g : GameState) : GameState :=
  resetPasses
    (resetAllPasses
       (mkGameState (players_ g) (deck_ g) (currentPlayerIndex_ g) []
          (lastPlayingPlayerIndex_ g) (phase_ g) (consecutivePasses_ g)
          (firstPlayOfGame_ g))).

(** [GameState::nextTurn]; with no players the remainder by zero is
    undefined, rendered as [None]. *)
Definition nextTurn (g : GameState) : option GameState :=
  match players_ g with
  | [] => None
  | _ :: _ =>
      Some (mkGameState (players_ g) (deck_ g)
              (((currentPlayerIndex_ g + 1) mod 2 ^ 64)
                 mod N.of_nat (List.length (players_ g)))
              (lastPlay_ g) (lastPlayingPlayerIndex_ g) (phase_ g)
              (consecutivePasses_ g) (firstPlayOfGame_ g))
  end.

(** [static_cast<int>] of a [size_t]. *)
Definition static_cast_int (n : Z) : Z := (n + 2 ^ 31) mod 2 ^ 32 - 2 ^ 31.

(** Loop of [allOthersHavePassed], from index [i]. *)
Fixpoint countPassed (lastPlaying i : N) (passCount : Z)
    (players : list Player) : Z :=
  match players with
  | [] => passCount
  | p :: rest =>
      countPassed lastPlaying (i + 1)
        (if negb (N.eqb i lastPlaying) && hasPassed_ p
         then passCount + 1 else passCount)
        rest
  end.

(** [GameState::allOthersHavePassed] *)
Definition allOthersHavePassed (g : GameState) : bool :=
  if Nat.leb (List.length (players_ g)) 1 then true
  else
    let passCount := countPassed (lastPlayingPlayerIndex_ g) 0 0 (players_ g) in
    Z.geb passCount
      (static_cast_int (Z.of_nat (List.length (players_ g))) - 1).

(** [GameState::findWinner] *)
Fixpoint findWinner (players : list Player) : option Player :=
  match players with
  | [] => None
  | p :: rest => if PlayerOps.hasWon p then Some p else findWinner rest
  end.

End GameStateOps.

(** * Vocabulary of the statements *)

(** Turns the boolean integer tests of a goal into propositions. *)
Ltac zbool :=
  unfold CardOps.eq, CardOps.ne, CardOps.lt, CardOps.gt, CardOps.le,
    CardOps.ge, GameRules.rankLess, rank_eqb, rank_ltb, suit_eqb, suit_ltb in *;
  repeat match goal with
    | H : context [Z.eqb ?x ?y] |- _ => destruct (Z.eqb_spec x y)
    | H : context [Z.ltb ?x ?y] |- _ => destruct (Z.ltb_spec x y)
    | |- context [Z.eqb ?x ?y] => destruct (Z.eqb_spec x y)
    | |- context [Z.ltb ?x ?y] => destruct (Z.ltb_spec x y)
    end;
  simpl in *.

(** Exactly one of three boolean tests succeeds. *)
Definition exactlyOne (p q r : bool) : Prop :=
  (p = true /\ q = false /\ r = false) \/
  (p = false /\ q = true /\ r = false) \/
  (p = false /\ q = false /\ r = true).

Definition allRanks : list Rank :=
  [Three; Four; Five; Six; Seven; Eight; Nine; Ten; Jack; Queen; King; Ace; Two].

Definition allSuits : list Suit := [Diamonds; Clubs; Hearts; Spades].

(** Integer rank of a card, [static_cast<int>(c.getRank())]. *)
Definition rankOf (c : Card) : Z := rankValue (getRank c).

Definition ranksOf (cards : list Card) : list Z := map rankOf cards.

(** Postcondition of [std::sort] with the comparator [rankLess]: no card
    is ranked below one that precedes it. *)
Definition sortedByRank (s : list Card) : Prop :=
  StronglySorted (fun a b => GameRules.rankLess b a = false) s.

(** Every adjacent pair of the sequence rises by exactly one. *)
Definition stepsByOne (rs : list Z) : Prop :=
  forall (i : nat) (a b : Z),
    nth_error rs i = Some a -> nth_error rs (S i) = Some b -> b = a + 1.

Definition fullHousePattern (rs : list Z) : bool :=
  match rs with
  | [r0; r1; r2; r3; r4] =>
      ((r0 =? r1) && (r1 =? r2) && (r3 =? r4)) ||
      ((r0 =? r1) && (r2 =? r3) && (r3 =? r4))
  | _ => false
  end.

Definition fourOfAKindPattern (rs : list Z) : bool :=
  match rs with
  | [r0; r1; r2; r3; r4] =>
      ((r0 =? r1) && (r1 =? r2) && (r2 =? r3)) ||
      ((r1 =? r2) && (r2 =? r3) && (r3 =? r4))
  | _ => false
  end.

(** The five shape predicates of the classifier. *)
Definition shapeTests (cards : list Card) : list bool :=
  [ GameRules.isStraight cards && negb (GameRules.isFlush cards);
    GameRules.isFlush cards && negb (GameRules.isStraight cards);
    GameRules.isFullHouse cards;
    GameRules.isFourOfAKind cards;
    GameRules.isStraightFlush cards ].

(** A concrete duplicate-free hand: 3 4 5 6 7 of hearts. *)
Definition heartsRun : list Card :=
  [mkCard Three Hearts; mkCard Four Hearts; mkCard Five Hearts;
   mkCard Six Hearts; mkCard Seven Hearts].

(** Position of a card in the total order: rank first, then suit. *)
Definition cardKey (c : Card) : Z := 4 * rankOf c + suitValue (getSuit c).

(** [h] is a maximum of [cards] for the card order. *)
Definition isHighestOf (h : Card) (cards : list Card) : Prop :=
  In h cards /\ forall x, In x cards -> CardOps.gt x h = false.

(** The classifier as the specification words it: by size, then by the
    shared-rank condition; for five cards, by whether one of the five
    sub-shapes matches. *)
Definition classifyReference (cards : list Card) : PlayType.t :=
  match cards with
  | [_] => PlayType.Single
  | [c0; c1] =>
      if rank_eqb (getRank c0) (getRank c1)
      then PlayType.Pair else PlayType.Invalid
  | [c0; c1; c2] =>
      if rank_eqb (getRank c0) (getRank c1) && rank_eqb (getRank c0) (getRank c2)
      then PlayType.Triple else PlayType.Invalid
  | [_; _; _; _; _] =>
      if GameRules.isStraight cards || GameRules.isFlush cards ||
         GameRules.isFullHouse cards || GameRules.isFourOfAKind cards
      then PlayType.FiveCard else PlayType.Invalid
  | _ => PlayType.Invalid
  end.

Definition threeOfDiamonds : Card := mkCard Three Diamonds.
Definition fourOfClubs : Card := mkCard Four Clubs.

(** The verdict is an acceptance. *)
Definition accepted (v : Result PlayValidation) : Prop :=
  exists r, v = Ok r /\ isValid r = true.

(** The verdict is a rejection carrying [reason]. *)
Definition rejectedWith (v : Result PlayValidation) (reason : string) : Prop :=
  exists r, v = Ok r /\ isValid r = false /\ errorMessage r = reason.

(** The candidate classifies to a non-Invalid shape, with a non-None
    sub-shape when the shape is FiveCard. *)
Definition classifiesValid (cards : list Card) : Prop :=
  GameRules.determinePlayType cards <> PlayType.Invalid /\
  (GameRules.determinePlayType cards = PlayType.FiveCard ->
   GameRules.determineFiveCardType cards <> FiveCardType.None).

(** No constraint from the table: first play, or empty last play. *)
Definition unconstrained (isFirstPlay : bool) (lastPlay : list Card) : Prop :=
  isFirstPlay = true \/ lastPlay = [].

(** Sub-shape carried by a verdict for [cards]. *)
Definition subShapeOf (cards : list Card) : FiveCardType.t :=
  if PlayType.eqb (GameRules.determinePlayType cards) PlayType.FiveCard
  then GameRules.determineFiveCardType cards
  else FiveCardType.None.

(** A comparator that throws outside the precondition "both plays
    non-empty and of the same size" and is [doesPlayBeat] inside it. *)
Definition guardedBeats (newPlay lastPlay : list Card) : Result bool :=
  if GameRules.empty newPlay || GameRules.empty lastPlay ||
     negb (Nat.eqb (List.length newPlay) (List.length lastPlay))
  then Throw (runtime_error "comparator precondition violated")
  else GameRules.doesPlayBeat newPlay lastPlay.

(** Decoding a token and encoding the card again with [toString]. *)
Definition roundTrip (token : string) : Result string :=
  c <- parseCard token ;; Ok (toString c).

(** The same with [toDisplayString] as the encoder. *)
Definition roundTripDisplay (token : string) : Result string :=
  c <- parseCard token ;; Ok (toDisplayString c).

Definition rankTokens : list string :=
  ["3"; "4"; "5"; "6"; "7"; "8"; "9"; "T"; "t"; "10";
   "J"; "j"; "Q"; "q"; "K"; "k"; "A"; "a"; "2"]%string.

Definition suitTokens : list string :=
  ["D"; "d"; "C"; "c"; "H"; "h"; "S"; "s"]%string.

(** The valid card tokens: a rank token followed by a suit letter. *)
Definition validTokens : list string :=
  flat_map (fun r => map (fun s => String.append r s) suitTokens) rankTokens.

Fixpoint uppercase (s : string) : string :=
  match s with
  | EmptyString => EmptyString
  | String c rest => String (toupper c) (uppercase rest)
  end.

(** Canonical form of a token: uppercase rank and suit, the ten written
    as the two characters 1 0. *)
Definition canonicalForm (token : string) : string :=
  match uppercase token with
  | String "T"%char rest => String "1"%char (String "0"%char rest)
  | u => u
  end.

Definition isTenToken (token : string) : bool :=
  String.prefix "10" (canonicalForm token).

Definition yields (r : Result string) (expected : string) : bool :=
  match r with
  | Ok s => String.eqb s expected
  | Throw _ => false
  end.

Definition kingsOverThrees : list Card :=
  [mkCard King Spades; mkCard Three Clubs; mkCard King Hearts;
   mkCard Three Diamonds; mkCard King Diamonds].

Definition fourNines : list Card :=
  [mkCard Nine Spades; mkCard Nine Hearts; mkCard Four Diamonds;
   mkCard Nine Diamonds; mkCard Nine Clubs].

(** The tokens [Card(const std::string&)] accepts as the start of a card
    string: the valid tokens, and the digit 1 followed by a suit letter. *)
Definition acceptedTokens : list string :=
  validTokens ++ map (fun s => String.append "1" s) suitTokens.

(** Membership of a string in a list of strings, as a test. *)
Definition memString (s : string) (l : list string) : bool :=
  existsb (String.eqb s) l.

(** The characters [charToRank] and [charToSuit] accept. *)
Definition rankLetters : list ascii :=
  ["3"; "4"; "5"; "6"; "7"; "8"; "9"; "T"; "t"; "1";
   "J"; "j"; "Q"; "q"; "K"; "k"; "A"; "a"; "2"]%char.

Definition suitLetters : list ascii :=
  ["D"; "d"; "C"; "c"; "H"; "h"; "S"; "s"]%char.

Definition memAscii (c : ascii) (l : list ascii) : bool :=
  existsb (Ascii.eqb c) l.

(** Strength of a play: the rank of its five-card sub-shape first, its
    highest card second. *)
Definition playStrength (cards : list Card) : Z :=
  100 * GameRules.getFiveCardRank (GameRules.determineFiveCardType cards) +
  match GameRules.getHighestCard cards with
  | Ok h => cardKey h
  | Throw _ => 0
  end.

(** The reasons a rejection can carry. *)
Definition rejectionReasons : list string :=
  ["No cards selected";
   "First play must include 3 of Diamonds";
   "Invalid card combination";
   "Must play same number of cards as last play";
   "Play does not beat the previous play"]%string.

(** The names an accepted play can be announced under. *)
Definition acceptedPlayNames : list string :=
  ["Single"; "Pair"; "Triple"; "Straight"; "Flush"; "Full House";
   "Four of a Kind"; "Straight Flush"]%string.

(** The comparator [Hand::sort] hands to [std::sort]. *)
Definition comparatorOf (order : SortOrder) : Card -> Card -> bool :=
  match order with
  | ByRank => Hand.compareByRank
  | BySuit => Hand.compareBySuit
  end.

(** Position of a card in the suit-first order. *)
Definition suitKey (c : Card) : Z := 16 * suitValue (getSuit c) + rankOf c.

Definition sortKey (order : SortOrder) : Card -> Z :=
  match order with
  | ByRank => cardKey
  | BySuit => suitKey
  end.

(** Postcondition of [std::sort] with the comparator [less]. *)
Definition sortedBy (less : Card -> Card -> bool) (s : list Card) : Prop :=
  StronglySorted (fun a b => less b a = false) s.

(** All the cards held by the players. *)
Definition allCards (players : list Player) : list Card :=
  flat_map hand_ players.

(** [p'] is [p] with possibly another hand. *)
Definition samePlayer (p p' : Player) : Prop :=
  name_ p' = name_ p /\ type_ p' = type_ p /\
  score_ p' = score_ p /\ hasPassed_ p' = hasPassed_ p.

(** One card to each player in turn. *)
Fixpoint zipGive (players : list Player) (cards : list Card) : list Player :=
  match players, cards with
  | p :: ps, c :: cs =>
      PlayerOps.withHand p (Hand.addCard (hand_ p) c) :: zipGive ps cs
  | _, _ => players
  end.

(** What [startNewGame] makes of a player: same name, type and score,
    no pass, and a hand of [c] cards sorted by rank. *)
Definition dealtPlayer (c : nat) (p p' : Player) : Prop :=
  name_ p' = name_ p /\ type_ p' = type_ p /\ score_ p' = score_ p /\
  hasPassed_ p' = false /\
  Hand.size (hand_ p') = c /\
  sortedBy Hand.compareByRank (hand_ p').

(** The rearrangement made by a shuffle: some permutation. *)
Definition permutes (rng : list Card -> list Card) : Prop :=
  forall l : list Card, Permutation (rng l) l.

(** A game of the given number of players, before it is started. *)
Definition gameOf (numPlayers : Z) : GameState :=
  mkGameState (GameStateOps.initializePlayers numPlayers 1)
    Deck.initializeDeck 0 [] 0 NotStarted 0 true.

(** The state [startNewGame] reaches from [g] when it does not throw. *)
Definition started (rng : list Card -> list Card) (g : GameState) : GameState :=
  match GameStateOps.startNewGame rng g with
  | Ok g' => g'
  | Throw _ => g
  end.

(** A shuffle that leaves the deck as it is. *)
Definition noShuffle (l : list Card) : list Card := l.

(** [k] calls of [nextTurn] in a row. *)
Fixpoint turns (k : nat) (g : GameState) : option GameState :=
  match k with
  | O => Some g
  | S k' =>
      match GameStateOps.nextTurn g with
      | Some g' => turns k' g'
      | None => None
      end
  end.

(** [g] with another current player. *)
Definition withCurrent (g : GameState) (index : N) : GameState :=
  mkGameState (players_ g) (deck_ g) index (lastPlay_ g)
    (lastPlayingPlayerIndex_ g) (phase_ g) (consecutivePasses_ g)
    (firstPlayOfGame_ g).

(** Every player of [players], numbered from [i], other than number
    [lastPlaying] has passed. *)
Definition othersPassed (lastPlaying i : N) (players : list Player) : Prop :=
  forall (j : nat) (p : Player),
    nth_error players j = Some p ->
    (i + N.of_nat j)%N <> lastPlaying -> hasPassed_ p = true.

(** Number [lastPlaying] is among the [len] numbers from [i] on. *)
Definition inRange (lastPlaying i : N) (len : nat) : bool :=
  (N.leb i lastPlaying && N.ltb lastPlaying (i + N.of_nat len))%bool.

(** * Properties *)

(** ** The card order *)

Lemma rankValue_inj (a b : Rank) : rankValue a = rankValue b -> a = b.
Proof. destruct a, b; simpl; intros H; (reflexivity || discriminate H). Qed.

Lemma suitValue_inj (a b : Suit) : suitValue a = suitValue b -> a = b.
Proof. destruct a, b; simpl; intros H; (reflexivity || discriminate H). Qed.

Lemma rank_eqb_eq (a b : Rank) : rank_eqb a b = true <-> a = b.
Proof.
  unfold rank_eqb. rewrite Z.eqb_eq. split.
  - apply rankValue_inj.
  - intros ->. reflexivity.
Qed.

Lemma suit_eqb_eq (a b : Suit) : suit_eqb a b = true <-> a = b.
Proof.
  unfold suit_eqb. rewrite Z.eqb_eq. split.
  - apply suitValue_inj.
  - intros ->. reflexivity.
Qed.

Lemma rank_eqb_refl (a : Rank) : rank_eqb a a = true.
Proof. apply rank_eqb_eq. reflexivity. Qed.

Lemma suit_eqb_refl (a : Suit) : suit_eqb a a = true.
Proof. apply suit_eqb_eq. reflexivity. Qed.

Lemma card_ext (a b : Card) :
  getRank a = getRank b -> getSuit a = getSuit b -> a = b.
Proof. destruct a, b; simpl; intros -> ->; reflexivity. Qed.

Lemma card_eq_true (a b : Card) : CardOps.eq a b = true <-> a = b.
Proof.
  unfold CardOps.eq. rewrite andb_true_iff, rank_eqb_eq, suit_eqb_eq. split.
  - intros [Hr Hs]. now apply card_ext.
  - intros ->. split; reflexivity.
Qed.

Lemma card_lt_spec (a b : Card) :
  CardOps.lt a b = true <->
  rankValue (getRank a) < rankValue (getRank b) \/
  (getRank a = getRank b /\ suitValue (getSuit a) < suitValue (getSuit b)).
Proof.
  split.
  - intros H. zbool; try discriminate; try lia.
    right. split; [now apply rankValue_inj | assumption].
  - intros [H | [Hr H]]; unfold CardOps.lt; [| rewrite Hr];
      zbool; try reflexivity; try lia.
Qed.

Lemma card_lt_irrefl (a : Card) : CardOps.lt a a = false.
Proof. zbool; try reflexivity; lia. Qed.

Lemma card_lt_trans (a b c : Card) :
  CardOps.lt a b = true -> CardOps.lt b c = true -> CardOps.lt a c = true.
Proof.
  rewrite !card_lt_spec. intros [H1 | [H1 H1']] [H2 | [H2 H2']].
  - left; lia.
  - left; rewrite <- H2; exact H1.
  - left; rewrite H1; exact H2.
  - right; split; [congruence | lia].
Qed.

Lemma card_lt_asym (a b : Card) :
  CardOps.lt a b = true -> CardOps.lt b a = false.
Proof.
  intros H. destruct (CardOps.lt b a) eqn:E; [| reflexivity].
  pose proof (card_lt_trans _ _ _ H E) as F.
  rewrite card_lt_irrefl in F. discriminate F.
Qed.

Lemma card_lt_total (a b : Card) :
  CardOps.lt a b = false -> CardOps.lt b a = false -> a = b.
Proof.
  intros H1 H2. apply card_ext.
  - apply rankValue_inj. zbool; try discriminate; lia.
  - apply suitValue_inj. zbool; try discriminate; lia.
Qed.

(** C2: the comparison operators of [Card] form a strict total order:
    exactly one of [a < b], [a == b], [a > b] holds; [<] is irreflexive
    and transitive; rank is compared first and suit breaks rank ties; the
    ranks are ordered 3 < 4 < ... < K < A < 2 and the suits
    Diamonds < Clubs < Hearts < Spades; every Two is greater than every
    Ace, which is greater than every King. *)
Theorem card_order_strict_total :
  (forall a b : Card,
      exactlyOne (CardOps.lt a b) (CardOps.eq a b) (CardOps.gt a b)) /\
  (forall a b : Card, CardOps.eq a b = true <-> a = b) /\
  (forall a : Card, CardOps.lt a a = false) /\
  (forall a b c : Card,
      CardOps.lt a b = true -> CardOps.lt b c = true -> CardOps.lt a c = true) /\
  (forall a b : Card,
      CardOps.lt a b =
        if rank_eqb (getRank a) (getRank b)
        then suit_ltb (getSuit a) (getSuit b)
        else rank_ltb (getRank a) (getRank b)) /\
  StronglySorted (fun r1 r2 => rank_ltb r1 r2 = true) allRanks /\
  (forall r : Rank, In r allRanks) /\
  StronglySorted (fun s1 s2 => suit_ltb s1 s2 = true) allSuits /\
  (forall s : Suit, In s allSuits) /\
  (forall s1 s2 s3 : Suit,
      CardOps.gt (mkCard Two s1) (mkCard Ace s2) = true /\
      CardOps.gt (mkCard Ace s2) (mkCard King s3) = true /\
      CardOps.gt (mkCard Two s1) (mkCard King s3) = true).
Proof.
  split; [| split; [| split; [| split; [| split; [| split;
    [| split; [| split; [| split]]]]]]]].
  - intros a b. unfold exactlyOne, CardOps.gt.
    destruct (CardOps.lt a b) eqn:Hab.
    + left. split; [reflexivity |]. split.
      * destruct (CardOps.eq a b) eqn:E; [| reflexivity].
        apply card_eq_true in E. subst b.
        rewrite card_lt_irrefl in Hab. discriminate Hab.
      * now apply card_lt_asym.
    + destruct (CardOps.lt b a) eqn:Hba.
      * right; right. split; [reflexivity |]. split; [| reflexivity].
        destruct (CardOps.eq a b) eqn:E; [| reflexivity].
        apply card_eq_true in E. subst b.
        rewrite card_lt_irrefl in Hba. discriminate Hba.
      * right; left. split; [reflexivity |]. split; [| reflexivity].
        apply card_eq_true. now apply card_lt_total.
  - exact card_eq_true.
  - exact card_lt_irrefl.
  - exact card_lt_trans.
  - intros a b. unfold CardOps.lt.
    destruct (rank_eqb (getRank a) (getRank b)); reflexivity.
  - unfold allRanks.
    repeat (apply SSorted_cons;
            [| repeat (apply Forall_cons; [reflexivity |]); apply Forall_nil]).
    apply SSorted_nil.
  - intros r. destruct r; simpl; tauto.
  - unfold allSuits.
    repeat (apply SSorted_cons;
            [| repeat (apply Forall_cons; [reflexivity |]); apply Forall_nil]).
    apply SSorted_nil.
  - intros s. destruct s; simpl; tauto.
  - intros s1 s2 s3. repeat split; reflexivity.
Qed.

(** ** Sorting by rank *)

Lemma rankLess_false (a b : Card) :
  GameRules.rankLess b a = false <-> rankOf a <= rankOf b.
Proof. unfold GameRules.rankLess, rank_ltb, rankOf. rewrite Z.ltb_ge. tauto. Qed.

Lemma rankLess_true (a b : Card) :
  GameRules.rankLess a b = true <-> rankOf a < rankOf b.
Proof. unfold GameRules.rankLess, rank_ltb, rankOf. apply Z.ltb_lt. Qed.

Lemma rank_eqb_rankOf (a b : Card) :
  rank_eqb (getRank a) (getRank b) = (rankOf a =? rankOf b).
Proof. reflexivity. Qed.

Lemma insertByRank_perm (c : Card) (l : list Card) :
  Permutation (GameRules.insertByRank c l) (c :: l).
Proof.
  induction l as [| h t IH]; simpl.
  - apply Permutation_refl.
  - destruct (GameRules.rankLess h c).
    + eapply perm_trans; [apply perm_skip, IH | apply perm_swap].
    + apply Permutation_refl.
Qed.

Lemma sortByRank_perm (l : list Card) : Permutation (GameRules.sortByRank l) l.
Proof.
  induction l as [| c t IH]; simpl.
  - apply perm_nil.
  - eapply perm_trans; [apply insertByRank_perm | apply perm_skip, IH].
Qed.

Lemma sortByRank_length (l : list Card) :
  List.length (GameRules.sortByRank l) = List.length l.
Proof. apply Permutation_length, sortByRank_perm. Qed.

Lemma insertByRank_sorted (c : Card) (l : list Card) :
  sortedByRank l -> sortedByRank (GameRules.insertByRank c l).
Proof.
  unfold sortedByRank. induction l as [| h t IH]; intros Hs; simpl.
  - apply SSorted_cons; [apply SSorted_nil | apply Forall_nil].
  - inversion Hs as [| ? ? Ht Hh]; subst.
    destruct (GameRules.rankLess h c) eqn:E.
    + apply SSorted_cons; [apply IH, Ht |].
      eapply Permutation_Forall;
        [apply Permutation_sym, insertByRank_perm |].
      apply Forall_cons; [| exact Hh].
      apply rankLess_false. apply rankLess_true in E. lia.
    + apply SSorted_cons; [exact Hs |].
      apply Forall_cons; [exact E |].
      eapply Forall_impl; [| exact Hh].
      intros x Hx. apply rankLess_false in Hx, E.
      apply rankLess_false. lia.
Qed.

Lemma sortByRank_sorted (l : list Card) : sortedByRank (GameRules.sortByRank l).
Proof.
  induction l as [| c t IH]; simpl.
  - apply SSorted_nil.
  - apply insertByRank_sorted, IH.
Qed.

Lemma sortedByRank_ranks (s : list Card) :
  sortedByRank s -> StronglySorted Z.le (ranksOf s).
Proof.
  unfold sortedByRank. induction 1 as [| a l Hl IH Ha]; simpl.
  - apply SSorted_nil.
  - apply SSorted_cons; [exact IH |].
    unfold ranksOf. apply Forall_map.
    eapply Forall_impl; [| exact Ha].
    intros x Hx. now apply rankLess_false.
Qed.

Lemma sorted_Z_unique (l1 l2 : list Z) :
  StronglySorted Z.le l1 -> StronglySorted Z.le l2 ->
  Permutation l1 l2 -> l1 = l2.
Proof.
  revert l2. induction l1 as [| a t IH]; intros l2 H1 H2 HP.
  - apply Permutation_nil in HP. now subst.
  - destruct l2 as [| b t2].
    + apply Permutation_sym, Permutation_nil in HP. discriminate HP.
    + inversion H1 as [| ? ? Ht Ha]; subst.
      inversion H2 as [| ? ? Ht2 Hb]; subst.
      assert (a = b) as ->.
      { assert (In b (a :: t)) as Hin1
          by (eapply Permutation_in; [apply Permutation_sym, HP | now left]).
        assert (In a (b :: t2)) as Hin2
          by (eapply Permutation_in; [apply HP | now left]).
        rewrite Forall_forall in Ha, Hb.
        destruct Hin1 as [-> | Hin1]; [reflexivity |].
        destruct Hin2 as [E | Hin2]; [now symmetry |].
        specialize (Ha _ Hin1). specialize (Hb _ Hin2). lia. }
      f_equal. apply IH; try assumption.
      eapply Permutation_cons_inv, HP.
Qed.

(** Whatever order [std::sort] leaves cards of equal rank in, the
    sequence of ranks it produces is the one [sortByRank] produces. *)
Lemma sorted_ranks_unique (cards s : list Card) :
  Permutation s cards -> sortedByRank s ->
  ranksOf s = ranksOf (GameRules.sortByRank cards).
Proof.
  intros HP Hs. apply sorted_Z_unique.
  - now apply sortedByRank_ranks.
  - apply sortedByRank_ranks, sortByRank_sorted.
  - unfold ranksOf. apply Permutation_map.
    eapply perm_trans; [exact HP | apply Permutation_sym, sortByRank_perm].
Qed.

Lemma sortByRank_ranks_perm (l l' : list Card) :
  Permutation l l' ->
  ranksOf (GameRules.sortByRank l) = ranksOf (GameRules.sortByRank l').
Proof.
  intros HP. apply sorted_ranks_unique; [| apply sortByRank_sorted].
  eapply perm_trans; [apply sortByRank_perm | exact HP].
Qed.

(** ** The five-card predicates, read off the sorted rank sequence *)

Lemma length5_inv {A : Type} (l : list A) :
  List.length l = 5%nat -> exists a b c d e, l = [a; b; c; d; e].
Proof.
  destruct l as [| a [| b [| c [| d [| e [| f l]]]]]]; simpl; try discriminate.
  intros _. now exists a, b, c, d, e.
Qed.

Lemma stepsByOne_tail (a : Z) (rs : list Z) :
  stepsByOne (a :: rs) -> stepsByOne rs.
Proof. intros H i x y Hx Hy. exact (H (S i) x y Hx Hy). Qed.

Lemma consecutiveRanks_steps (s : list Card) :
  GameRules.consecutiveRanks s = true <-> stepsByOne (ranksOf s).
Proof.
  induction s as [| prev rest IH].
  - split; [| reflexivity]. intros _ [| i] a b H; discriminate H.
  - destruct rest as [| curr rest'].
    + split; [| reflexivity]. intros _ [| [| i]] a b Ha Hb; discriminate Hb.
    + change (GameRules.consecutiveRanks (prev :: curr :: rest'))
        with (if negb (rankOf curr =? rankOf prev + 1) then false
              else GameRules.consecutiveRanks (curr :: rest')).
      destruct (Z.eqb_spec (rankOf curr) (rankOf prev + 1)) as [E | E]; simpl.
      * rewrite IH. split.
        -- intros H [| i] a b Ha Hb.
           ++ simpl in Ha, Hb. congruence.
           ++ exact (H i a b Ha Hb).
        -- apply stepsByOne_tail.
      * split; [discriminate |]. intros H. exfalso. apply E.
        exact (H 0%nat (rankOf prev) (rankOf curr) eq_refl eq_refl).
Qed.

Lemma stepsByOne_five (r0 r1 r2 r3 r4 : Z) :
  stepsByOne [r0; r1; r2; r3; r4] <->
  r1 = r0 + 1 /\ r2 = r0 + 2 /\ r3 = r0 + 3 /\ r4 = r0 + 4.
Proof.
  split.
  - intros H.
    pose proof (H 0%nat _ _ eq_refl eq_refl).
    pose proof (H 1%nat _ _ eq_refl eq_refl).
    pose proof (H 2%nat _ _ eq_refl eq_refl).
    pose proof (H 3%nat _ _ eq_refl eq_refl).
    lia.
  - intros (-> & -> & -> & ->) [| [| [| [| [| i]]]]] a b Ha Hb;
      simpl in Ha, Hb; try discriminate Hb;
      injection Ha as <-; injection Hb as <-; lia.
Qed.

Lemma isStraight_spec (cards : list Card) :
  GameRules.isStraight cards = true <->
  List.length cards = 5%nat /\
  stepsByOne (ranksOf (GameRules.sortByRank cards)).
Proof.
  unfold GameRules.isStraight.
  destruct (Nat.eqb_spec (List.length cards) 5) as [E | E]; simpl.
  - rewrite consecutiveRanks_steps. tauto.
  - split; [discriminate | tauto].
Qed.

Lemma isFullHouse_ranks (cards : list Card) :
  GameRules.isFullHouse cards =
  Nat.eqb (List.length cards) 5 &&
  fullHousePattern (ranksOf (GameRules.sortByRank cards)).
Proof.
  unfold GameRules.isFullHouse.
  destruct (Nat.eqb_spec (List.length cards) 5) as [E | E]; [| reflexivity].
  simpl. rewrite <- sortByRank_length in E.
  destruct (length5_inv _ E) as (a & b & c & d & e & ->). reflexivity.
Qed.

Lemma isFourOfAKind_ranks (cards : list Card) :
  GameRules.isFourOfAKind cards =
  Nat.eqb (List.length cards) 5 &&
  fourOfAKindPattern (ranksOf (GameRules.sortByRank cards)).
Proof.
  unfold GameRules.isFourOfAKind.
  destruct (Nat.eqb_spec (List.length cards) 5) as [E | E]; [| reflexivity].
  simpl. rewrite <- sortByRank_length in E.
  destruct (length5_inv _ E) as (a & b & c & d & e & ->). reflexivity.
Qed.

Lemma sameSuit_Forall (suit : Suit) (rest : list Card) :
  GameRules.sameSuit suit rest = true <->
  Forall (fun c => getSuit c = suit) rest.
Proof.
  induction rest as [| c t IH]; simpl.
  - split; [intros _; apply Forall_nil | reflexivity].
  - destruct (suit_eqb (getSuit c) suit) eqn:E; simpl.
    + apply suit_eqb_eq in E. rewrite IH. split.
      * intros H. now apply Forall_cons.
      * intros H. now inversion H.
    + split; [discriminate |]. intros H. apply Forall_inv in H.
      apply suit_eqb_eq in H. congruence.
Qed.

Lemma isFlush_spec (cards : list Card) :
  GameRules.isFlush cards = true <->
  List.length cards = 5%nat /\
  exists suit, Forall (fun c => getSuit c = suit) cards.
Proof.
  unfold GameRules.isFlush.
  destruct (Nat.eqb_spec (List.length cards) 5) as [E | E]; simpl.
  - destruct cards as [| c0 rest]; [discriminate E |].
    rewrite sameSuit_Forall. split.
    + intros H. split; [exact E |]. exists (getSuit c0).
      now apply Forall_cons.
    + intros [_ [suit H]]. inversion H as [| ? ? H0 Hr]; subst.
      exact Hr.
  - split; [discriminate | tauto].
Qed.

Lemma run_sorted (r : Z) : StronglySorted Z.le [r; r + 1; r + 2; r + 3; r + 4].
Proof.
  repeat (apply SSorted_cons;
          [| repeat (apply Forall_cons; [lia |]); apply Forall_nil]).
  apply SSorted_nil.
Qed.

Lemma isStraight_run (cards : list Card) :
  GameRules.isStraight cards = true <->
  exists r, Permutation (ranksOf cards) [r; r + 1; r + 2; r + 3; r + 4].
Proof.
  rewrite isStraight_spec. split.
  - intros [Hlen Hsteps].
    pose proof (sortByRank_length cards) as Hl. rewrite Hlen in Hl.
    destruct (length5_inv _ Hl) as (a & b & c & d & e & Hs).
    rewrite Hs in Hsteps. simpl in Hsteps.
    apply stepsByOne_five in Hsteps. destruct Hsteps as (H1 & H2 & H3 & H4).
    exists (rankOf a). rewrite <- H1, <- H2, <- H3, <- H4.
    change [rankOf a; rankOf b; rankOf c; rankOf d; rankOf e]
      with (ranksOf [a; b; c; d; e]).
    rewrite <- Hs. unfold ranksOf.
    apply Permutation_map, Permutation_sym, sortByRank_perm.
  - intros [r HP]. split.
    + apply Permutation_length in HP. unfold ranksOf in HP.
      rewrite length_map in HP. exact HP.
    + assert (ranksOf (GameRules.sortByRank cards)
              = [r; r + 1; r + 2; r + 3; r + 4]) as ->.
      { apply sorted_Z_unique.
        - apply sortedByRank_ranks, sortByRank_sorted.
        - apply run_sorted.
        - eapply perm_trans; [| exact HP].
          unfold ranksOf. apply Permutation_map, sortByRank_perm. }
      apply stepsByOne_five. lia.
Qed.

Lemma straight_excludes_groups (cards : list Card) :
  GameRules.isStraight cards = true ->
  GameRules.isFourOfAKind cards = false /\ GameRules.isFullHouse cards = false.
Proof.
  intros H. apply isStraight_spec in H. destruct H as [Hlen Hsteps].
  rewrite isFourOfAKind_ranks, isFullHouse_ranks.
  pose proof (sortByRank_length cards) as Hl. rewrite Hlen in Hl.
  destruct (length5_inv _ Hl) as (a & b & c & d & e & Hs).
  rewrite Hs in *. simpl in Hsteps. apply stepsByOne_five in Hsteps.
  destruct Hsteps as (H1 & H2 & H3 & H4).
  rewrite Hlen. unfold ranksOf, fourOfAKindPattern, fullHousePattern.
  simpl.
  repeat match goal with
    | |- context [Z.eqb ?x ?y] => destruct (Z.eqb_spec x y)
    end; simpl; try lia; split; reflexivity.
Qed.

Lemma determineFiveCardType_length (cards : list Card) :
  GameRules.determineFiveCardType cards <> FiveCardType.None ->
  List.length cards = 5%nat.
Proof.
  unfold GameRules.determineFiveCardType.
  destruct (Nat.eqb_spec (List.length cards) 5) as [E | E]; simpl; tauto.
Qed.

Lemma determineFiveCardType_straight (cards : list Card) :
  GameRules.isStraight cards = true ->
  GameRules.determineFiveCardType cards =
    if GameRules.isFlush cards then FiveCardType.StraightFlush
    else FiveCardType.Straight.
Proof.
  intros H. destruct (straight_excludes_groups _ H) as [H4 HF].
  pose proof (proj1 (isStraight_spec _) H) as [Hlen _].
  unfold GameRules.determineFiveCardType, GameRules.isStraightFlush.
  rewrite Hlen, H, H4, HF. simpl.
  destruct (GameRules.isFlush cards); reflexivity.
Qed.

(** C4: a five-card set passes the straight test exactly when the ranks
    of the cards sorted by rank rise by one at every adjacent pair (for
    the sort of the model and for any rank-sorted arrangement of the same
    cards), equivalently when its ranks are five consecutive values of
    the 3..2 scale; such a set is classified Straight, or StraightFlush
    when it is also a flush.  King-Ace-Two-Three-Four is not a straight,
    Jack-Queen-King-Ace-Two is. *)
Theorem straight_iff_consecutive :
  (forall cards : list Card,
      List.length cards = 5%nat ->
      (GameRules.isStraight cards = true <->
       stepsByOne (ranksOf (GameRules.sortByRank cards)))) /\
  (forall cards s : list Card,
      List.length cards = 5%nat -> Permutation s cards -> sortedByRank s ->
      (GameRules.isStraight cards = true <-> stepsByOne (ranksOf s))) /\
  (forall cards : list Card,
      GameRules.isStraight cards = true <->
      exists r, Permutation (ranksOf cards) [r; r + 1; r + 2; r + 3; r + 4]) /\
  (forall cards : list Card,
      GameRules.isStraight cards = true <->
      GameRules.determineFiveCardType cards = FiveCardType.Straight \/
      GameRules.determineFiveCardType cards = FiveCardType.StraightFlush) /\
  (forall s1 s2 s3 s4 s5 : Suit,
      GameRules.isStraight
        [mkCard King s1; mkCard Ace s2; mkCard Two s3; mkCard Three s4;
         mkCard Four s5] = false /\
      GameRules.determineFiveCardType
        [mkCard King s1; mkCard Ace s2; mkCard Two s3; mkCard Three s4;
         mkCard Four s5] <> FiveCardType.Straight) /\
  (forall s1 s2 s3 s4 s5 : Suit,
      GameRules.isStraight
        [mkCard Jack s1; mkCard Queen s2; mkCard King s3; mkCard Ace s4;
         mkCard Two s5] = true).
Proof.
  split; [| split; [| split; [| split; [| split]]]].
  - intros cards Hlen. rewrite isStraight_spec. tauto.
  - intros cards s Hlen HP Hs. rewrite isStraight_spec.
    rewrite (sorted_ranks_unique cards s HP Hs). tauto.
  - exact isStraight_run.
  - intros cards. split.
    + intros H. rewrite (determineFiveCardType_straight _ H).
      destruct (GameRules.isFlush cards); [right | left]; reflexivity.
    + unfold GameRules.determineFiveCardType, GameRules.isStraightFlush.
      destruct (negb (Nat.eqb (List.length cards) 5));
        [intros [H | H]; discriminate H |].
      destruct (GameRules.isStraight cards); [reflexivity |]. simpl.
      destruct (GameRules.isFourOfAKind cards);
        [intros [H | H]; discriminate H |].
      destruct (GameRules.isFullHouse cards);
        [intros [H | H]; discriminate H |].
      destruct (GameRules.isFlush cards); intros [H | H]; discriminate H.
  - intros s1 s2 s3 s4 s5. split; [reflexivity |].
    destruct s1, s2, s3, s4, s5; discriminate.
  - intros s1 s2 s3 s4 s5. reflexivity.
Qed.

(** ** Exclusivity of the five-card shapes on duplicate-free sets *)

Lemma same_rank_suits_bound (l : list Card) (r : Rank) :
  NoDup l -> Forall (fun c => getRank c = r) l -> (List.length l <= 4)%nat.
Proof.
  intros Hnd Hr.
  assert (NoDup (map getSuit l)) as Hs.
  { apply NoDup_map_NoDup_ForallPairs; [| exact Hnd].
    intros x y Hx Hy Hxy. rewrite Forall_forall in Hr.
    apply card_ext; [| exact Hxy].
    rewrite (Hr _ Hx), (Hr _ Hy). reflexivity. }
  assert (incl (map getSuit l) allSuits) as Hincl
      by (intros s _; destruct s; simpl; tauto).
  pose proof (NoDup_incl_length Hs Hincl) as Hle.
  rewrite length_map in Hle. exact Hle.
Qed.

Section DuplicateFree.

Variable cards : list Card.
Hypothesis Hlen : List.length cards = 5%nat.
Hypothesis Hnodup : NoDup cards.

Lemma sorted_view :
  exists a b c d e,
    GameRules.sortByRank cards = [a; b; c; d; e] /\
    NoDup [a; b; c; d; e] /\
    Permutation [a; b; c; d; e] cards.
Proof.
  pose proof (sortByRank_length cards) as Hl. rewrite Hlen in Hl.
  destruct (length5_inv _ Hl) as (a & b & c & d & e & Hs).
  exists a, b, c, d, e. split; [exact Hs |].
  pose proof (sortByRank_perm cards) as HP. rewrite Hs in HP.
  split; [| exact HP].
  eapply Permutation_NoDup; [apply Permutation_sym, HP | exact Hnodup].
Qed.

Lemma four_excludes_fullHouse :
  GameRules.isFourOfAKind cards = true -> GameRules.isFullHouse cards = false.
Proof.
  rewrite isFourOfAKind_ranks, isFullHouse_ranks, Hlen. simpl.
  destruct sorted_view as (a & b & c & d & e & Hs & Hnd & _).
  rewrite Hs. unfold ranksOf, fourOfAKindPattern, fullHousePattern. simpl.
  intros H4. destruct (_ || _) eqn:HF in |- *; [| reflexivity].
  exfalso.
  assert (Forall (fun x => getRank x = getRank a) [a; b; c; d; e]) as Hall.
  { repeat (apply Forall_cons; [apply rankValue_inj; fold (rankOf a) |]);
      [| | | | | apply Forall_nil];
      repeat match goal with
        | H : context [Z.eqb ?x ?y] |- _ => destruct (Z.eqb_spec x y)
        end; simpl in *; try discriminate; unfold rankOf in *; lia. }
  pose proof (same_rank_suits_bound _ _ Hnd Hall) as Hb. simpl in Hb. lia.
Qed.

Lemma flush_excludes_groups :
  GameRules.isFlush cards = true ->
  GameRules.isFourOfAKind cards = false /\ GameRules.isFullHouse cards = false.
Proof.
  intros HF. apply isFlush_spec in HF. destruct HF as [_ [suit HF]].
  rewrite isFourOfAKind_ranks, isFullHouse_ranks, Hlen. simpl.
  destruct sorted_view as (a & b & c & d & e & Hs & Hnd & HP).
  rewrite Hs. unfold ranksOf, fourOfAKindPattern, fullHousePattern. simpl.
  apply (Permutation_Forall (Permutation_sym HP)) in HF.
  rewrite Forall_forall in HF.
  assert (getSuit a = suit) as Sa by (apply HF; simpl; tauto).
  assert (getSuit b = suit) as Sb by (apply HF; simpl; tauto).
  assert (getSuit c = suit) as Sc by (apply HF; simpl; tauto).
  assert (rankOf a <> rankOf b) as Nab.
  { intros E. apply rankValue_inj in E.
    assert (a = b) by (apply card_ext; congruence). subst b.
    inversion Hnd as [| ? ? Hin _]; subst. apply Hin. now left. }
  assert (rankOf b <> rankOf c) as Nbc.
  { intros E. apply rankValue_inj in E.
    assert (b = c) by (apply card_ext; congruence). subst c.
    inversion Hnd as [| ? ? _ Hnd']; subst.
    inversion Hnd' as [| ? ? Hin _]; subst. apply Hin. now left. }
  apply Z.eqb_neq in Nab, Nbc. rewrite Nab, Nbc. simpl.
  rewrite ?andb_false_r. split; reflexivity.
Qed.

End DuplicateFree.

(** C5: on a five-card set without duplicate cards the classifier
    reports one sub-shape, the shape predicates Straight-only,
    Flush-only, FullHouse, FourOfAKind and StraightFlush are mutually
    exclusive, each sub-shape is reported exactly when its predicate
    holds, and a set passing both the straight and the flush test is
    classified StraightFlush, which in turn implies both tests. *)
Theorem five_card_shapes_exclusive (cards : list Card)
    (Hlen : List.length cards = 5%nat) (Hnodup : NoDup cards) :
  (count_occ Bool.bool_dec (shapeTests cards) true <= 1)%nat /\
  (GameRules.determineFiveCardType cards = FiveCardType.StraightFlush <->
   GameRules.isStraight cards = true /\ GameRules.isFlush cards = true) /\
  (GameRules.determineFiveCardType cards = FiveCardType.FourOfAKind <->
   GameRules.isFourOfAKind cards = true) /\
  (GameRules.determineFiveCardType cards = FiveCardType.FullHouse <->
   GameRules.isFullHouse cards = true) /\
  (GameRules.determineFiveCardType cards = FiveCardType.Flush <->
   GameRules.isFlush cards = true /\ GameRules.isStraight cards = false) /\
  (GameRules.determineFiveCardType cards = FiveCardType.Straight <->
   GameRules.isStraight cards = true /\ GameRules.isFlush cards = false) /\
  (GameRules.determineFiveCardType cards = FiveCardType.None <->
   count_occ Bool.bool_dec (shapeTests cards) true = 0%nat).
Proof.
  pose proof (straight_excludes_groups cards) as HS.
  pose proof (flush_excludes_groups cards Hlen Hnodup) as HF.
  pose proof (four_excludes_fullHouse cards Hlen Hnodup) as H4.
  unfold shapeTests, GameRules.determineFiveCardType, GameRules.isStraightFlush.
  rewrite Hlen.
  destruct (GameRules.isStraight cards);
    destruct (GameRules.isFlush cards);
    destruct (GameRules.isFourOfAKind cards);
    destruct (GameRules.isFullHouse cards);
    try (destruct (HS eq_refl); discriminate);
    try (destruct (HF eq_refl); discriminate);
    try (specialize (H4 eq_refl); discriminate);
    simpl; repeat split; intros; try lia; try discriminate;
    try match goal with H : _ /\ _ |- _ => destruct H; discriminate end.
Qed.

Lemma heartsRun_NoDup : NoDup heartsRun.
Proof.
  unfold heartsRun.
  repeat (apply NoDup_cons; [simpl; intuition discriminate |]).
  apply NoDup_nil.
Defined.

Lemma five_card_shapes_exclusive_witness :
  List.length heartsRun = 5%nat /\ NoDup heartsRun /\
  (GameRules.determineFiveCardType heartsRun = FiveCardType.StraightFlush <->
   GameRules.isStraight heartsRun = true /\ GameRules.isFlush heartsRun = true).
Proof.
  split; [reflexivity |]. split; [exact heartsRun_NoDup |].
  exact (proj1 (proj2
           (five_card_shapes_exclusive heartsRun eq_refl heartsRun_NoDup))).
Defined.

(** ** The highest card of a set *)

Lemma suitValue_bounds (s : Suit) : 0 <= suitValue s <= 3.
Proof. destruct s; simpl; lia. Qed.

Lemma card_lt_key (a b : Card) : CardOps.lt a b = (cardKey a <? cardKey b).
Proof.
  unfold cardKey, rankOf.
  pose proof (suitValue_bounds (getSuit a)).
  pose proof (suitValue_bounds (getSuit b)).
  unfold CardOps.lt, rank_eqb, rank_ltb, suit_ltb.
  destruct (Z.eqb_spec (rankValue (getRank a)) (rankValue (getRank b)));
    cbn [negb];
    repeat match goal with
      | |- context [Z.ltb ?x ?y] => destruct (Z.ltb_spec x y)
      end; try reflexivity; lia.
Qed.

Lemma cardKey_inj (a b : Card) : cardKey a = cardKey b -> a = b.
Proof.
  intros H. apply card_lt_total; rewrite card_lt_key; apply Z.ltb_ge; lia.
Qed.

Lemma highestFrom_spec (rest : list Card) : forall highest : Card,
  (GameRules.highestFrom highest rest = highest \/
   In (GameRules.highestFrom highest rest) rest) /\
  cardKey highest <= cardKey (GameRules.highestFrom highest rest) /\
  (forall x, In x rest ->
             cardKey x <= cardKey (GameRules.highestFrom highest rest)).
Proof.
  induction rest as [| c t IH]; intros highest; simpl.
  - split; [now left |]. split; [lia | tauto].
  - destruct (IH (if CardOps.gt c highest then c else highest))
      as (Hin & Hge & Hall).
    unfold CardOps.gt in *. rewrite card_lt_key in *.
    destruct (Z.ltb_spec (cardKey highest) (cardKey c)) as [L | L].
    + split; [destruct Hin as [-> | Hin]; tauto |].
      split; [lia |]. intros x [<- | Hx]; [exact Hge | now apply Hall].
    + split; [destruct Hin as [-> | Hin]; tauto |].
      split; [exact Hge |]. intros x [<- | Hx]; [lia | now apply Hall].
Qed.

Lemma getHighestCard_spec (cards : list Card) :
  cards <> [] ->
  exists h, GameRules.getHighestCard cards = Ok h /\ isHighestOf h cards.
Proof.
  destruct cards as [| c0 rest]; [congruence |]. intros _.
  exists (GameRules.highestFrom c0 rest). split; [reflexivity |].
  destruct (highestFrom_spec rest c0) as (Hin & Hge & Hall).
  split.
  - simpl. destruct Hin as [-> | Hin]; tauto.
  - intros x Hx. unfold CardOps.gt. rewrite card_lt_key. apply Z.ltb_ge.
    destruct Hx as [<- | Hx]; [exact Hge | now apply Hall].
Qed.

Lemma getHighestCard_throws (cards : list Card) :
  (exists e, GameRules.getHighestCard cards = Throw e) <-> cards = [].
Proof.
  destruct cards as [| c0 rest]; simpl.
  - split; [reflexivity | intros _; eexists; reflexivity].
  - split; [intros [e H]; discriminate H | discriminate].
Qed.

Lemma isHighestOf_unique (h h' : Card) (cards : list Card) :
  isHighestOf h cards -> isHighestOf h' cards -> h = h'.
Proof.
  intros [Hin H] [Hin' H']. apply card_lt_total.
  - exact (H _ Hin').
  - exact (H' _ Hin).
Qed.

Lemma isHighestOf_perm (h : Card) (l l' : list Card) :
  Permutation l l' -> isHighestOf h l -> isHighestOf h l'.
Proof.
  intros HP [Hin H]. split.
  - eapply Permutation_in; eassumption.
  - intros x Hx. apply H.
    eapply Permutation_in; [apply Permutation_sym, HP | exact Hx].
Qed.

Lemma getHighestCard_perm (l l' : list Card) :
  Permutation l l' -> GameRules.getHighestCard l = GameRules.getHighestCard l'.
Proof.
  intros HP. destruct l as [| a t].
  - apply Permutation_nil in HP. now subst.
  - assert (l' <> []) as Hne.
    { intros ->. apply Permutation_sym, Permutation_nil in HP.
      discriminate HP. }
    destruct (getHighestCard_spec (a :: t)) as (h & Hh & Hmax);
      [discriminate |].
    destruct (getHighestCard_spec l' Hne) as (h' & Hh' & Hmax').
    rewrite Hh, Hh'. f_equal.
    eapply isHighestOf_unique; [| exact Hmax'].
    eapply isHighestOf_perm; eassumption.
Qed.

(** ** Comparing five-card combinations *)

Lemma length5_nonempty (cards : list Card) :
  List.length cards = 5%nat -> cards <> [].
Proof. intros H ->. discriminate H. Qed.

Lemma determinePlayType_five (cards : list Card) :
  GameRules.determineFiveCardType cards <> FiveCardType.None ->
  GameRules.determinePlayType cards = PlayType.FiveCard.
Proof.
  intros H. pose proof (determineFiveCardType_length _ H) as Hlen.
  unfold GameRules.determinePlayType. rewrite Hlen. simpl.
  destruct (GameRules.determineFiveCardType cards); try reflexivity.
  now destruct H.
Qed.

(** C3: between two five-card combinations the strictly higher sub-shape
    in the order Straight(1) < Flush(2) < FullHouse(3) < FourOfAKind(4)
    < StraightFlush(5) wins whatever the cards; with equal sub-shapes
    the play whose highest card (the maximum over its cards for the card
    order) is strictly higher wins, and an identical highest card gives
    false; a full house never beats a four of a kind. *)
Theorem fiveCardBeats_order :
  map GameRules.getFiveCardRank
    [FiveCardType.Straight; FiveCardType.Flush; FiveCardType.FullHouse;
     FiveCardType.FourOfAKind; FiveCardType.StraightFlush] = [1; 2; 3; 4; 5] /\
  (forall newCards lastCards : list Card,
      GameRules.getFiveCardRank (GameRules.determineFiveCardType newCards) >
      GameRules.getFiveCardRank (GameRules.determineFiveCardType lastCards) ->
      GameRules.fiveCardBeats newCards lastCards = Ok true /\
      GameRules.fiveCardBeats lastCards newCards = Ok false) /\
  (forall newCards lastCards : list Card,
      GameRules.determineFiveCardType newCards =
        GameRules.determineFiveCardType lastCards ->
      GameRules.determineFiveCardType newCards <> FiveCardType.None ->
      exists newHigh lastHigh : Card,
        isHighestOf newHigh newCards /\ isHighestOf lastHigh lastCards /\
        GameRules.fiveCardBeats newCards lastCards =
          Ok (CardOps.gt newHigh lastHigh) /\
        (newHigh = lastHigh ->
         GameRules.fiveCardBeats newCards lastCards = Ok false)) /\
  (forall newCards lastCards : list Card,
      GameRules.determineFiveCardType newCards = FiveCardType.FullHouse ->
      GameRules.determineFiveCardType lastCards = FiveCardType.FourOfAKind ->
      GameRules.fiveCardBeats newCards lastCards = Ok false /\
      GameRules.doesPlayBeat newCards lastCards = Ok false).
Proof.
  split; [reflexivity |]. split; [| split].
  - intros n l H. unfold GameRules.fiveCardBeats. split.
    + rewrite (proj2 (Z.gtb_lt _ _)) by lia. reflexivity.
    + rewrite Z.gtb_ltb. rewrite (proj2 (Z.ltb_ge _ _)) by lia.
      rewrite (proj2 (Z.ltb_lt _ _)) by lia. reflexivity.
  - intros n l Heq Hne.
    assert (GameRules.determineFiveCardType l <> FiveCardType.None) as Hne'
        by (rewrite <- Heq; exact Hne).
    pose proof (length5_nonempty _ (determineFiveCardType_length _ Hne)) as Hn.
    pose proof (length5_nonempty _ (determineFiveCardType_length _ Hne')) as Hl.
    destruct (getHighestCard_spec n Hn) as (hn & Hhn & Hmaxn).
    destruct (getHighestCard_spec l Hl) as (hl & Hhl & Hmaxl).
    exists hn, hl. split; [exact Hmaxn |]. split; [exact Hmaxl |].
    assert (GameRules.fiveCardBeats n l = Ok (CardOps.gt hn hl)) as HB.
    { unfold GameRules.fiveCardBeats. rewrite Heq, Z.gtb_ltb, Z.ltb_irrefl.
      rewrite Hhn, Hhl. reflexivity. }
    split; [exact HB |]. intros ->. rewrite HB. unfold CardOps.gt.
    rewrite card_lt_irrefl. reflexivity.
  - intros n l Hn Hl.
    assert (GameRules.fiveCardBeats n l = Ok false) as HB
        by (unfold GameRules.fiveCardBeats; rewrite Hn, Hl; reflexivity).
    split; [exact HB |].
    assert (List.length n = 5%nat) as Ln
        by (apply determineFiveCardType_length; rewrite Hn; discriminate).
    assert (List.length l = 5%nat) as Ll
        by (apply determineFiveCardType_length; rewrite Hl; discriminate).
    unfold GameRules.doesPlayBeat.
    destruct l as [| l0 lt]; [discriminate Ll |]. cbn [GameRules.empty].
    rewrite Ln, Ll. cbn [Nat.eqb negb].
    rewrite determinePlayType_five by (rewrite Hn; discriminate).
    exact HB.
Qed.

(** ** The play-type classifier *)

(** C6: the play-type classifier agrees with the reference definition:
    size 1 is Single; size 2 is Pair exactly when both cards share rank,
    else Invalid; size 3 is Triple exactly when all three share rank,
    else Invalid; any size outside 1, 2, 3, 5 is Invalid. *)
Theorem determinePlayType_reference :
  (forall cards : list Card,
      GameRules.determinePlayType cards = classifyReference cards) /\
  (forall c : Card, GameRules.determinePlayType [c] = PlayType.Single) /\
  (forall c0 c1 : Card,
      (getRank c0 = getRank c1 ->
       GameRules.determinePlayType [c0; c1] = PlayType.Pair) /\
      (getRank c0 <> getRank c1 ->
       GameRules.determinePlayType [c0; c1] = PlayType.Invalid)) /\
  (forall c0 c1 c2 : Card,
      (getRank c0 = getRank c1 /\ getRank c1 = getRank c2 ->
       GameRules.determinePlayType [c0; c1; c2] = PlayType.Triple) /\
      (~ (getRank c0 = getRank c1 /\ getRank c1 = getRank c2) ->
       GameRules.determinePlayType [c0; c1; c2] = PlayType.Invalid)) /\
  (forall cards : list Card,
      ~ In (List.length cards) [1; 2; 3; 5]%nat ->
      GameRules.determinePlayType cards = PlayType.Invalid).
Proof.
  split; [| split; [| split; [| split]]].
  - intros cards.
    destruct cards as [| a [| b [| c [| d [| e [| f t]]]]]]; try reflexivity.
    + unfold GameRules.determinePlayType, classifyReference. simpl.
      destruct (rank_eqb (getRank a) (getRank b)) eqn:E1; simpl.
      * apply rank_eqb_eq in E1. rewrite <- E1.
        destruct (rank_eqb (getRank a) (getRank c)); reflexivity.
      * reflexivity.
    + unfold GameRules.determinePlayType, classifyReference,
        GameRules.determineFiveCardType, GameRules.isStraightFlush.
      cbn [List.length Nat.eqb negb andb].
      destruct (GameRules.isStraight [a; b; c; d; e]);
        destruct (GameRules.isFlush [a; b; c; d; e]);
        destruct (GameRules.isFourOfAKind [a; b; c; d; e]);
        destruct (GameRules.isFullHouse [a; b; c; d; e]); reflexivity.
  - intros c. reflexivity.
  - intros c0 c1. unfold GameRules.determinePlayType. simpl. split.
    + intros ->. rewrite rank_eqb_refl. reflexivity.
    + intros H. destruct (rank_eqb (getRank c0) (getRank c1)) eqn:E;
        [apply rank_eqb_eq in E; contradiction | reflexivity].
  - intros c0 c1 c2. unfold GameRules.determinePlayType. simpl. split.
    + intros [-> ->]. rewrite rank_eqb_refl. reflexivity.
    + intros H. destruct (rank_eqb (getRank c0) (getRank c1)) eqn:E1;
        destruct (rank_eqb (getRank c1) (getRank c2)) eqn:E2;
        try reflexivity.
      apply rank_eqb_eq in E1, E2. tauto.
  - intros cards H. simpl in H.
    destruct cards as [| a [| b [| c [| d [| e [| f t]]]]]];
      simpl in H; try tauto; reflexivity.
Qed.

(** ** The comparator on plays of different sizes *)

(** C7, as stated, fails: a non-empty play against an empty last play has
    a different size, and the comparator answers true. *)
Lemma doesPlayBeat_size_mismatch_counterexample :
  ~ (forall newPlay lastPlay : list Card,
        List.length newPlay <> List.length lastPlay ->
        GameRules.doesPlayBeat newPlay lastPlay = Ok false).
Proof.
  intros H. specialize (H [threeOfDiamonds] []).
  assert (List.length [threeOfDiamonds] <> List.length (@nil Card)) as Hne
      by (simpl; discriminate).
  specialize (H Hne). discriminate H.
Qed.

(** C7, amended: for plays of different sizes the comparator returns
    false when the last play is non-empty, and true when the last play is
    empty (any play beats an empty play). *)
Theorem doesPlayBeat_size_mismatch (newPlay lastPlay : list Card) :
  List.length newPlay <> List.length lastPlay ->
  (lastPlay <> [] -> GameRules.doesPlayBeat newPlay lastPlay = Ok false) /\
  (lastPlay = [] -> GameRules.doesPlayBeat newPlay lastPlay = Ok true).
Proof.
  intros Hne. unfold GameRules.doesPlayBeat. split.
  - intros Hl. destruct lastPlay as [| l0 lt]; [contradiction |].
    cbn [GameRules.empty].
    destruct (Nat.eqb_spec (List.length newPlay) (List.length (l0 :: lt)));
      [contradiction | reflexivity].
  - intros ->. reflexivity.
Qed.

Lemma doesPlayBeat_size_mismatch_witness :
  GameRules.doesPlayBeat [threeOfDiamonds; fourOfClubs] [fourOfClubs] = Ok false.
Proof.
  apply (doesPlayBeat_size_mismatch [threeOfDiamonds; fourOfClubs] [fourOfClubs]).
  - simpl. discriminate.
  - discriminate.
Defined.

(** ** The comparator never throws *)

Lemma doesPlayBeat_total (newPlay lastPlay : list Card) :
  exists b, GameRules.doesPlayBeat newPlay lastPlay = Ok b.
Proof.
  unfold GameRules.doesPlayBeat.
  destruct lastPlay as [| l0 lt]; [now exists true |]. cbn [GameRules.empty].
  destruct (Nat.eqb_spec (List.length newPlay) (List.length (l0 :: lt)))
    as [E | E]; [| now exists false]. cbn [negb].
  destruct newPlay as [| n0 nt]; [discriminate E |].
  destruct (GameRules.determinePlayType (n0 :: nt)).
  - now exists false.
  - eexists; reflexivity.
  - unfold GameRules.pairBeats.
    destruct (_ || _); [now exists false | eexists; reflexivity].
  - unfold GameRules.tripleBeats.
    destruct (_ || _); [now exists false | eexists; reflexivity].
  - unfold GameRules.fiveCardBeats.
    destruct (_ >? _); [now exists true |].
    destruct (_ <? _); [now exists false | eexists; reflexivity].
Qed.

(** ** The validator *)

Lemma PlayType_eqb_eq (a b : PlayType.t) : PlayType.eqb a b = true <-> a = b.
Proof. destruct a, b; simpl; split; (reflexivity || discriminate). Qed.

Lemma FiveCardType_eqb_eq (a b : FiveCardType.t) :
  FiveCardType.eqb a b = true <-> a = b.
Proof. destruct a, b; simpl; split; (reflexivity || discriminate). Qed.

Lemma containsThreeOfDiamonds_In (cards : list Card) :
  GameRules.containsThreeOfDiamonds cards = true <-> In threeOfDiamonds cards.
Proof.
  unfold GameRules.containsThreeOfDiamonds. rewrite existsb_exists. split.
  - intros [c [Hin Hc]]. apply card_eq_true in Hc. now subst.
  - intros H. exists threeOfDiamonds. split; [exact H |].
    now apply card_eq_true.
Qed.

Lemma empty_true (cards : list Card) : GameRules.empty cards = true <-> cards = [].
Proof. destruct cards; simpl; split; (reflexivity || discriminate). Qed.

Lemma determinePlayType_FiveCard (cards : list Card) :
  GameRules.determinePlayType cards = PlayType.FiveCard ->
  GameRules.determineFiveCardType cards <> FiveCardType.None.
Proof.
  unfold GameRules.determinePlayType.
  destruct (Nat.eqb (List.length cards) 1); [discriminate |].
  destruct (_ && _); [discriminate |].
  destruct (_ && _); [discriminate |].
  destruct (Nat.eqb (List.length cards) 5); [| discriminate].
  destruct (GameRules.determineFiveCardType cards); simpl;
    intros H; discriminate.
Qed.

Lemma classifiesValid_iff (cards : list Card) :
  classifiesValid cards <->
  PlayType.eqb (GameRules.determinePlayType cards) PlayType.Invalid = false.
Proof.
  unfold classifiesValid. split.
  - intros [H _]. destruct (PlayType.eqb _ _) eqn:E; [| reflexivity].
    apply PlayType_eqb_eq in E. contradiction.
  - intros H. split.
    + intros E. rewrite E in H. discriminate H.
    + apply determinePlayType_FiveCard.
Qed.

(** The decision sequence of the validator, one test per line. *)
Lemma validatePlayWith_cases
    (beats : list Card -> list Card -> Result bool)
    (cards lastPlay : list Card) (isFirstPlay must : bool) :
  GameRules.validatePlayWith beats cards lastPlay isFirstPlay must =
  if GameRules.empty cards then
    Ok (mkPlayValidation false PlayType.Invalid FiveCardType.None
          "No cards selected")
  else if must && negb (GameRules.containsThreeOfDiamonds cards) then
    Ok (mkPlayValidation false PlayType.Invalid FiveCardType.None
          "First play must include 3 of Diamonds")
  else if PlayType.eqb (GameRules.determinePlayType cards) PlayType.Invalid then
    Ok (mkPlayValidation false PlayType.Invalid FiveCardType.None
          "Invalid card combination")
  else if isFirstPlay || GameRules.empty lastPlay then
    Ok (mkPlayValidation true (GameRules.determinePlayType cards)
          (subShapeOf cards) EmptyString)
  else if negb (Nat.eqb (List.length cards) (List.length lastPlay)) then
    Ok (mkPlayValidation false (GameRules.determinePlayType cards)
          (subShapeOf cards) "Must play same number of cards as last play")
  else
    b <- beats cards lastPlay ;;
    if negb b then
      Ok (mkPlayValidation false (GameRules.determinePlayType cards)
            (subShapeOf cards) "Play does not beat the previous play")
    else
      Ok (mkPlayValidation true (GameRules.determinePlayType cards)
            (subShapeOf cards) EmptyString).
Proof.
  unfold GameRules.validatePlayWith, subShapeOf.
  destruct (GameRules.empty cards); [reflexivity |].
  destruct (must && _); [reflexivity |].
  cbn [playType set_playType newPlayValidation].
  pose proof (determinePlayType_FiveCard cards) as H5.
  destruct (GameRules.determinePlayType cards) eqn:E;
    cbn [PlayType.eqb]; try reflexivity.
  cbn [fiveCardType set_fiveCardType].
  destruct (GameRules.determineFiveCardType cards);
    cbn [FiveCardType.eqb]; try reflexivity.
  now destruct (H5 eq_refl).
Qed.

Lemma empty_false (cards : list Card) :
  GameRules.empty cards = false <-> cards <> [].
Proof. destruct cards; simpl; split; (congruence || discriminate). Qed.

Lemma opening_check_false (must : bool) (cards : list Card) :
  must && negb (GameRules.containsThreeOfDiamonds cards) = false <->
  (must = true -> In threeOfDiamonds cards).
Proof.
  rewrite <- containsThreeOfDiamonds_In.
  destruct must, (GameRules.containsThreeOfDiamonds cards); simpl;
    split; try reflexivity; try discriminate; auto.
  intros H. specialize (H eq_refl). discriminate H.
Qed.

Lemma unconstrained_iff (isFirstPlay : bool) (lastPlay : list Card) :
  isFirstPlay || GameRules.empty lastPlay = true <->
  unconstrained isFirstPlay lastPlay.
Proof.
  unfold unconstrained. rewrite orb_true_iff, empty_true. tauto.
Qed.

Lemma not_accepted_invalid (p : PlayType.t) (f : FiveCardType.t) (m : string) :
  ~ accepted (Ok (mkPlayValidation false p f m)).
Proof. intros [r [Hr Hv]]. injection Hr as <-. discriminate Hv. Qed.

Lemma accepted_valid (p : PlayType.t) (f : FiveCardType.t) (m : string) :
  accepted (Ok (mkPlayValidation true p f m)).
Proof. eexists. split; reflexivity. Qed.

Lemma rejectedWith_intro (p : PlayType.t) (f : FiveCardType.t) (m : string) :
  rejectedWith (Ok (mkPlayValidation false p f m)) m.
Proof. eexists. repeat split. Qed.

(** C1: the validator accepts exactly when the candidate is non-empty,
    contains the 3 of Diamonds if that is required, classifies to a
    non-Invalid shape (with a non-None sub-shape for FiveCard), and either
    the play is unconstrained (first play or empty last play) or it has
    the size of the last play and beats it.  The tests run in that order:
    each rejection reason is reported exactly when all earlier tests
    passed; and an unconstrained play is accepted without consulting the
    comparator, whatever comparator is supplied. *)
Theorem validatePlay_accepts_iff
    (cards lastPlay : list Card) (isFirstPlay must : bool) :
  let verdict := GameRules.validatePlay cards lastPlay isFirstPlay must in
  (accepted verdict <->
   cards <> [] /\
   (must = true -> In threeOfDiamonds cards) /\
   classifiesValid cards /\
   (unconstrained isFirstPlay lastPlay \/
    (List.length cards = List.length lastPlay /\
     GameRules.doesPlayBeat cards lastPlay = Ok true))) /\
  (cards = [] -> rejectedWith verdict "No cards selected") /\
  (cards <> [] -> must = true -> ~ In threeOfDiamonds cards ->
   rejectedWith verdict "First play must include 3 of Diamonds") /\
  (cards <> [] -> (must = true -> In threeOfDiamonds cards) ->
   ~ classifiesValid cards ->
   rejectedWith verdict "Invalid card combination") /\
  (cards <> [] -> (must = true -> In threeOfDiamonds cards) ->
   classifiesValid cards -> unconstrained isFirstPlay lastPlay ->
   forall beats : list Card -> list Card -> Result bool,
     GameRules.validatePlayWith beats cards lastPlay isFirstPlay must =
       Ok (mkPlayValidation true (GameRules.determinePlayType cards)
             (subShapeOf cards) EmptyString)) /\
  (cards <> [] -> (must = true -> In threeOfDiamonds cards) ->
   classifiesValid cards -> ~ unconstrained isFirstPlay lastPlay ->
   List.length cards <> List.length lastPlay ->
   rejectedWith verdict "Must play same number of cards as last play") /\
  (cards <> [] -> (must = true -> In threeOfDiamonds cards) ->
   classifiesValid cards -> ~ unconstrained isFirstPlay lastPlay ->
   List.length cards = List.length lastPlay ->
   GameRules.doesPlayBeat cards lastPlay = Ok false ->
   rejectedWith verdict "Play does not beat the previous play").
Proof.
  intros verdict. subst verdict. unfold GameRules.validatePlay.
  split; [| split; [| split; [| split; [| split; [| split]]]]].
  - rewrite validatePlayWith_cases.
    rewrite <- empty_false, <- opening_check_false, classifiesValid_iff,
      <- unconstrained_iff.
    destruct (GameRules.empty cards).
    { split; [intros H; now apply not_accepted_invalid in H |].
      intros [H _]; discriminate H. }
    destruct (must && _).
    { split; [intros H; now apply not_accepted_invalid in H |].
      intros (_ & H & _); discriminate H. }
    destruct (PlayType.eqb _ _).
    { split; [intros H; now apply not_accepted_invalid in H |].
      intros (_ & _ & H & _); discriminate H. }
    destruct (isFirstPlay || _).
    { split; [intros _; tauto | intros _; apply accepted_valid]. }
    destruct (Nat.eqb_spec (List.length cards) (List.length lastPlay))
      as [E | E]; cbn [negb].
    2: { split; [intros H; now apply not_accepted_invalid in H |].
         intros (_ & _ & _ & [H | [H _]]); [discriminate H | contradiction]. }
    destruct (GameRules.doesPlayBeat cards lastPlay) as [[|] | e];
      cbn [bind negb].
    + split; [intros _; tauto | intros _; apply accepted_valid].
    + split; [intros H; now apply not_accepted_invalid in H |].
      intros (_ & _ & _ & [H | [_ H]]); discriminate H.
    + split; [intros [r [H _]]; discriminate H |].
      intros (_ & _ & _ & [H | [_ H]]); discriminate H.
  - intros ->. rewrite validatePlayWith_cases. apply rejectedWith_intro.
  - intros Hne Hm Hin. rewrite validatePlayWith_cases.
    apply empty_false in Hne. rewrite Hne, Hm.
    destruct (GameRules.containsThreeOfDiamonds cards) eqn:E;
      [apply containsThreeOfDiamonds_In in E; contradiction |].
    apply rejectedWith_intro.
  - intros Hne Hm Hc. rewrite validatePlayWith_cases.
    apply empty_false in Hne. apply opening_check_false in Hm.
    rewrite Hne, Hm. rewrite classifiesValid_iff in Hc.
    destruct (PlayType.eqb _ _); [apply rejectedWith_intro | now destruct Hc].
  - intros Hne Hm Hc Hu beats. rewrite validatePlayWith_cases.
    apply empty_false in Hne. apply opening_check_false in Hm.
    apply classifiesValid_iff in Hc. apply unconstrained_iff in Hu.
    rewrite Hne, Hm, Hc, Hu. reflexivity.
  - intros Hne Hm Hc Hu Hs. rewrite validatePlayWith_cases.
    apply empty_false in Hne. apply opening_check_false in Hm.
    apply classifiesValid_iff in Hc. rewrite <- unconstrained_iff in Hu.
    apply not_true_is_false in Hu. apply Nat.eqb_neq in Hs.
    rewrite Hne, Hm, Hc, Hu, Hs. apply rejectedWith_intro.
  - intros Hne Hm Hc Hu Hs Hb. rewrite validatePlayWith_cases.
    apply empty_false in Hne. apply opening_check_false in Hm.
    apply classifiesValid_iff in Hc. rewrite <- unconstrained_iff in Hu.
    apply not_true_is_false in Hu. apply Nat.eqb_eq in Hs.
    rewrite Hne, Hm, Hc, Hu, Hs, Hb. apply rejectedWith_intro.
Qed.

Lemma validatePlay_accepts_iff_witness :
  accepted
    (GameRules.validatePlay
       [mkCard Four Diamonds; mkCard Four Clubs]
       [mkCard Three Spades; mkCard Three Hearts] false false).
Proof.
  apply (proj2 (proj1
    (validatePlay_accepts_iff
       [mkCard Four Diamonds; mkCard Four Clubs]
       [mkCard Three Spades; mkCard Three Hearts] false false))).
  split; [discriminate |]. split; [discriminate |]. split.
  - split; [simpl; discriminate | simpl; discriminate].
  - right. split; reflexivity.
Defined.

(** C9: the validator returns a verdict on every input and never throws;
    every rejection carries a non-empty reason; [getHighestCard] throws
    only on the empty set, and that branch is not reached from the
    validator: the comparator is consulted only on non-empty plays of
    equal size (replacing it outside that domain changes nothing), and
    the comparator itself never throws. *)
Theorem validatePlay_total
    (cards lastPlay : list Card) (isFirstPlay must : bool) :
  (exists r : PlayValidation,
      GameRules.validatePlay cards lastPlay isFirstPlay must = Ok r /\
      (isValid r = false -> errorMessage r <> EmptyString)) /\
  (forall set : list Card,
      (exists e, GameRules.getHighestCard set = Throw e) <-> set = []) /\
  (forall beats : list Card -> list Card -> Result bool,
      (forall n l : list Card,
          n <> [] -> l <> [] -> List.length n = List.length l ->
          beats n l = GameRules.doesPlayBeat n l) ->
      GameRules.validatePlayWith beats cards lastPlay isFirstPlay must =
      GameRules.validatePlay cards lastPlay isFirstPlay must) /\
  (forall newPlay : list Card,
      exists b : bool, GameRules.doesPlayBeat newPlay lastPlay = Ok b).
Proof.
  split; [| split; [| split]].
  - unfold GameRules.validatePlay. rewrite validatePlayWith_cases.
    destruct (GameRules.empty cards);
      [eexists; split; [reflexivity | discriminate] |].
    destruct (must && _);
      [eexists; split; [reflexivity | discriminate] |].
    destruct (PlayType.eqb _ _);
      [eexists; split; [reflexivity | discriminate] |].
    destruct (isFirstPlay || _);
      [eexists; split; [reflexivity | discriminate] |].
    destruct (negb _);
      [eexists; split; [reflexivity | discriminate] |].
    destruct (doesPlayBeat_total cards lastPlay) as [b ->].
    destruct b; cbn [bind negb]; eexists; split;
      try reflexivity; discriminate.
  - exact getHighestCard_throws.
  - intros beats Hb. unfold GameRules.validatePlay.
    rewrite !validatePlayWith_cases.
    destruct (GameRules.empty cards) eqn:E1; [reflexivity |].
    destruct (must && _); [reflexivity |].
    destruct (PlayType.eqb _ _); [reflexivity |].
    destruct (isFirstPlay || _) eqn:E2; [reflexivity |].
    destruct (Nat.eqb_spec (List.length cards) (List.length lastPlay))
      as [E3 | E3]; [| reflexivity].
    cbn [negb]. rewrite Hb; [reflexivity | | | exact E3].
    + now apply empty_false.
    + apply orb_false_iff in E2. destruct E2 as [_ E2].
      now apply empty_false.
  - intros newPlay. apply doesPlayBeat_total.
Qed.

Lemma validatePlay_total_witness :
  GameRules.validatePlayWith guardedBeats
    [mkCard Four Diamonds; mkCard Four Clubs]
    [mkCard Three Spades; mkCard Three Hearts] false false =
  GameRules.validatePlay
    [mkCard Four Diamonds; mkCard Four Clubs]
    [mkCard Three Spades; mkCard Three Hearts] false false.
Proof.
  apply (proj1 (proj2 (proj2
    (validatePlay_total
       [mkCard Four Diamonds; mkCard Four Clubs]
       [mkCard Three Spades; mkCard Three Hearts] false false)))).
  intros n l Hn Hl Hlen. unfold guardedBeats.
  destruct n as [| n0 nt]; [now destruct Hn |].
  destruct l as [| l0 lt]; [now destruct Hl |].
  rewrite Hlen, Nat.eqb_refl. reflexivity.
Defined.

(** ** Invariance under permutation *)

Lemma isPair_spec (cards : list Card) :
  GameRules.isPair cards = true <->
  List.length cards = 2%nat /\
  exists r, Forall (fun c => getRank c = r) cards.
Proof.
  destruct cards as [| a [| b [| c t]]]; simpl;
    try (split; [discriminate | intros [H _]; discriminate H]).
  rewrite rank_eqb_eq. split.
  - intros E. split; [reflexivity |]. exists (getRank a).
    repeat (apply Forall_cons; [congruence |]). apply Forall_nil.
  - intros [_ [r H]]. inversion H as [| ? ? Ha H']; subst.
    apply Forall_inv in H'. congruence.
Qed.

Lemma isTriple_spec (cards : list Card) :
  GameRules.isTriple cards = true <->
  List.length cards = 3%nat /\
  exists r, Forall (fun c => getRank c = r) cards.
Proof.
  destruct cards as [| a [| b [| c [| d t]]]]; simpl;
    try (split; [discriminate | intros [H _]; discriminate H]).
  rewrite andb_true_iff, !rank_eqb_eq. split.
  - intros [E1 E2]. split; [reflexivity |]. exists (getRank a).
    repeat (apply Forall_cons; [congruence |]). apply Forall_nil.
  - intros [_ [r H]]. inversion H as [| ? ? Ha H']; subst.
    inversion H' as [| ? ? Hb H'']; subst. apply Forall_inv in H''.
    split; congruence.
Qed.

Section Permuted.

Variables cards cards' : list Card.
Hypothesis HP : Permutation cards cards'.

Lemma uniform_perm (A : Type) (f : Card -> A) (n : nat) :
  (List.length cards = n /\ exists r, Forall (fun c => f c = r) cards) <->
  (List.length cards' = n /\ exists r, Forall (fun c => f c = r) cards').
Proof.
  rewrite (Permutation_length HP). split; intros [Hl [r H]];
    (split; [exact Hl |]); exists r.
  - exact (Permutation_Forall HP H).
  - exact (Permutation_Forall (Permutation_sym HP) H).
Qed.

Lemma isPair_perm : GameRules.isPair cards = GameRules.isPair cards'.
Proof.
  apply eq_true_iff_eq. rewrite !isPair_spec. apply uniform_perm.
Qed.

Lemma isTriple_perm : GameRules.isTriple cards = GameRules.isTriple cards'.
Proof.
  apply eq_true_iff_eq. rewrite !isTriple_spec. apply uniform_perm.
Qed.

Lemma isFlush_perm : GameRules.isFlush cards = GameRules.isFlush cards'.
Proof.
  apply eq_true_iff_eq. rewrite !isFlush_spec. apply uniform_perm.
Qed.

Lemma isStraight_perm : GameRules.isStraight cards = GameRules.isStraight cards'.
Proof.
  apply eq_true_iff_eq. rewrite !isStraight_spec.
  rewrite (Permutation_length HP), (sortByRank_ranks_perm _ _ HP). tauto.
Qed.

Lemma isFullHouse_perm :
  GameRules.isFullHouse cards = GameRules.isFullHouse cards'.
Proof.
  rewrite !isFullHouse_ranks.
  rewrite (Permutation_length HP), (sortByRank_ranks_perm _ _ HP).
  reflexivity.
Qed.

Lemma isFourOfAKind_perm :
  GameRules.isFourOfAKind cards = GameRules.isFourOfAKind cards'.
Proof.
  rewrite !isFourOfAKind_ranks.
  rewrite (Permutation_length HP), (sortByRank_ranks_perm _ _ HP).
  reflexivity.
Qed.

Lemma determineFiveCardType_perm :
  GameRules.determineFiveCardType cards =
  GameRules.determineFiveCardType cards'.
Proof.
  unfold GameRules.determineFiveCardType, GameRules.isStraightFlush.
  rewrite (Permutation_length HP), isStraight_perm, isFlush_perm,
    isFourOfAKind_perm, isFullHouse_perm.
  reflexivity.
Qed.

Lemma determinePlayType_perm :
  GameRules.determinePlayType cards = GameRules.determinePlayType cards'.
Proof.
  unfold GameRules.determinePlayType.
  rewrite (Permutation_length HP), isPair_perm, isTriple_perm,
    determineFiveCardType_perm.
  reflexivity.
Qed.

End Permuted.

Lemma determinePlayType_Single (cards : list Card) :
  GameRules.determinePlayType cards = PlayType.Single ->
  exists c, cards = [c].
Proof.
  destruct cards as [| a [| b [| c [| d [| e [| f t]]]]]];
    unfold GameRules.determinePlayType; simpl.
  - discriminate.
  - intros _. now exists a.
  - destruct (rank_eqb _ _); discriminate.
  - destruct (_ && _); discriminate.
  - discriminate.
  - destruct (negb _); discriminate.
  - discriminate.
Qed.

Lemma doesPlayBeat_perm (newPlay newPlay' lastPlay lastPlay' : list Card) :
  Permutation newPlay newPlay' -> Permutation lastPlay lastPlay' ->
  GameRules.doesPlayBeat newPlay lastPlay =
  GameRules.doesPlayBeat newPlay' lastPlay'.
Proof.
  intros HN HL. unfold GameRules.doesPlayBeat.
  assert (GameRules.empty lastPlay = GameRules.empty lastPlay') as ->.
  { pose proof (Permutation_length HL) as E.
    destruct lastPlay, lastPlay'; simpl in *; congruence. }
  destruct (GameRules.empty lastPlay'); [reflexivity |].
  rewrite <- (Permutation_length HN), <- (Permutation_length HL).
  destruct (Nat.eqb_spec (List.length newPlay) (List.length lastPlay))
    as [E | E]; [| reflexivity]. cbn [negb].
  rewrite <- (determinePlayType_perm _ _ HN).
  destruct (GameRules.determinePlayType newPlay) eqn:T.
  - reflexivity.
  - destruct (determinePlayType_Single _ T) as [n0 ->].
    apply Permutation_length_1_inv in HN. subst newPlay'.
    destruct lastPlay as [| l0 [| l1 lt]]; try discriminate E.
    apply Permutation_length_1_inv in HL. subst lastPlay'. reflexivity.
  - unfold GameRules.pairBeats.
    rewrite <- (Permutation_length HN), <- (Permutation_length HL),
      <- (getHighestCard_perm _ _ HN), <- (getHighestCard_perm _ _ HL).
    reflexivity.
  - unfold GameRules.tripleBeats.
    rewrite <- (Permutation_length HN), <- (Permutation_length HL),
      <- (getHighestCard_perm _ _ HN), <- (getHighestCard_perm _ _ HL).
    reflexivity.
  - unfold GameRules.fiveCardBeats.
    rewrite <- (determineFiveCardType_perm _ _ HN),
      <- (determineFiveCardType_perm _ _ HL),
      <- (getHighestCard_perm _ _ HN), <- (getHighestCard_perm _ _ HL).
    reflexivity.
Qed.

(** C10: classification and comparison do not depend on the order of the
    cards: [determinePlayType] and [determineFiveCardType] give the same
    result on a list and on any permutation of it, and [doesPlayBeat]
    gives the same result when either play is permuted. *)
Theorem classification_comparison_perm_invariant :
  (forall cards cards' : list Card,
      Permutation cards cards' ->
      GameRules.determinePlayType cards = GameRules.determinePlayType cards' /\
      GameRules.determineFiveCardType cards =
        GameRules.determineFiveCardType cards') /\
  (forall newPlay newPlay' lastPlay lastPlay' : list Card,
      Permutation newPlay newPlay' -> Permutation lastPlay lastPlay' ->
      GameRules.doesPlayBeat newPlay lastPlay =
      GameRules.doesPlayBeat newPlay' lastPlay').
Proof.
  split.
  - intros cards cards' HP. split.
    + now apply determinePlayType_perm.
    + now apply determineFiveCardType_perm.
  - exact doesPlayBeat_perm.
Qed.

(** ** Text encoding of cards *)

(** Every valid token that is not a ten round-trips to its canonical
    form through [toString]. *)
Lemma roundTrip_canonical_except_ten (token : string) :
  In token validTokens -> isTenToken token = false ->
  roundTrip token = Ok (canonicalForm token).
Proof.
  intros Hin Hten.
  assert (forallb (fun t => isTenToken t || yields (roundTrip t) (canonicalForm t))
            validTokens = true) as H by (vm_compute; reflexivity).
  rewrite forallb_forall in H. specialize (H _ Hin).
  rewrite Hten in H. simpl in H. unfold yields in H.
  destruct (roundTrip token) as [s | e]; [| discriminate H].
  apply String.eqb_eq in H. now subst.
Qed.

(** No valid ten token round-trips to its canonical form through
    [toString]: the encoder writes the ten as the single letter T. *)
Lemma roundTrip_ten_not_canonical (token : string) :
  In token validTokens -> isTenToken token = true ->
  roundTrip token <> Ok (canonicalForm token) /\
  exists suit, roundTrip token = Ok (String "T"%char suit).
Proof.
  intros Hin Hten.
  assert (forallb
            (fun t => negb (isTenToken t) ||
                      (negb (yields (roundTrip t) (canonicalForm t)) &&
                       match roundTrip t with
                       | Ok (String c _) => Ascii.eqb c "T"
                       | _ => false
                       end))
            validTokens = true) as H by (vm_compute; reflexivity).
  rewrite forallb_forall in H. specialize (H _ Hin).
  rewrite Hten in H. simpl in H. apply andb_true_iff in H.
  destruct H as [H1 H2]. split.
  - intros E. rewrite E in H1. simpl in H1. rewrite String.eqb_refl in H1.
    discriminate H1.
  - destruct (roundTrip token) as [[| c rest] | e]; try discriminate H2.
    apply Ascii.eqb_eq in H2. subst c. now exists rest.
Qed.

(** The sibling encoder [toDisplayString] does produce the canonical
    form of every valid token. *)
Lemma roundTripDisplay_canonical (token : string) :
  In token validTokens -> roundTripDisplay token = Ok (canonicalForm token).
Proof.
  intros Hin.
  assert (forallb (fun t => yields (roundTripDisplay t) (canonicalForm t))
            validTokens = true) as H by (vm_compute; reflexivity).
  rewrite forallb_forall in H. specialize (H _ Hin). unfold yields in H.
  destruct (roundTripDisplay token) as [s | e]; [| discriminate H].
  apply String.eqb_eq in H. now subst.
Qed.

(** C8 at the token 10s: the token is valid, its canonical form is 10S,
    and decoding then encoding with [toString] yields TS. *)
Theorem roundTrip_ten_of_spades :
  In "10s"%string validTokens /\
  canonicalForm "10s" = "10S"%string /\
  roundTrip "10s" = Ok "TS"%string /\
  roundTrip "10s" <> Ok (canonicalForm "10s").
Proof.
  split; [vm_compute; tauto |]. split; [reflexivity |].
  split; [reflexivity |]. vm_compute. discriminate.
Qed.

(** ** The theorems at concrete plays *)

Lemma card_order_strict_total_witness :
  CardOps.lt threeOfDiamonds (mkCard Two Spades) = true.
Proof.
  apply (proj1 (proj2 (proj2 (proj2 card_order_strict_total)))
           threeOfDiamonds fourOfClubs (mkCard Two Spades)); reflexivity.
Defined.

Lemma fiveCardBeats_order_witness :
  GameRules.fiveCardBeats kingsOverThrees fourNines = Ok false /\
  GameRules.doesPlayBeat kingsOverThrees fourNines = Ok false.
Proof.
  apply (proj2 (proj2 (proj2 fiveCardBeats_order)) kingsOverThrees fourNines);
    reflexivity.
Defined.

Lemma straight_iff_consecutive_witness :
  stepsByOne (ranksOf (GameRules.sortByRank heartsRun)).
Proof.
  apply (proj1 (proj1 straight_iff_consecutive heartsRun eq_refl)).
  reflexivity.
Defined.

Lemma determinePlayType_reference_witness :
  GameRules.determinePlayType [mkCard Four Diamonds; fourOfClubs] =
  PlayType.Pair.
Proof.
  apply (proj1 (proj1 (proj2 (proj2 determinePlayType_reference))
                  (mkCard Four Diamonds) fourOfClubs)).
  reflexivity.
Defined.

Lemma classification_comparison_perm_invariant_witness :
  GameRules.doesPlayBeat [mkCard Four Diamonds; fourOfClubs]
    [mkCard Three Spades; mkCard Three Hearts] =
  GameRules.doesPlayBeat [fourOfClubs; mkCard Four Diamonds]
    [mkCard Three Hearts; mkCard Three Spades].
Proof.
  apply (proj2 classification_comparison_perm_invariant); apply perm_swap.
Defined.

(** Scenario A: the 3 of Diamonds alone opens the game. *)
Example scenario_A :
  GameRules.validatePlay [threeOfDiamonds] [] true true =
  Ok (mkPlayValidation true PlayType.Single FiveCardType.None EmptyString).
Proof. reflexivity. Qed.

(** Scenario B: a pair of fours on a pair of threes. *)
Example scenario_B :
  GameRules.validatePlay [mkCard Four Diamonds; fourOfClubs]
    [mkCard Three Spades; mkCard Three Hearts] false false =
  Ok (mkPlayValidation true PlayType.Pair FiveCardType.None EmptyString).
Proof. reflexivity. Qed.

(** Scenario C: a straight flush on a four of a kind is accepted, a full
    house is not. *)
Example scenario_C :
  GameRules.validatePlay heartsRun fourNines false false =
    Ok (mkPlayValidation true PlayType.FiveCard FiveCardType.StraightFlush
          EmptyString) /\
  GameRules.validatePlay kingsOverThrees fourNines false false =
    Ok (mkPlayValidation false PlayType.FiveCard FiveCardType.FullHouse
          "Play does not beat the previous play").
Proof. split; reflexivity. Qed.

(** Scenario E: four cards are never a play. *)
Example scenario_E (a b c d : Card) (lastPlay : list Card) (first must : bool) :
  ~ accepted (GameRules.validatePlay [a; b; c; d] lastPlay first must).
Proof.
  unfold GameRules.validatePlay. rewrite validatePlayWith_cases.
  cbn [GameRules.empty].
  destruct (must && _); [apply not_accepted_invalid |].
  change (GameRules.determinePlayType [a; b; c; d]) with PlayType.Invalid.
  apply not_accepted_invalid.
Qed.

(** * Further properties of the card encoding *)

Lemma toupper_idem (c : ascii) : toupper (toupper c) = toupper c.
Proof. destruct c as [[] [] [] [] [] [] [] []]; reflexivity. Qed.

Lemma charToRank_toupper (c : ascii) : charToRank (toupper c) = charToRank c.
Proof. unfold charToRank. rewrite toupper_idem. reflexivity. Qed.

Lemma charToSuit_toupper (c : ascii) : charToSuit (toupper c) = charToSuit c.
Proof. unfold charToSuit. rewrite toupper_idem. reflexivity. Qed.

Lemma toupper_digit (c d : ascii) :
  In d ["0"; "1"]%char -> Ascii.eqb (toupper c) d = Ascii.eqb c d.
Proof.
  intros [<- | [<- | []]];
    destruct c as [[] [] [] [] [] [] [] []]; reflexivity.
Qed.

Lemma uppercase_length (s : string) :
  String.length (uppercase s) = String.length s.
Proof. induction s as [| c s IH]; simpl; congruence. Qed.

Lemma parseCard_after_encode_aux (c : Card) :
  parseCard (toString c) = Ok c /\ parseCard (toDisplayString c) = Ok c.
Proof. destruct c as [r s]; destruct r, s; split; reflexivity. Qed.

(** X1: decoding what either encoder writes gives the card back, for all
    52 cards. *)
Theorem parseCard_after_encode (c : Card) :
  parseCard (toString c) = Ok c /\ parseCard (toDisplayString c) = Ok c.
Proof. exact (parseCard_after_encode_aux c). Qed.

(** The decoder on a string of at least two characters. *)
Lemma parseCard_cons (a b : ascii) (rest : string) :
  parseCard (String a (String b rest)) =
  match rest with
  | String c _ =>
      if Ascii.eqb a "1" && Ascii.eqb b "0"
      then s <- charToSuit c ;; Ok (mkCard Ten s)
      else r <- charToRank a ;; s <- charToSuit b ;; Ok (mkCard r s)
  | EmptyString => r <- charToRank a ;; s <- charToSuit b ;; Ok (mkCard r s)
  end.
Proof.
  destruct rest as [| c rest']; unfold parseCard; simpl;
    destruct (Ascii.eqb a "1") eqn:Ea; destruct (Ascii.eqb b "0") eqn:Eb;
    simpl; rewrite ?Ea, ?Eb; simpl; try reflexivity;
    destruct (charToRank a); simpl; try reflexivity;
    destruct (charToSuit b); simpl; rewrite ?Ea; reflexivity.
Qed.

(** X2: decoding does not depend on letter case: on a string of at least
    two characters, the result (card or exception) is that of the
    uppercased string. *)
Theorem parseCard_case_insensitive (s : string) :
  (2 <= String.length s)%nat -> parseCard (uppercase s) = parseCard s.
Proof.
  destruct s as [| a [| b rest]]; simpl; try lia. intros _.
  rewrite !parseCard_cons.
  rewrite (toupper_digit a "1"), (toupper_digit b "0") by (simpl; tauto).
  rewrite !charToRank_toupper, !charToSuit_toupper.
  destruct rest as [| c rest']; simpl; [reflexivity |].
  rewrite charToSuit_toupper. reflexivity.
Qed.

Lemma parseCard_case_insensitive_witness :
  parseCard (uppercase "10s") = parseCard "10s".
Proof. apply parseCard_case_insensitive. simpl. lia. Defined.

Lemma memString_In (s : string) (l : list string) :
  memString s l = true -> In s l.
Proof.
  unfold memString. rewrite existsb_exists.
  intros [x [Hin E]]. apply String.eqb_eq in E. now subst.
Qed.

Lemma memAscii_In (c : ascii) (l : list ascii) :
  memAscii c l = true -> In c l.
Proof.
  unfold memAscii. rewrite existsb_exists.
  intros [x [Hin E]]. apply Ascii.eqb_eq in E. now subst.
Qed.

Lemma charToRank_Ok (c : ascii) (r : Rank) :
  charToRank c = Ok r -> In c rankLetters.
Proof.
  intros H. apply memAscii_In. revert H.
  destruct c as [[] [] [] [] [] [] [] []];
    vm_compute; intros H; (reflexivity || discriminate H).
Qed.

Lemma charToSuit_Ok (c : ascii) (u : Suit) :
  charToSuit c = Ok u -> In c suitLetters.
Proof.
  intros H. apply memAscii_In. revert H.
  destruct c as [[] [] [] [] [] [] [] []];
    vm_compute; intros H; (reflexivity || discriminate H).
Qed.

Lemma acceptedTokens_prefix :
  Forall (fun t => forall rest : string,
              parseCard (String.append t rest) = parseCard t /\
              exists c, parseCard t = Ok c)
    acceptedTokens.
Proof.
  cbv [acceptedTokens validTokens rankTokens suitTokens flat_map map
         List.app String.append].
  repeat (apply Forall_cons;
          [intros rest; split;
           [destruct rest; reflexivity | eexists; reflexivity] |]).
  apply Forall_nil.
Qed.

(** X3: the decoder accepts exactly the strings that begin with one of
    the valid tokens or with the digit 1 followed by a suit letter (read
    as a ten); whatever follows that token is ignored. *)
Theorem parseCard_accepts_prefix :
  (forall t rest : string,
      In t acceptedTokens ->
      parseCard (String.append t rest) = parseCard t /\
      exists c, parseCard t = Ok c) /\
  (forall (s : string) (c : Card),
      parseCard s = Ok c ->
      exists t rest : string,
        In t acceptedTokens /\ s = String.append t rest).
Proof.
  split.
  - intros t rest Hin.
    exact (proj1 (Forall_forall _ _) acceptedTokens_prefix t Hin rest).
  - intros s c H.
    destruct s as [| a [| b rest]]; try discriminate H.
    rewrite parseCard_cons in H.
    assert (forall r u, charToRank a = Ok r -> charToSuit b = Ok u ->
              In (String a (String b EmptyString)) acceptedTokens) as Htwo.
    { intros r u Hr Hu. apply charToRank_Ok in Hr. apply charToSuit_Ok in Hu.
      apply memString_In.
      repeat (destruct Hr as [<- | Hr];
              [repeat (destruct Hu as [<- | Hu]; [reflexivity |]);
               destruct Hu |]).
      destruct Hr. }
    assert ((exists r u, charToRank a = Ok r /\ charToSuit b = Ok u) ->
            exists t rest0, In t acceptedTokens /\
              String a (String b rest) = String.append t rest0) as Hcase.
    { intros (r & u & Hr & Hu).
      exists (String a (String b EmptyString)), rest.
      split; [exact (Htwo r u Hr Hu) | reflexivity]. }
    destruct rest as [| c0 rest'].
    + apply Hcase. destruct (charToRank a) as [r |]; [| discriminate H].
      destruct (charToSuit b) as [u |]; [| discriminate H].
      now exists r, u.
    + destruct (Ascii.eqb a "1" && Ascii.eqb b "0") eqn:E.
      * apply andb_true_iff in E. destruct E as [Ea Eb].
        apply Ascii.eqb_eq in Ea, Eb. subst a b.
        destruct (charToSuit c0) as [u |] eqn:Hu; [| discriminate H].
        exists (String "1" (String "0" (String c0 EmptyString))), rest'.
        split; [| reflexivity].
        apply charToSuit_Ok in Hu. apply memString_In.
        repeat (destruct Hu as [<- | Hu]; [reflexivity |]). destruct Hu.
      * apply Hcase. destruct (charToRank a) as [r |]; [| discriminate H].
        destruct (charToSuit b) as [u |]; [| discriminate H].
        now exists r, u.
Qed.

Lemma parseCard_accepts_prefix_witness :
  parseCard (String.append "1s" " and more") = parseCard "1s" /\
  exists c, parseCard "1s" = Ok c.
Proof.
  apply (proj1 parseCard_accepts_prefix "1s"%string " and more"%string).
  apply memString_In. reflexivity.
Defined.

(** * Further properties of the card order and of the comparator *)

(** X4: the derived operators agree with the order: [<=] is [<] or
    [==], [>=] is [>] or [==], [!=] is the negation of [==]; [<=] is
    total and antisymmetric. *)
Theorem card_le_ge_consistent (a b : Card) :
  CardOps.le a b = CardOps.lt a b || CardOps.eq a b /\
  CardOps.ge a b = CardOps.gt a b || CardOps.eq a b /\
  (CardOps.ne a b = true <-> a <> b) /\
  (CardOps.le a b = true \/ CardOps.le b a = true) /\
  (CardOps.le a b = true -> CardOps.le b a = true -> a = b).
Proof.
  assert (CardOps.eq a b = (cardKey a =? cardKey b)) as Heq.
  { apply eq_true_iff_eq. rewrite card_eq_true, Z.eqb_eq. split.
    - now intros ->.
    - apply cardKey_inj. }
  assert (a = b <-> cardKey a = cardKey b) as Hk
      by (split; [now intros -> | apply cardKey_inj]).
  unfold CardOps.le, CardOps.ge, CardOps.gt, CardOps.ne.
  rewrite Heq, !card_lt_key, Hk, negb_true_iff, Z.eqb_neq.
  destruct (Z.ltb_spec (cardKey a) (cardKey b));
    destruct (Z.ltb_spec (cardKey b) (cardKey a));
    destruct (Z.eqb_spec (cardKey a) (cardKey b)); try lia;
    cbn [negb orb]; (split; [reflexivity |]); (split; [reflexivity |]);
    (split; [tauto |]); (split; [tauto |]); intros; (lia || discriminate).
Qed.

Lemma card_le_ge_consistent_witness : threeOfDiamonds = mkCard Three Diamonds.
Proof.
  apply (proj2 (proj2 (proj2 (proj2
           (card_le_ge_consistent threeOfDiamonds (mkCard Three Diamonds))))));
    reflexivity.
Defined.

Lemma cardKey_bounds (c : Card) : 12 <= cardKey c <= 63.
Proof.
  unfold cardKey, rankOf. pose proof (suitValue_bounds (getSuit c)).
  destruct (getRank c); cbn [rankValue]; lia.
Qed.

Lemma determineFiveCardType_short (cards : list Card) :
  List.length cards <> 5%nat ->
  GameRules.determineFiveCardType cards = FiveCardType.None.
Proof.
  intros H. unfold GameRules.determineFiveCardType.
  apply Nat.eqb_neq in H. rewrite H. reflexivity.
Qed.

Lemma determinePlayType_size (cards : list Card) :
  match GameRules.determinePlayType cards with
  | PlayType.Invalid => True
  | PlayType.Single => List.length cards = 1%nat
  | PlayType.Pair => List.length cards = 2%nat
  | PlayType.Triple => List.length cards = 3%nat
  | PlayType.FiveCard => List.length cards = 5%nat
  end.
Proof.
  destruct cards as [| a [| b [| c [| d [| e [| f t]]]]]];
    unfold GameRules.determinePlayType; simpl; auto.
  - destruct (rank_eqb _ _); simpl; auto.
  - destruct (_ && _); simpl; auto.
  - destruct (negb _); simpl; auto.
Qed.

Lemma playStrength_short (cards : list Card) (h : Card) :
  List.length cards <> 5%nat -> GameRules.getHighestCard cards = Ok h ->
  playStrength cards = cardKey h.
Proof.
  intros Hl Hh. unfold playStrength.
  rewrite determineFiveCardType_short, Hh by exact Hl. reflexivity.
Qed.

(** The comparator against a non-empty last play, as a comparison of
    strengths. *)
Lemma doesPlayBeat_strength (newPlay lastPlay : list Card) :
  lastPlay <> [] ->
  GameRules.doesPlayBeat newPlay lastPlay =
  Ok (Nat.eqb (List.length newPlay) (List.length lastPlay) &&
      negb (PlayType.eqb (GameRules.determinePlayType newPlay) PlayType.Invalid) &&
      (playStrength lastPlay <? playStrength newPlay)).
Proof.
  intros Hl. unfold GameRules.doesPlayBeat.
  destruct lastPlay as [| l0 lt]; [contradiction |]. cbn [GameRules.empty].
  destruct (Nat.eqb_spec (List.length newPlay) (List.length (l0 :: lt)))
    as [E | E]; [| reflexivity]. cbn [negb andb].
  pose proof (determinePlayType_size newPlay) as Hsz.
  destruct newPlay as [| n0 nt]; [discriminate E |].
  destruct (GameRules.determinePlayType (n0 :: nt)); cbn [PlayType.eqb negb andb].
  - reflexivity.
  - destruct nt; [| discriminate Hsz]. destruct lt; [| discriminate E].
    unfold GameRules.singleBeats, CardOps.gt. rewrite card_lt_key.
    reflexivity.
  - unfold GameRules.pairBeats. rewrite <- E, Hsz. cbn [Nat.eqb negb orb bind].
    rewrite (playStrength_short (n0 :: nt) _ ltac:(rewrite Hsz; discriminate) eq_refl).
    rewrite (playStrength_short (l0 :: lt) _ ltac:(rewrite <- E, Hsz; discriminate) eq_refl).
    unfold GameRules.getHighestCard, CardOps.gt, bind. rewrite card_lt_key.
    reflexivity.
  - unfold GameRules.tripleBeats. rewrite <- E, Hsz. cbn [Nat.eqb negb orb bind].
    rewrite (playStrength_short (n0 :: nt) _ ltac:(rewrite Hsz; discriminate) eq_refl).
    rewrite (playStrength_short (l0 :: lt) _ ltac:(rewrite <- E, Hsz; discriminate) eq_refl).
    unfold GameRules.getHighestCard, CardOps.gt, bind. rewrite card_lt_key.
    reflexivity.
  - unfold GameRules.fiveCardBeats, playStrength.
    unfold GameRules.getHighestCard, bind, CardOps.gt. rewrite card_lt_key.
    pose proof (cardKey_bounds (GameRules.highestFrom n0 nt)).
    pose proof (cardKey_bounds (GameRules.highestFrom l0 lt)).
    set (rn := GameRules.getFiveCardRank _).
    set (rl := GameRules.getFiveCardRank _).
    rewrite Z.gtb_ltb.
    destruct (Z.ltb_spec rl rn); [f_equal; symmetry; apply Z.ltb_lt; lia |].
    destruct (Z.ltb_spec rn rl); [f_equal; symmetry; apply Z.ltb_ge; lia |].
    assert (rn = rl) as -> by lia. f_equal.
    destruct (Z.ltb_spec (cardKey (GameRules.highestFrom l0 lt))
                (cardKey (GameRules.highestFrom n0 nt)));
      symmetry; [apply Z.ltb_lt | apply Z.ltb_ge]; lia.
Qed.

(** X5: on non-empty plays the comparator is a strict order: no play
    beats itself, two plays never beat each other, and beating is
    transitive (also through an empty last play). *)
Theorem doesPlayBeat_strict_order :
  (forall a : list Card, a <> [] -> GameRules.doesPlayBeat a a = Ok false) /\
  (forall a b : list Card,
      b <> [] -> GameRules.doesPlayBeat a b = Ok true ->
      GameRules.doesPlayBeat b a = Ok false) /\
  (forall a b c : list Card,
      GameRules.doesPlayBeat a b = Ok true ->
      GameRules.doesPlayBeat b c = Ok true ->
      GameRules.doesPlayBeat a c = Ok true).
Proof.
  split; [| split].
  - intros a Ha. rewrite doesPlayBeat_strength by exact Ha.
    rewrite Z.ltb_irrefl, andb_false_r. reflexivity.
  - intros a b Hb H. rewrite doesPlayBeat_strength in H by exact Hb.
    injection H as H. apply andb_true_iff in H. destruct H as [H Hs].
    apply andb_true_iff in H. destruct H as [Hlen _].
    apply Nat.eqb_eq in Hlen. apply Z.ltb_lt in Hs.
    assert (a <> []) as Ha
        by (intros ->; destruct b; [contradiction | discriminate Hlen]).
    rewrite doesPlayBeat_strength by exact Ha.
    rewrite (proj2 (Z.ltb_ge _ _)) by lia. rewrite andb_false_r. reflexivity.
  - intros a b c Hab Hbc.
    destruct c as [| c0 ct]; [reflexivity |].
    rewrite doesPlayBeat_strength in Hbc by discriminate.
    injection Hbc as Hbc. apply andb_true_iff in Hbc. destruct Hbc as [H Hs2].
    apply andb_true_iff in H. destruct H as [Hlen2 _].
    apply Nat.eqb_eq in Hlen2. apply Z.ltb_lt in Hs2.
    assert (b <> []) as Hb by (intros ->; discriminate Hlen2).
    rewrite doesPlayBeat_strength in Hab by exact Hb.
    injection Hab as Hab. apply andb_true_iff in Hab. destruct Hab as [H Hs1].
    apply andb_true_iff in H. destruct H as [Hlen1 Hty].
    apply Nat.eqb_eq in Hlen1. apply Z.ltb_lt in Hs1.
    rewrite doesPlayBeat_strength by discriminate.
    rewrite Hty, Hlen1, Hlen2, Nat.eqb_refl.
    rewrite (proj2 (Z.ltb_lt _ _)) by lia. reflexivity.
Qed.

Lemma doesPlayBeat_strict_order_witness :
  GameRules.doesPlayBeat [mkCard Two Spades] [threeOfDiamonds] = Ok true.
Proof.
  apply (proj2 (proj2 doesPlayBeat_strict_order)
           [mkCard Two Spades] [fourOfClubs] [threeOfDiamonds]); reflexivity.
Defined.

Lemma getHighestCard_In (cards : list Card) (h : Card) :
  GameRules.getHighestCard cards = Ok h -> In h cards.
Proof.
  intros H. destruct cards as [| c0 rest]; [discriminate H |].
  destruct (getHighestCard_spec (c0 :: rest)) as (h' & Hh & [Hin _]);
    [discriminate |].
  congruence.
Qed.

Lemma uniform_rank_strength (cards : list Card) (r : Rank) :
  cards <> [] -> List.length cards <> 5%nat ->
  Forall (fun c => getRank c = r) cards ->
  4 * rankValue r <= playStrength cards <= 4 * rankValue r + 3.
Proof.
  intros Hne Hl Hr.
  destruct (getHighestCard_spec cards Hne) as (h & Hh & [Hin _]).
  rewrite (playStrength_short cards h Hl Hh).
  rewrite Forall_forall in Hr. specialize (Hr _ Hin).
  unfold cardKey, rankOf. rewrite Hr.
  pose proof (suitValue_bounds (getSuit h)). lia.
Qed.

Lemma uniform_rank_valid (cards : list Card) (r : Rank) :
  In (List.length cards) [1; 2; 3]%nat ->
  Forall (fun c => getRank c = r) cards ->
  PlayType.eqb (GameRules.determinePlayType cards) PlayType.Invalid = false.
Proof.
  intros Hl Hr.
  destruct cards as [| a [| b [| c [| d t]]]]; simpl in Hl;
    try (exfalso; intuition discriminate).
  - reflexivity.
  - assert (GameRules.isPair [a; b] = true) as E
        by (apply isPair_spec; split; [reflexivity | now exists r]).
    unfold GameRules.determinePlayType. rewrite E. reflexivity.
  - assert (GameRules.isTriple [a; b; c] = true) as E
        by (apply isTriple_spec; split; [reflexivity | now exists r]).
    unfold GameRules.determinePlayType. rewrite E. reflexivity.
Qed.

(** X6: between singles, between pairs and between triples, the play of
    the higher rank beats the play of the lower rank whatever the suits,
    and is never beaten by it. *)
Theorem higher_rank_group_beats (p q : list Card) (rp rq : Rank) :
  In (List.length p) [1; 2; 3]%nat ->
  List.length p = List.length q ->
  Forall (fun c => getRank c = rp) p ->
  Forall (fun c => getRank c = rq) q ->
  rankValue rq < rankValue rp ->
  GameRules.doesPlayBeat p q = Ok true /\
  GameRules.doesPlayBeat q p = Ok false.
Proof.
  intros Hl Hpq Hp Hq Hlt.
  assert (In (List.length q) [1; 2; 3]%nat) as Hl' by (rewrite <- Hpq; exact Hl).
  assert (p <> []) as Pne
      by (intros ->; simpl in Hl; intuition discriminate).
  assert (q <> []) as Qne
      by (intros ->; simpl in Hl'; intuition discriminate).
  assert (List.length p <> 5%nat) as P5
      by (intros E; rewrite E in Hl; simpl in Hl; intuition discriminate).
  assert (List.length q <> 5%nat) as Q5 by (rewrite <- Hpq; exact P5).
  pose proof (uniform_rank_strength p rp Pne P5 Hp).
  pose proof (uniform_rank_strength q rq Qne Q5 Hq).
  rewrite !doesPlayBeat_strength by assumption.
  rewrite (uniform_rank_valid p rp Hl Hp), (uniform_rank_valid q rq Hl' Hq).
  rewrite Hpq, Nat.eqb_refl. cbn [negb andb].
  rewrite (proj2 (Z.ltb_lt _ _)) by lia.
  rewrite (proj2 (Z.ltb_ge _ _)) by lia. split; reflexivity.
Qed.

Lemma higher_rank_group_beats_witness :
  GameRules.doesPlayBeat
    [mkCard Four Diamonds; fourOfClubs]
    [mkCard Three Spades; mkCard Three Hearts] = Ok true /\
  GameRules.doesPlayBeat
    [mkCard Three Spades; mkCard Three Hearts]
    [mkCard Four Diamonds; fourOfClubs] = Ok false.
Proof.
  apply (higher_rank_group_beats
           [mkCard Four Diamonds; fourOfClubs]
           [mkCard Three Spades; mkCard Three Hearts] Four Three).
  - simpl. tauto.
  - reflexivity.
  - repeat constructor.
  - repeat constructor.
  - simpl. lia.
Defined.

(** * Further properties of the validator *)

Lemma subShapeOf_FiveCard (cards : list Card) :
  GameRules.determinePlayType cards = PlayType.FiveCard <->
  subShapeOf cards <> FiveCardType.None.
Proof.
  unfold subShapeOf. split.
  - intros E. rewrite E. cbn [PlayType.eqb].
    now apply determinePlayType_FiveCard.
  - destruct (GameRules.determinePlayType cards); cbn [PlayType.eqb];
      intros H; try reflexivity; now destruct H.
Qed.

(** X7: an accepted play has 1, 2, 3 or 5 cards; its verdict carries the
    classified shape, which is not Invalid, a sub-shape that is not None
    exactly for five-card plays, and an empty reason. *)
Theorem accepted_verdict_consistent
    (cards lastPlay : list Card) (isFirstPlay must : bool)
    (r : PlayValidation) :
  GameRules.validatePlay cards lastPlay isFirstPlay must = Ok r ->
  isValid r = true ->
  In (List.length cards) [1; 2; 3; 5]%nat /\
  playType r = GameRules.determinePlayType cards /\
  playType r <> PlayType.Invalid /\
  fiveCardType r = subShapeOf cards /\
  (playType r = PlayType.FiveCard <-> fiveCardType r <> FiveCardType.None) /\
  errorMessage r = EmptyString.
Proof.
  unfold GameRules.validatePlay. rewrite validatePlayWith_cases.
  intros H Hv.
  assert (PlayType.eqb (GameRules.determinePlayType cards) PlayType.Invalid
          = false /\
          r = mkPlayValidation true (GameRules.determinePlayType cards)
                (subShapeOf cards) EmptyString) as [Hty ->].
  { destruct (GameRules.empty cards);
      [injection H as <-; discriminate Hv |].
    destruct (must && _); [injection H as <-; discriminate Hv |].
    destruct (PlayType.eqb _ _); [injection H as <-; discriminate Hv |].
    split; [reflexivity |].
    destruct (isFirstPlay || _); [now injection H as <- |].
    destruct (negb _); [injection H as <-; discriminate Hv |].
    destruct (GameRules.doesPlayBeat cards lastPlay) as [[|] | e];
      cbn [bind negb] in H; try discriminate H;
      injection H as <-; [reflexivity | discriminate Hv]. }
  cbn [playType fiveCardType errorMessage].
  assert (GameRules.determinePlayType cards <> PlayType.Invalid) as Hne
      by (intros E; rewrite E in Hty; discriminate Hty).
  split.
  { pose proof (determinePlayType_size cards) as Hsz.
    destruct (GameRules.determinePlayType cards); try rewrite Hsz;
      simpl; tauto. }
  split; [reflexivity |]. split; [exact Hne |]. split; [reflexivity |].
  split; [apply subShapeOf_FiveCard | reflexivity].
Qed.

Lemma accepted_verdict_consistent_witness :
  In (List.length heartsRun) [1; 2; 3; 5]%nat.
Proof.
  apply (accepted_verdict_consistent heartsRun fourNines false false
           (mkPlayValidation true PlayType.FiveCard
              FiveCardType.StraightFlush EmptyString));
    reflexivity.
Defined.

(** X8: a rejection carries one of five reasons; the reason
    "Invalid five-card combination" is never produced, and a rejection
    never has an empty reason. *)
Theorem rejection_reasons
    (cards lastPlay : list Card) (isFirstPlay must : bool)
    (r : PlayValidation) :
  GameRules.validatePlay cards lastPlay isFirstPlay must = Ok r ->
  (isValid r = false -> In (errorMessage r) rejectionReasons) /\
  errorMessage r <> "Invalid five-card combination"%string.
Proof.
  unfold GameRules.validatePlay. rewrite validatePlayWith_cases.
  intros H.
  destruct (GameRules.empty cards);
    [injection H as <-; split; [intros _; simpl; tauto | discriminate] |].
  destruct (must && _);
    [injection H as <-; split; [intros _; simpl; tauto | discriminate] |].
  destruct (PlayType.eqb _ _);
    [injection H as <-; split; [intros _; simpl; tauto | discriminate] |].
  destruct (isFirstPlay || _);
    [injection H as <-; split; [discriminate | discriminate] |].
  destruct (negb _);
    [injection H as <-; split; [intros _; simpl; tauto | discriminate] |].
  destruct (GameRules.doesPlayBeat cards lastPlay) as [[|] | e];
    cbn [bind negb] in H; try discriminate H; injection H as <-.
  - split; discriminate.
  - split; [intros _; simpl; tauto | discriminate].
Qed.

Lemma rejection_reasons_witness :
  In "Play does not beat the previous play"%string rejectionReasons.
Proof.
  apply (proj1 (rejection_reasons kingsOverThrees fourNines false false
                  (mkPlayValidation false PlayType.FiveCard
                     FiveCardType.FullHouse
                     "Play does not beat the previous play") eq_refl)).
  reflexivity.
Defined.

(** X9: the two flags only relax the verdict: a play accepted while the
    3 of Diamonds is required is accepted with the same verdict when it
    is not, and a play accepted as a follow-up is accepted with the same
    verdict as a first play. *)
Theorem validatePlay_flags_monotone
    (cards lastPlay : list Card) (isFirstPlay must : bool)
    (r : PlayValidation) :
  GameRules.validatePlay cards lastPlay isFirstPlay must = Ok r ->
  isValid r = true ->
  GameRules.validatePlay cards lastPlay isFirstPlay false = Ok r /\
  GameRules.validatePlay cards lastPlay true must = Ok r.
Proof.
  unfold GameRules.validatePlay. rewrite !validatePlayWith_cases.
  intros H Hv.
  destruct (GameRules.empty cards);
    [injection H as <-; discriminate Hv |].
  destruct (must && _); [injection H as <-; discriminate Hv |].
  cbn [andb orb].
  destruct (PlayType.eqb _ _); [injection H as <-; discriminate Hv |].
  destruct (isFirstPlay || _); [split; exact H |].
  destruct (negb _); [injection H as <-; discriminate Hv |].
  destruct (GameRules.doesPlayBeat cards lastPlay) as [[|] | e];
    cbn [bind negb] in H |- *; try discriminate H.
  - split; exact H.
  - injection H as <-. discriminate Hv.
Qed.

Lemma validatePlay_flags_monotone_witness :
  GameRules.validatePlay [threeOfDiamonds] [] false false =
    Ok (mkPlayValidation true PlayType.Single FiveCardType.None EmptyString) /\
  GameRules.validatePlay [threeOfDiamonds] [] true true =
    Ok (mkPlayValidation true PlayType.Single FiveCardType.None EmptyString).
Proof.
  apply (validatePlay_flags_monotone [threeOfDiamonds] [] false true);
    reflexivity.
Defined.

(** X10: an accepted play is announced under one of eight names, never
    as "Invalid" or "Five Card", and two accepted plays announced under
    the same name have the same shape and sub-shape. *)
Theorem accepted_play_name
    (cards lastPlay : list Card) (isFirstPlay must : bool)
    (r : PlayValidation) :
  GameRules.validatePlay cards lastPlay isFirstPlay must = Ok r ->
  isValid r = true ->
  In (getPlayTypeName (playType r) (fiveCardType r)) acceptedPlayNames /\
  (forall (cards' lastPlay' : list Card) (isFirstPlay' must' : bool)
          (r' : PlayValidation),
      GameRules.validatePlay cards' lastPlay' isFirstPlay' must' = Ok r' ->
      isValid r' = true ->
      getPlayTypeName (playType r) (fiveCardType r) =
      getPlayTypeName (playType r') (fiveCardType r') ->
      playType r = playType r' /\ fiveCardType r = fiveCardType r').
Proof.
  assert (forall cs lp f m v,
             GameRules.validatePlay cs lp f m = Ok v -> isValid v = true ->
             playType v <> PlayType.Invalid /\
             (playType v = PlayType.FiveCard <->
              fiveCardType v <> FiveCardType.None)) as Hshape.
  { unfold GameRules.validatePlay. intros cs lp f m v.
    rewrite validatePlayWith_cases. intros H Hv.
    assert (PlayType.eqb (GameRules.determinePlayType cs) PlayType.Invalid
            = false /\
            v = mkPlayValidation true (GameRules.determinePlayType cs)
                  (subShapeOf cs) EmptyString) as [Hty ->].
    { destruct (GameRules.empty cs);
        [injection H as <-; discriminate Hv |].
      destruct (m && _); [injection H as <-; discriminate Hv |].
      destruct (PlayType.eqb _ _); [injection H as <-; discriminate Hv |].
      split; [reflexivity |].
      destruct (f || _); [now injection H as <- |].
      destruct (negb _); [injection H as <-; discriminate Hv |].
      destruct (GameRules.doesPlayBeat cs lp) as [[|] | e];
        cbn [bind negb] in H; try discriminate H;
        injection H as <-; [reflexivity | discriminate Hv]. }
    cbn [playType fiveCardType]. split.
    - intros E. rewrite E in Hty. discriminate Hty.
    - apply subShapeOf_FiveCard. }
  intros H Hv. destruct (Hshape _ _ _ _ _ H Hv) as [Hne H5]. split.
  - destruct (playType r); try (now destruct Hne); try (simpl; tauto).
    destruct (fiveCardType r); try (simpl; tauto).
  - intros cards' lastPlay' f' m' r' H' Hv' Hname.
    destruct (Hshape _ _ _ _ _ H' Hv') as [Hne' H5'].
    destruct (playType r) eqn:P; destruct (playType r') eqn:P';
      try (now destruct Hne); try (now destruct Hne');
      destruct (fiveCardType r) eqn:F; destruct (fiveCardType r') eqn:F';
      try discriminate Hname; try (split; reflexivity);
      try (exfalso; now apply (proj1 H5 eq_refl));
      try (exfalso; now apply (proj1 H5' eq_refl));
      try (assert (X := proj2 H5 ltac:(discriminate)); discriminate X);
      try (assert (X := proj2 H5' ltac:(discriminate)); discriminate X).
Qed.

Lemma accepted_play_name_witness :
  In "Straight Flush"%string acceptedPlayNames.
Proof.
  apply (proj1 (accepted_play_name heartsRun fourNines false false
                  (mkPlayValidation true PlayType.FiveCard
                     FiveCardType.StraightFlush EmptyString)
                  eq_refl eq_refl)).
Defined.

(** * Hands *)

Lemma hasCard_In (cards_ : list Card) (card : Card) :
  Hand.hasCard cards_ card = true <-> In card cards_.
Proof.
  unfold Hand.hasCard. rewrite existsb_exists. split.
  - intros [c [Hin E]]. apply card_eq_true in E. now subst.
  - intros H. exists card. split; [exact H | now apply card_eq_true].
Qed.

Lemma hasCard_false (cards_ : list Card) (card : Card) :
  Hand.hasCard cards_ card = false <-> ~ In card cards_.
Proof.
  rewrite <- hasCard_In. destruct (Hand.hasCard cards_ card); split;
    congruence.
Qed.

Lemma removeCard_split (cards_ : list Card) (card : Card) :
  In card cards_ ->
  exists l1 l2,
    cards_ = l1 ++ card :: l2 /\ ~ In card l1 /\
    Hand.removeCard cards_ card = (true, l1 ++ l2).
Proof.
  induction cards_ as [| c rest IH]; intros Hin; [destruct Hin |].
  simpl. destruct (CardOps.eq c card) eqn:E.
  - apply card_eq_true in E. subst c.
    exists [], rest. repeat split. intros [].
  - assert (c <> card) as Hne
        by (intros ->; rewrite (proj2 (card_eq_true card card) eq_refl) in E;
            discriminate E).
    destruct Hin as [-> | Hin]; [now destruct Hne |].
    destruct (IH Hin) as (l1 & l2 & -> & Hn & ->).
    exists (c :: l1), l2. repeat split.
    intros [-> | H]; [now destruct Hne | now apply Hn].
Qed.

Lemma removeCard_absent (cards_ : list Card) (card : Card) :
  ~ In card cards_ -> Hand.removeCard cards_ card = (false, cards_).
Proof.
  induction cards_ as [| c rest IH]; intros Hn; [reflexivity |].
  simpl. destruct (CardOps.eq c card) eqn:E.
  - apply card_eq_true in E. subst c. exfalso. apply Hn. now left.
  - rewrite IH; [reflexivity |]. intros H. apply Hn. now right.
Qed.

(** X11: [removeCard] answers whether the card is in the hand; if it is,
    exactly its first occurrence is erased, the other cards keeping their
    order, and the hand is one card shorter; if it is not, the hand is
    unchanged. *)
Theorem removeCard_spec (cards_ : list Card) (card : Card) :
  fst (Hand.removeCard cards_ card) = Hand.hasCard cards_ card /\
  (In card cards_ ->
   exists l1 l2,
     cards_ = l1 ++ card :: l2 /\ ~ In card l1 /\
     snd (Hand.removeCard cards_ card) = l1 ++ l2 /\
     Permutation cards_ (card :: snd (Hand.removeCard cards_ card)) /\
     S (Hand.size (snd (Hand.removeCard cards_ card))) = Hand.size cards_) /\
  (~ In card cards_ -> snd (Hand.removeCard cards_ card) = cards_).
Proof.
  split; [| split].
  - destruct (Hand.hasCard cards_ card) eqn:E.
    + apply hasCard_In in E.
      destruct (removeCard_split _ _ E) as (l1 & l2 & _ & _ & ->).
      reflexivity.
    + apply hasCard_false in E. rewrite removeCard_absent by exact E.
      reflexivity.
  - intros Hin.
    destruct (removeCard_split _ _ Hin) as (l1 & l2 & E & Hn & ->).
    exists l1, l2. cbn [snd]. repeat split; try assumption.
    + rewrite E. apply Permutation_sym, Permutation_middle.
    + unfold Hand.size. rewrite E, !length_app. simpl. lia.
  - intros Hn. rewrite removeCard_absent by exact Hn. reflexivity.
Qed.

Lemma removeCard_spec_witness :
  snd (Hand.removeCard [threeOfDiamonds] fourOfClubs) = [threeOfDiamonds].
Proof.
  apply (proj2 (proj2 (removeCard_spec [threeOfDiamonds] fourOfClubs))).
  simpl. intros [H | []]. discriminate H.
Defined.

Lemma hasCards_incl (cards_ cards : list Card) :
  Hand.hasCards cards_ cards = true <-> incl cards cards_.
Proof.
  induction cards as [| c rest IH]; simpl.
  - split; [intros _ x [] | reflexivity].
  - destruct (Hand.hasCard cards_ c) eqn:E; simpl.
    + apply hasCard_In in E. rewrite IH. split.
      * intros H x [<- | Hx]; [exact E | now apply H].
      * intros H x Hx. apply H. now right.
    + apply hasCard_false in E. split; [discriminate |].
      intros H. exfalso. apply E, H. now left.
Qed.

Lemma removeEach_perm (cards : list Card) : forall cards_ : list Card,
  NoDup cards -> incl cards cards_ ->
  Permutation cards_ (cards ++ Hand.removeEach cards_ cards).
Proof.
  induction cards as [| c rest IH]; intros cards_ Hnd Hincl; simpl.
  - apply Permutation_refl.
  - inversion Hnd as [| ? ? Hc Hrest]; subst.
    assert (In c cards_) as Hin by (apply Hincl; now left).
    destruct (removeCard_split _ _ Hin) as (l1 & l2 & E & Hn & ->).
    cbn [snd]. subst cards_.
    eapply perm_trans; [apply Permutation_sym, Permutation_middle |].
    apply perm_skip. apply IH; [exact Hrest |].
    intros x Hx. assert (In x (l1 ++ c :: l2)) as Hx'
        by (apply Hincl; now right).
    apply in_app_or in Hx'. apply in_or_app.
    destruct Hx' as [Hx' | [-> | Hx']]; [now left | contradiction | now right].
Qed.

(** X12: [removeCards] is all or nothing: it answers true exactly when
    every requested card is in the hand; on false the hand is unchanged;
    on true, for a request without repeated cards, exactly the requested
    cards leave the hand. *)
Theorem removeCards_all_or_nothing (cards_ cards : list Card) :
  (fst (Hand.removeCards cards_ cards) = true <-> incl cards cards_) /\
  (fst (Hand.removeCards cards_ cards) = false ->
   snd (Hand.removeCards cards_ cards) = cards_) /\
  (incl cards cards_ -> NoDup cards ->
   Permutation cards_ (cards ++ snd (Hand.removeCards cards_ cards)) /\
   (Hand.size (snd (Hand.removeCards cards_ cards)) + List.length cards
    = Hand.size cards_)%nat /\
   forall c, In c cards -> NoDup cards_ ->
             ~ In c (snd (Hand.removeCards cards_ cards))).
Proof.
  unfold Hand.removeCards. rewrite <- hasCards_incl.
  destruct (Hand.hasCards cards_ cards) eqn:E; cbn [negb fst snd].
  - split; [tauto |]. split; [discriminate |]. intros _ Hnd.
    apply hasCards_incl in E.
    pose proof (removeEach_perm cards cards_ Hnd E) as HP.
    split; [exact HP |]. split.
    + apply Permutation_length in HP. unfold Hand.size.
      rewrite HP, length_app. lia.
    + intros c Hc Hnd' Hin.
      apply (Permutation_NoDup HP) in Hnd'.
      apply NoDup_app_remove_l in Hnd' as Hr.
      clear Hr. revert Hnd'. generalize (Hand.removeEach cards_ cards) Hin.
      intros l Hl Hnd'.
      assert (In c cards /\ In c l) as [H1 H2] by tauto.
      apply in_split in H1. destruct H1 as (l1 & l2 & ->).
      rewrite <- app_assoc in Hnd'. apply NoDup_app_remove_l in Hnd'.
      simpl in Hnd'. inversion Hnd' as [| ? ? Hn _]; subst.
      apply Hn, in_or_app. now right.
  - split; [split; [discriminate | intros H; discriminate H] |].
    split; [reflexivity |]. intros H. discriminate H.
Qed.

Lemma removeCards_all_or_nothing_witness :
  Permutation [threeOfDiamonds; fourOfClubs]
    ([fourOfClubs] ++
     snd (Hand.removeCards [threeOfDiamonds; fourOfClubs] [fourOfClubs])).
Proof.
  apply (proj2 (proj2 (removeCards_all_or_nothing
                         [threeOfDiamonds; fourOfClubs] [fourOfClubs]))).
  - intros x [<- | []]. simpl. tauto.
  - apply NoDup_cons; [intros [] | apply NoDup_nil].
Defined.

(** ** Sorting a hand *)

Lemma compareByRank_key (a b : Card) :
  Hand.compareByRank a b = (cardKey a <? cardKey b).
Proof. rewrite <- card_lt_key. reflexivity. Qed.

Lemma rankValue_bounds (r : Rank) : 3 <= rankValue r <= 15.
Proof. destruct r; simpl; lia. Qed.

Lemma compareBySuit_key (a b : Card) :
  Hand.compareBySuit a b = (suitKey a <? suitKey b).
Proof.
  unfold suitKey, rankOf.
  pose proof (rankValue_bounds (getRank a)).
  pose proof (rankValue_bounds (getRank b)).
  unfold Hand.compareBySuit, suit_eqb, suit_ltb, rank_ltb.
  destruct (Z.eqb_spec (suitValue (getSuit a)) (suitValue (getSuit b)));
    cbn [negb];
    repeat match goal with
      | |- context [Z.ltb ?x ?y] => destruct (Z.ltb_spec x y)
      end; try reflexivity; lia.
Qed.

Lemma suitKey_inj (a b : Card) : suitKey a = suitKey b -> a = b.
Proof.
  unfold suitKey, rankOf. intros H.
  pose proof (rankValue_bounds (getRank a)).
  pose proof (rankValue_bounds (getRank b)).
  apply card_ext; [apply rankValue_inj | apply suitValue_inj]; lia.
Qed.

Lemma comparatorOf_key (order : SortOrder) (a b : Card) :
  comparatorOf order a b = (sortKey order a <? sortKey order b).
Proof.
  destruct order; [apply compareByRank_key | apply compareBySuit_key].
Qed.

Lemma sortKey_inj (order : SortOrder) (a b : Card) :
  sortKey order a = sortKey order b -> a = b.
Proof. destruct order; [apply cardKey_inj | apply suitKey_inj]. Qed.

Section SortedByKey.

Variable less : Card -> Card -> bool.
Variable key : Card -> Z.
Hypothesis less_key : forall a b, less a b = (key a <? key b).
Hypothesis key_inj : forall a b, key a = key b -> a = b.

Lemma insertSorted_perm (c : Card) (l : list Card) :
  Permutation (Hand.insertSorted less c l) (c :: l).
Proof.
  induction l as [| h t IH]; simpl.
  - apply Permutation_refl.
  - destruct (less h c).
    + eapply perm_trans; [apply perm_skip, IH | apply perm_swap].
    + apply Permutation_refl.
Qed.

Lemma stdSort_perm (l : list Card) : Permutation (Hand.stdSort less l) l.
Proof.
  induction l as [| c t IH]; simpl.
  - apply perm_nil.
  - eapply perm_trans; [apply insertSorted_perm | apply perm_skip, IH].
Qed.

Lemma insertSorted_sorted (c : Card) (l : list Card) :
  sortedBy less l -> sortedBy less (Hand.insertSorted less c l).
Proof.
  unfold sortedBy. induction l as [| h t IH]; intros Hs; simpl.
  - apply SSorted_cons; [apply SSorted_nil | apply Forall_nil].
  - inversion Hs as [| ? ? Ht Hh]; subst.
    destruct (less h c) eqn:E.
    + apply SSorted_cons; [apply IH, Ht |].
      eapply Permutation_Forall;
        [apply Permutation_sym, insertSorted_perm |].
      apply Forall_cons; [| exact Hh].
      rewrite less_key in *. apply Z.ltb_lt in E. apply Z.ltb_ge. lia.
    + apply SSorted_cons; [exact Hs |].
      apply Forall_cons; [exact E |].
      eapply Forall_impl; [| exact Hh].
      intros x Hx. cbv beta in Hx. rewrite less_key in *.
      apply Z.ltb_ge in Hx, E. apply Z.ltb_ge. lia.
Qed.

Lemma stdSort_sorted (l : list Card) : sortedBy less (Hand.stdSort less l).
Proof.
  induction l as [| c t IH]; simpl.
  - apply SSorted_nil.
  - apply insertSorted_sorted, IH.
Qed.

Lemma sortedBy_keys (s : list Card) :
  sortedBy less s -> StronglySorted Z.le (map key s).
Proof.
  unfold sortedBy. induction 1 as [| a l Hl IH Ha]; simpl.
  - apply SSorted_nil.
  - apply SSorted_cons; [exact IH |]. apply Forall_map.
    eapply Forall_impl; [| exact Ha].
    intros x Hx. cbv beta in Hx. rewrite less_key in Hx.
    now apply Z.ltb_ge in Hx.
Qed.

Lemma map_key_inj (s s' : list Card) : map key s = map key s' -> s = s'.
Proof.
  revert s'. induction s as [| a t IH]; intros [| b t'] H;
    try discriminate H; [reflexivity |].
  simpl in H. injection H as Hk Ht. f_equal; [now apply key_inj | now apply IH].
Qed.

Lemma sortedBy_unique (s s' : list Card) :
  Permutation s s' -> sortedBy less s -> sortedBy less s' -> s = s'.
Proof.
  intros HP Hs Hs'. apply map_key_inj, sorted_Z_unique.
  - now apply sortedBy_keys.
  - now apply sortedBy_keys.
  - now apply Permutation_map.
Qed.

End SortedByKey.

(** X13: [Hand::sort] rearranges the hand into the one arrangement that
    is ordered by the chosen comparator: the result is a permutation of
    the hand, it is ordered, any ordered arrangement of the same cards
    (whatever [std::sort] does) is that list, and the result does not
    depend on the order the hand was in; sorting twice changes nothing. *)
Theorem hand_sort_spec (order : SortOrder) (cards_ : list Card) :
  Permutation (Hand.sort order cards_) cards_ /\
  sortedBy (comparatorOf order) (Hand.sort order cards_) /\
  (forall s : list Card,
      Permutation s cards_ -> sortedBy (comparatorOf order) s ->
      s = Hand.sort order cards_) /\
  (forall cards' : list Card,
      Permutation cards_ cards' ->
      Hand.sort order cards' = Hand.sort order cards_) /\
  Hand.sort order (Hand.sort order cards_) = Hand.sort order cards_.
Proof.
  assert (forall l, Hand.sort order l = Hand.stdSort (comparatorOf order) l)
    as Hsort by (intros l; destruct order; reflexivity).
  pose proof (stdSort_perm (comparatorOf order)) as HP.
  pose proof (stdSort_sorted (comparatorOf order) (sortKey order)
                (comparatorOf_key order)) as HS.
  pose proof (sortedBy_unique (comparatorOf order) (sortKey order)
                (comparatorOf_key order) (sortKey_inj order)) as HU.
  rewrite !Hsort. split; [apply HP |]. split; [apply HS |].
  split; [| split].
  - intros s Hs Hsorted. apply HU; [| exact Hsorted | apply HS].
    eapply perm_trans; [exact Hs | apply Permutation_sym, HP].
  - intros cards' Hc. rewrite Hsort. apply HU; [| apply HS | apply HS].
    eapply perm_trans; [apply HP |].
    eapply perm_trans; [apply Permutation_sym, Hc |].
    apply Permutation_sym, HP.
  - apply HU; [apply HP | apply HS | apply HS].
Qed.

Lemma hand_sort_spec_witness :
  Hand.sort ByRank [fourOfClubs; threeOfDiamonds] =
  Hand.sort ByRank [threeOfDiamonds; fourOfClubs].
Proof.
  apply (proj1 (proj2 (proj2 (proj2
           (hand_sort_spec ByRank [threeOfDiamonds; fourOfClubs]))))).
  apply perm_swap.
Defined.

Lemma sortedBy_last_highest (s : list Card) (d : Card) :
  s <> [] -> sortedBy Hand.compareByRank s ->
  isHighestOf (last s d) s.
Proof.
  intros Hne Hs. unfold sortedBy in Hs.
  induction Hs as [| a l Hl IH Ha]; [contradiction |].
  destruct l as [| b l'].
  - simpl. split; [now left |].
    intros x [<- | []]. unfold CardOps.gt. apply card_lt_irrefl.
  - destruct (IH ltac:(discriminate)) as [Hin Hmax].
    change (last (a :: b :: l') d) with (last (b :: l') d).
    split; [now right |].
    intros x [<- | Hx]; [| now apply Hmax].
    rewrite Forall_forall in Ha. exact (Ha _ Hin).
Qed.

(** X14: the comparator of [Hand::sort(ByRank)] is [Card::operator<],
    and after sorting by rank the last card of a non-empty hand is the
    card [getHighestCard] finds in it. *)
Theorem sorted_hand_last_is_highest (cards_ : list Card) (d : Card) :
  cards_ <> [] ->
  (forall a b : Card, Hand.compareByRank a b = CardOps.lt a b) /\
  GameRules.getHighestCard cards_ =
    Ok (last (Hand.sort ByRank cards_) d).
Proof.
  intros Hne. split; [reflexivity |].
  destruct (getHighestCard_spec cards_ Hne) as (h & Hh & Hmax).
  rewrite Hh. f_equal.
  pose proof (stdSort_perm Hand.compareByRank cards_) as HP.
  pose proof (stdSort_sorted Hand.compareByRank cardKey compareByRank_key
                cards_) as HS.
  eapply isHighestOf_unique; [exact Hmax |].
  eapply isHighestOf_perm; [exact HP |].
  apply sortedBy_last_highest; [| exact HS].
  intros E. change (Hand.stdSort Hand.compareByRank cards_ = []) in E.
  rewrite E in HP. apply Permutation_nil in HP. contradiction.
Qed.

Lemma sorted_hand_last_is_highest_witness :
  GameRules.getHighestCard kingsOverThrees =
  Ok (last (Hand.sort ByRank kingsOverThrees) threeOfDiamonds).
Proof.
  apply (proj2 (sorted_hand_last_is_highest kingsOverThrees threeOfDiamonds
                  ltac:(discriminate))).
Defined.

(** ** Finding cards named on the command line *)

Lemma findCards_cons (cards_ : list Card) (s : string) (rest : list string) :
  Hand.findCards cards_ (s :: rest) =
  match parseCard s with
  | Ok c => if Hand.hasCard cards_ c
            then c :: Hand.findCards cards_ rest
            else Hand.findCards cards_ rest
  | Throw _ => Hand.findCards cards_ rest
  end.
Proof. reflexivity. Qed.

Lemma findCards_length (cards_ : list Card) (strs : list string) :
  (List.length (Hand.findCards cards_ strs) <= List.length strs)%nat.
Proof.
  induction strs as [| s rest IH]; [apply Nat.le_refl |].
  rewrite findCards_cons. cbn [List.length].
  destruct (parseCard s) as [c |]; [destruct (Hand.hasCard cards_ c) |];
    cbn [List.length]; lia.
Qed.

(** X15: [findCards] returns only cards of the hand, at most one per
    string and in the order of the strings; it returns as many cards as
    there are strings exactly when every string decodes to a card of the
    hand, and then it returns those cards; given the encodings of cards
    it returns those of them that are in the hand. *)
Theorem findCards_spec (cards_ : list Card) (strs : list string) :
  Forall (fun c => In c cards_) (Hand.findCards cards_ strs) /\
  (List.length (Hand.findCards cards_ strs) <= List.length strs)%nat /\
  (List.length (Hand.findCards cards_ strs) = List.length strs <->
   Forall (fun s => exists c, parseCard s = Ok c /\ In c cards_) strs) /\
  (List.length (Hand.findCards cards_ strs) = List.length strs ->
   map parseCard strs = map Ok (Hand.findCards cards_ strs)) /\
  (forall cs : list Card,
      Hand.findCards cards_ (map toString cs) =
      filter (Hand.hasCard cards_) cs).
Proof.
  split; [| split; [apply findCards_length | split; [| split]]].
  - induction strs as [| s rest IH]; [apply Forall_nil |].
    rewrite findCards_cons.
    destruct (parseCard s) as [c |]; [| exact IH].
    destruct (Hand.hasCard cards_ c) eqn:E; [| exact IH].
    apply Forall_cons; [now apply hasCard_In | exact IH].
  - induction strs as [| s rest IH].
    + split; [intros _; apply Forall_nil | reflexivity].
    + pose proof (findCards_length cards_ rest) as Hle.
      rewrite findCards_cons.
      destruct (parseCard s) as [c | e] eqn:P.
      * destruct (Hand.hasCard cards_ c) eqn:E; cbn [List.length].
        -- split.
           ++ intros H. apply Forall_cons.
              ** exists c. split; [exact P | now apply hasCard_In].
              ** apply IH. lia.
           ++ intros H. inversion H as [| ? ? _ Hr]; subst.
              f_equal. now apply IH.
        -- split; [lia |]. intros H. inversion H as [| ? ? Hs _]; subst.
           destruct Hs as (c' & Hc' & Hin). rewrite P in Hc'.
           injection Hc' as <-. apply hasCard_In in Hin. congruence.
      * cbn [List.length]. split; [lia |].
        intros H. inversion H as [| ? ? Hs _]; subst.
        destruct Hs as (c' & Hc' & _). rewrite P in Hc'. discriminate Hc'.
  - induction strs as [| s rest IH]; [reflexivity |].
    pose proof (findCards_length cards_ rest) as Hle.
    rewrite findCards_cons.
    destruct (parseCard s) as [c | e] eqn:P.
    + destruct (Hand.hasCard cards_ c); cbn [List.length map].
      * intros H. rewrite P. f_equal. apply IH. lia.
      * lia.
    + cbn [List.length]. lia.
  - intros cs. induction cs as [| c rest IH]; [reflexivity |].
    cbn [map filter]. rewrite findCards_cons.
    rewrite (proj1 (parseCard_after_encode_aux c)).
    destruct (Hand.hasCard cards_ c); [f_equal |]; exact IH.
Qed.

Lemma findCards_spec_witness :
  map parseCard ["3d"; "4C"]%string =
  map Ok (Hand.findCards [threeOfDiamonds; fourOfClubs] ["3d"; "4C"]%string).
Proof.
  apply (proj1 (proj2 (proj2 (proj2
           (findCards_spec [threeOfDiamonds; fourOfClubs]
              ["3d"; "4C"]%string))))).
  reflexivity.
Defined.

(** X16: naming one card of a duplicate-free hand twice passes for a
    pair: [findCards] returns the card twice, the validator accepts the
    two as a Pair on an empty table, and [removeCards] answers true
    while only one card leaves the hand. *)
Theorem card_named_twice_is_a_pair (cards_ : list Card) (c : Card) :
  NoDup cards_ -> In c cards_ ->
  let found := Hand.findCards cards_ [toString c; toString c] in
  found = [c; c] /\
  GameRules.validatePlay found [] true false =
    Ok (mkPlayValidation true PlayType.Pair FiveCardType.None EmptyString) /\
  fst (Hand.removeCards cards_ found) = true /\
  S (Hand.size (snd (Hand.removeCards cards_ found))) = Hand.size cards_.
Proof.
  intros Hnd Hin found.
  assert (found = [c; c]) as ->.
  { subst found. rewrite !findCards_cons.
    rewrite (proj1 (parseCard_after_encode_aux c)).
    rewrite (proj2 (hasCard_In cards_ c) Hin). reflexivity. }
  split; [reflexivity |]. split.
  - unfold GameRules.validatePlay. rewrite validatePlayWith_cases.
    unfold subShapeOf, GameRules.determinePlayType.
    cbn [GameRules.empty andb List.length Nat.eqb GameRules.isPair].
    rewrite rank_eqb_refl. reflexivity.
  - unfold Hand.removeCards. cbn [Hand.hasCards].
    rewrite (proj2 (hasCard_In cards_ c) Hin). cbn [negb fst snd].
    split; [reflexivity |]. cbn [Hand.removeEach].
    destruct (removeCard_split _ _ Hin) as (l1 & l2 & E & Hn & ->).
    cbn [snd]. subst cards_.
    assert (~ In c (l1 ++ l2)) as Hout.
    { apply NoDup_remove_2 in Hnd. exact Hnd. }
    rewrite removeCard_absent by exact Hout. cbn [snd].
    unfold Hand.size. rewrite !length_app. simpl. lia.
Qed.

Lemma card_named_twice_is_a_pair_witness :
  Hand.findCards [threeOfDiamonds; fourOfClubs]
    [toString fourOfClubs; toString fourOfClubs] = [fourOfClubs; fourOfClubs].
Proof.
  apply (card_named_twice_is_a_pair [threeOfDiamonds; fourOfClubs] fourOfClubs).
  - repeat (apply NoDup_cons; [simpl; intuition discriminate |]).
    apply NoDup_nil.
  - simpl. tauto.
Defined.

(** * The deck *)

Lemma initializeDeck_keys :
  map (fun c => Z.to_nat (cardKey c)) Deck.initializeDeck = seq 12 52.
Proof. reflexivity. Qed.

(** X17: a fresh deck has 52 cards, holds every card exactly once, and
    lists them in ascending card order (it is its own sort by rank). *)
Theorem initializeDeck_complete :
  Deck.size Deck.initializeDeck = 52%nat /\
  NoDup Deck.initializeDeck /\
  (forall c : Card, In c Deck.initializeDeck) /\
  Hand.sort ByRank Deck.initializeDeck = Deck.initializeDeck /\
  Deck.reset [] = Deck.initializeDeck.
Proof.
  split; [reflexivity |]. split; [| split; [| split]].
  - apply (NoDup_map_inv (fun c => Z.to_nat (cardKey c))).
    rewrite initializeDeck_keys. apply seq_NoDup.
  - intros c. apply hasCard_In.
    destruct c as [r s]; destruct r, s; reflexivity.
  - reflexivity.
  - reflexivity.
Qed.

Lemma deal_last (cards_ : list Card) (c : Card) :
  Deck.deal (cards_ ++ [c]) = Ok (c, cards_).
Proof.
  unfold Deck.deal. destruct (cards_ ++ [c]) as [| c0 t] eqn:E.
  - destruct cards_; discriminate E.
  - rewrite <- E, last_last, removelast_last. reflexivity.
Qed.

Lemma dealLoop_spec (tail : list Card) : forall dealt cards_ : list Card,
  Deck.dealLoop (List.length tail) dealt (cards_ ++ tail) =
  Ok (dealt ++ rev tail, cards_).
Proof.
  induction tail as [| x t IH] using rev_ind; intros dealt cards_.
  - simpl. rewrite !app_nil_r. reflexivity.
  - rewrite length_app, Nat.add_comm. cbn [List.length Nat.add Deck.dealLoop].
    rewrite app_assoc, deal_last. cbn [bind fst snd].
    rewrite IH, rev_app_distr, <- app_assoc. reflexivity.
Qed.

(** X18: [deal] throws exactly on the empty deck and otherwise hands out
    the last card of the vector, leaving the cards before it;
    [dealMultiple] throws a runtime error exactly when more cards are
    requested than the deck holds, and otherwise hands out the last
    [count] cards, topmost first, leaving the others in place. *)
Theorem deck_deal_spec :
  (forall cards_ : list Card,
      (exists e, Deck.deal cards_ = Throw e) <-> cards_ = []) /\
  (forall (cards_ : list Card) (c : Card),
      Deck.deal (cards_ ++ [c]) = Ok (c, cards_)) /\
  (forall (count : nat) (cards_ : list Card),
      (Deck.size cards_ < count)%nat <->
      exists what, Deck.dealMultiple count cards_ = Throw (runtime_error what)) /\
  (forall (count : nat) (cards_ : list Card),
      (count <= Deck.size cards_)%nat ->
      Deck.dealMultiple count cards_ =
      Ok (rev (skipn (Deck.size cards_ - count) cards_),
          firstn (Deck.size cards_ - count) cards_)).
Proof.
  assert (forall count cards_, (count <= Deck.size cards_)%nat ->
            Deck.dealMultiple count cards_ =
            Ok (rev (skipn (Deck.size cards_ - count) cards_),
                firstn (Deck.size cards_ - count) cards_)) as Hok.
  { intros count cards_ Hle. unfold Deck.dealMultiple.
    rewrite (proj2 (Nat.ltb_ge _ _) Hle).
    rewrite <- (firstn_skipn (Deck.size cards_ - count) cards_) at 1.
    assert (count = List.length (skipn (Deck.size cards_ - count) cards_))
      as E by (rewrite length_skipn; unfold Deck.size in *; lia).
    rewrite E at 1. rewrite dealLoop_spec. reflexivity. }
  split; [| split; [exact deal_last | split; [| exact Hok]]].
  - intros cards_. destruct cards_ as [| c0 t]; simpl.
    + split; [reflexivity | intros _; eexists; reflexivity].
    + split; [intros [e H]; discriminate H | discriminate].
  - intros count cards_. split.
    + intros Hlt. unfold Deck.dealMultiple.
      rewrite (proj2 (Nat.ltb_lt _ _) Hlt). eexists. reflexivity.
    + intros [what H].
      destruct (Nat.lt_ge_cases (Deck.size cards_) count) as [L | L];
        [exact L |].
      rewrite (Hok _ _ L) in H. discriminate H.
Qed.

Lemma deck_deal_spec_witness :
  Deck.dealMultiple 2 [threeOfDiamonds; fourOfClubs; mkCard Two Spades] =
  Ok ([mkCard Two Spades; fourOfClubs], [threeOfDiamonds]).
Proof.
  apply (proj2 (proj2 (proj2 deck_deal_spec)) 2%nat
           [threeOfDiamonds; fourOfClubs; mkCard Two Spades]).
  simpl. lia.
Defined.

(** X19: dealing conserves the deck, and deals compose: the cards left
    followed by the dealt cards in reverse are the deck as it was, and
    dealing [a] cards and then [b] cards hands out what dealing [a + b]
    cards at once hands out. *)
Theorem dealMultiple_compose (a b : nat) (cards_ : list Card) :
  (a + b <= Deck.size cards_)%nat ->
  exists dealt1 rest1 dealt2 rest2,
    Deck.dealMultiple a cards_ = Ok (dealt1, rest1) /\
    Deck.dealMultiple b rest1 = Ok (dealt2, rest2) /\
    Deck.dealMultiple (a + b) cards_ = Ok (dealt1 ++ dealt2, rest2) /\
    cards_ = rest2 ++ rev (dealt1 ++ dealt2) /\
    List.length dealt1 = a /\ List.length dealt2 = b.
Proof.
  intros Hle. unfold Deck.size in Hle.
  set (n := List.length cards_) in *.
  rewrite <- (firstn_skipn (n - (a + b)) cards_).
  set (rest2 := firstn (n - (a + b)) cards_).
  set (tl := skipn (n - (a + b)) cards_).
  assert (List.length tl = (a + b)%nat) as Htl
      by (subst tl; rewrite length_skipn; lia).
  rewrite <- (firstn_skipn b tl).
  set (t2 := firstn b tl). set (t1 := skipn b tl).
  assert (List.length t2 = b) as H2
      by (subst t2; rewrite length_firstn; lia).
  assert (List.length t1 = a) as H1
      by (subst t1; rewrite length_skipn; lia).
  exists (rev t1), (rest2 ++ t2), (rev t2), rest2.
  unfold Deck.dealMultiple, Deck.size.
  rewrite !length_app.
  rewrite (proj2 (Nat.ltb_ge _ _)) by lia.
  rewrite (proj2 (Nat.ltb_ge _ _)) by lia.
  rewrite (proj2 (Nat.ltb_ge _ _)) by lia.
  split; [| split; [| split; [| split; [| split]]]].
  - rewrite <- H1 at 1. rewrite app_assoc, dealLoop_spec. reflexivity.
  - rewrite <- H2 at 1. rewrite dealLoop_spec. reflexivity.
  - replace (a + b)%nat with (List.length (t2 ++ t1))
      by (rewrite length_app; lia).
    rewrite dealLoop_spec, rev_app_distr. reflexivity.
  - rewrite rev_app_distr, !rev_involutive. reflexivity.
  - rewrite length_rev. exact H1.
  - rewrite length_rev. exact H2.
Qed.

Lemma dealMultiple_compose_witness :
  exists dealt1 rest1 dealt2 rest2,
    Deck.dealMultiple 1 [threeOfDiamonds; fourOfClubs] = Ok (dealt1, rest1) /\
    Deck.dealMultiple 1 rest1 = Ok (dealt2, rest2) /\
    Deck.dealMultiple (1 + 1) [threeOfDiamonds; fourOfClubs] =
      Ok (dealt1 ++ dealt2, rest2) /\
    [threeOfDiamonds; fourOfClubs] = rest2 ++ rev (dealt1 ++ dealt2) /\
    List.length dealt1 = 1%nat /\ List.length dealt2 = 1%nat.
Proof.
  apply (dealMultiple_compose 1 1 [threeOfDiamonds; fourOfClubs]).
  simpl. lia.
Defined.

(** * Players and dealing *)

(** X20: [initializePlayers] always creates between two and four
    players, whatever numbers are asked for: the number of players is
    clamped to 2..4 and the number of humans to 0..players; the humans
    come first, the names are pairwise distinct, and every player starts
    with an empty hand, score zero and no pass. *)
Theorem initializePlayers_spec (numPlayers numHumans : Z) :
  let players := GameStateOps.initializePlayers numPlayers numHumans in
  let n := Z.max 2 (Z.min 4 numPlayers) in
  let h := Z.max 0 (Z.min numHumans n) in
  2 <= n <= 4 /\ 0 <= h <= n /\
  Z.of_nat (List.length players) = n /\
  map type_ players =
    repeat Human (Z.to_nat h) ++ repeat AI (Z.to_nat (n - h)) /\
  NoDup (map name_ players) /\
  Forall (fun p => hand_ p = [] /\ score_ p = 0 /\ hasPassed_ p = false)
    players.
Proof.
  intros players n h. subst players. unfold GameStateOps.initializePlayers.
  fold n. fold h.
  assert (2 <= n <= 4) as Hn by (subst n; lia).
  assert (0 <= h <= n) as Hh by (subst h; lia).
  split; [exact Hn |]. split; [exact Hh |].
  assert (n = 2 \/ n = 3 \/ n = 4) as Cn by lia.
  assert (h = 0 \/ h = 1 \/ h = 2 \/ h = 3 \/ h = 4) as Ch by lia.
  clearbody n h.
  destruct Cn as [-> | [-> | ->]];
    destruct Ch as [-> | [-> | [-> | [-> | ->]]]]; try lia;
    (split; [reflexivity |]); (split; [reflexivity |]);
    (split;
     [repeat (apply NoDup_cons; [simpl; intuition discriminate |]);
      apply NoDup_nil
     | repeat (apply Forall_cons; [repeat split |]); apply Forall_nil]).
Qed.

Lemma giveCard_at (ps1 : list Player) (p : Player) (ps2 : list Player)
    (c : Card) :
  GameStateOps.giveCard (List.length ps1) c (ps1 ++ p :: ps2) =
  ps1 ++ PlayerOps.withHand p (Hand.addCard (hand_ p) c) :: ps2.
Proof.
  induction ps1 as [| q ps1 IH]; simpl; [reflexivity |].
  rewrite IH. reflexivity.
Qed.

Lemma succ_mod (i n : nat) :
  (i mod n + 1 < n)%nat -> (S i mod n = i mod n + 1)%nat.
Proof.
  intros H. symmetry. apply (Nat.mod_unique (S i) n (i / n)); [exact H |].
  pose proof (Nat.div_mod_eq i n). lia.
Qed.

Lemma dealRounds_round (ps2 : list Player) :
  forall (ps1 : list Player) (i n : nat) (deck tail : list Card),
    n = List.length (ps1 ++ ps2) ->
    (ps2 <> [] -> (i mod n)%nat = List.length ps1) ->
    List.length tail = List.length ps2 ->
    GameStateOps.dealRounds (List.length ps2) i n (ps1 ++ ps2) (deck ++ tail) =
    Ok (ps1 ++ zipGive ps2 (rev tail), deck).
Proof.
  induction ps2 as [| p ps2 IH]; intros ps1 i n deck tail Hn Hi Hl.
  - destruct tail; [| discriminate Hl]. simpl. rewrite !app_nil_r.
    reflexivity.
  - destruct (exists_last (l := tail)) as (t & x & ->);
      [intros ->; discriminate Hl |].
    rewrite length_app in Hl. simpl in Hl.
    cbn [List.length GameStateOps.dealRounds].
    rewrite app_assoc, deal_last. cbn [bind fst snd].
    rewrite (Hi ltac:(discriminate)), giveCard_at.
    rewrite rev_app_distr. cbn [rev List.app zipGive].
    change (ps1 ++ PlayerOps.withHand p (Hand.addCard (hand_ p) x) :: ps2)
      with (ps1 ++ [PlayerOps.withHand p (Hand.addCard (hand_ p) x)] ++ ps2).
    rewrite app_assoc.
    rewrite (IH (ps1 ++ [PlayerOps.withHand p (Hand.addCard (hand_ p) x)])
               (S i) n deck t).
    + rewrite <- app_assoc. reflexivity.
    + rewrite Hn, !length_app. simpl. lia.
    + intros Hne. rewrite succ_mod.
      * rewrite (Hi ltac:(discriminate)), length_app. reflexivity.
      * rewrite (Hi ltac:(discriminate)), Hn, length_app.
        destruct ps2; [contradiction | simpl; lia].
    + lia.
Qed.

Lemma dealRounds_add (a : nat) :
  forall (b i n : nat) (ps : list Player) (deck : list Card),
    GameStateOps.dealRounds (a + b) i n ps deck =
    (r <- GameStateOps.dealRounds a i n ps deck ;;
     GameStateOps.dealRounds b (i + a) n (fst r) (snd r)).
Proof.
  induction a as [| a IH]; intros b i n ps deck.
  - simpl. rewrite Nat.add_0_r. reflexivity.
  - cbn [Nat.add GameStateOps.dealRounds].
    destruct (Deck.deal deck) as [r |]; [| reflexivity].
    cbn [bind]. rewrite IH. f_equal.
    replace (S i + a)%nat with (i + S a)%nat by lia. reflexivity.
Qed.

Lemma zipGive_same (ps : list Player) : forall cs : list Card,
  List.length cs = List.length ps ->
  Forall2 (fun p p' => samePlayer p p' /\
                       List.length (hand_ p') = S (List.length (hand_ p)))
    ps (zipGive ps cs).
Proof.
  induction ps as [| p ps IH]; intros cs Hl.
  - apply Forall2_nil.
  - destruct cs as [| c cs]; [discriminate Hl |]. simpl.
    apply Forall2_cons.
    + split; [repeat split |].
      unfold PlayerOps.withHand, Hand.addCard. cbn [hand_].
      rewrite length_app. simpl. lia.
    + apply IH. simpl in Hl. lia.
Qed.

Lemma zipGive_cards (ps : list Player) : forall cs : list Card,
  List.length cs = List.length ps ->
  Permutation (allCards (zipGive ps cs)) (allCards ps ++ cs).
Proof.
  induction ps as [| p ps IH]; intros cs Hl.
  - destruct cs; [apply Permutation_refl | discriminate Hl].
  - destruct cs as [| c cs]; [discriminate Hl |].
    unfold allCards in *. cbn [zipGive flat_map hand_ PlayerOps.withHand].
    unfold Hand.addCard. rewrite <- !app_assoc.
    apply Permutation_app_head. cbn [List.app].
    eapply perm_trans;
      [| apply (Permutation_middle (flat_map hand_ ps) cs c)].
    apply perm_skip. apply IH. simpl in Hl. lia.
Qed.

Lemma Forall2_samePlayer_trans (a b : nat) (l1 l2 l3 : list Player) :
  Forall2 (fun p p' => samePlayer p p' /\
             List.length (hand_ p') = (List.length (hand_ p) + a)%nat) l1 l2 ->
  Forall2 (fun p p' => samePlayer p p' /\
             List.length (hand_ p') = (List.length (hand_ p) + b)%nat) l2 l3 ->
  Forall2 (fun p p' => samePlayer p p' /\
             List.length (hand_ p') = (List.length (hand_ p) + (a + b))%nat)
    l1 l3.
Proof.
  intros H12. revert l3. induction H12 as [| p q l1 l2 Hpq _ IH];
    intros l3 H23; inversion H23 as [| ? r ? l3' Hqr Hrest]; subst.
  - apply Forall2_nil.
  - apply Forall2_cons; [| now apply IH].
    destruct Hpq as [(N1 & T1 & S1 & P1) L1].
    destruct Hqr as [(N2 & T2 & S2 & P2) L2].
    split; [repeat split; congruence | lia].
Qed.

(** Dealing [c] full rounds from a round boundary. *)
Lemma dealRounds_rounds (n c : nat) :
  forall (i : nat) (ps : list Player) (deck tail : list Card),
    List.length ps = n -> (0 < n)%nat -> (i mod n = 0)%nat ->
    List.length tail = (c * n)%nat ->
    exists ps',
      GameStateOps.dealRounds (c * n) i n ps (deck ++ tail) = Ok (ps', deck) /\
      Forall2 (fun p p' => samePlayer p p' /\
                 List.length (hand_ p') = (List.length (hand_ p) + c)%nat)
        ps ps' /\
      Permutation (allCards ps') (allCards ps ++ tail).
Proof.
  induction c as [| c IH]; intros i ps deck tail Hn Hpos Hi Hl.
  - destruct tail; [| discriminate Hl]. exists ps. simpl.
    rewrite !app_nil_r. split; [reflexivity |]. split.
    + clear. induction ps as [| p ps IH]; constructor; [| exact IH].
      split; [repeat split | lia].
    + apply Permutation_refl.
  - cbn [Nat.mul] in *.
    rewrite <- (firstn_skipn (c * n) tail).
    set (t2 := firstn (c * n) tail). set (t1 := skipn (c * n) tail).
    assert (List.length t2 = (c * n)%nat) as H2
        by (subst t2; rewrite length_firstn; lia).
    assert (List.length t1 = n) as H1
        by (subst t1; rewrite length_skipn; lia).
    rewrite dealRounds_add.
    pose proof (dealRounds_round ps [] i n (deck ++ t2) t1) as HR.
    cbn [List.app] in HR. rewrite Hn in HR.
    rewrite app_assoc, HR; [| congruence | intros _; exact Hi | exact H1].
    cbn [bind fst snd].
    destruct (IH (i + n)%nat (zipGive ps (rev t1)) deck t2) as (ps' & E & F & P).
    + pose proof (Forall2_length (zipGive_same ps (rev t1)
                    ltac:(rewrite length_rev; congruence))).
      congruence.
    + exact Hpos.
    + rewrite <- Nat.Div0.add_mod_idemp_r, Nat.Div0.mod_same, Nat.add_0_r.
      exact Hi.
    + exact H2.
    + exists ps'. split; [exact E |]. split.
      * replace (S c) with (1 + c)%nat by lia.
        eapply Forall2_samePlayer_trans; [| exact F].
        eapply Forall2_impl;
          [| apply (zipGive_same ps (rev t1));
             rewrite length_rev; congruence].
        intros p p' [Hs Hlen]. split; [exact Hs | lia].
      * eapply perm_trans; [exact P |].
        eapply perm_trans;
          [apply Permutation_app_tail, (zipGive_cards ps (rev t1));
           rewrite length_rev; congruence |].
        rewrite <- app_assoc. apply Permutation_app_head.
        eapply perm_trans; [apply Permutation_app_comm |].
        apply Permutation_app_head, Permutation_sym, Permutation_rev.
Qed.

Lemma dealRounds_short (count : nat) :
  forall (i n : nat) (ps : list Player) (deck : list Card),
    (List.length deck < count)%nat ->
    GameStateOps.dealRounds count i n ps deck =
    Throw (runtime_error "Cannot deal from empty deck").
Proof.
  induction count as [| count IH]; intros i n ps deck Hlt; [lia |].
  cbn [GameStateOps.dealRounds]. destruct deck as [| c0 t]; [reflexivity |].
  destruct (exists_last (l := c0 :: t)) as (d & x & E); [discriminate |].
  rewrite E, deal_last. cbn [bind fst snd]. apply IH.
  apply (f_equal (@List.length Card)) in E. rewrite length_app in E.
  simpl in E, Hlt. lia.
Qed.

Lemma sorted_hands_cards (ps : list Player) :
  Permutation
    (allCards (map (fun p => PlayerOps.withHand p (Hand.sort ByRank (hand_ p)))
                 ps))
    (allCards ps).
Proof.
  unfold allCards. induction ps as [| p ps IH]; [apply perm_nil |].
  cbn [map flat_map hand_ PlayerOps.withHand].
  apply Permutation_app; [| exact IH].
  apply (stdSort_perm Hand.compareByRank).
Qed.

Lemma sort_hands_Forall2 (c : nat) (ps ps' : list Player) :
  Forall2 (fun p p' => samePlayer p p' /\
             List.length (hand_ p') = (List.length (hand_ p) + c)%nat)
    ps ps' ->
  Forall2 (fun p p' =>
             samePlayer p p' /\
             Hand.size (hand_ p') = (Hand.size (hand_ p) + c)%nat /\
             sortedBy Hand.compareByRank (hand_ p'))
    ps (map (fun p => PlayerOps.withHand p (Hand.sort ByRank (hand_ p))) ps').
Proof.
  induction 1 as [| p p' l l' [Hs Hl] _ IH]; cbn [map].
  - apply Forall2_nil.
  - apply Forall2_cons; [| exact IH].
    split; [exact Hs |]. cbn [hand_ PlayerOps.withHand]. split.
    + unfold Hand.size, Hand.sort.
      rewrite (Permutation_length
                 (stdSort_perm Hand.compareByRank (hand_ p'))).
      exact Hl.
    + apply (stdSort_sorted Hand.compareByRank cardKey compareByRank_key).
Qed.

Lemma dealCards_unfold (players : list Player) (deck : list Card) :
  players <> [] ->
  GameStateOps.dealCards players deck =
  (r <- GameStateOps.dealRounds
          ((52 / List.length players) * List.length players) 0
          (List.length players) players deck ;;
   Ok (map (fun p => PlayerOps.withHand p (Hand.sort ByRank (hand_ p)))
         (fst r),
       snd r)).
Proof. destruct players; [contradiction | reflexivity]. Qed.

Lemma dealCards_ok (players : list Player) (deck : list Card) :
  players <> [] ->
  ((52 / List.length players) * List.length players <= List.length deck)%nat ->
  exists players',
    GameStateOps.dealCards players deck =
      Ok (players',
          firstn (List.length deck
                  - (52 / List.length players) * List.length players) deck) /\
    Forall2 (fun p p' =>
               samePlayer p p' /\
               Hand.size (hand_ p') =
                 (Hand.size (hand_ p) + 52 / List.length players)%nat /\
               sortedBy Hand.compareByRank (hand_ p'))
      players players' /\
    Permutation
      (allCards players' ++
       firstn (List.length deck
               - (52 / List.length players) * List.length players) deck)
      (allCards players ++ deck).
Proof.
  intros Hne Hle.
  set (n := List.length players) in *. set (c := (52 / n)%nat) in *.
  assert (0 < n)%nat as Hpos
      by (subst n; destruct players; [contradiction | simpl; lia]).
  rewrite dealCards_unfold by exact Hne. fold n. fold c.
  set (k := (List.length deck - c * n)%nat).
  assert (List.length (skipn k deck) = (c * n)%nat) as Htl
      by (rewrite length_skipn; subst k; lia).
  destruct (dealRounds_rounds n c 0 players (firstn k deck) (skipn k deck)
              eq_refl Hpos (Nat.Div0.mod_0_l n) Htl) as (ps' & E & F & P).
  rewrite firstn_skipn in E. rewrite E. cbn [bind fst snd].
  eexists. split; [reflexivity |]. split.
  - exact (sort_hands_Forall2 c players ps' F).
  - eapply perm_trans;
      [apply Permutation_app_tail, sorted_hands_cards |].
    eapply perm_trans; [apply Permutation_app_tail, P |].
    rewrite <- app_assoc. apply Permutation_app_head.
    rewrite <- (firstn_skipn k deck) at 3. apply Permutation_app_comm.
Qed.

(** X21: [dealCards] gives every player 52 / n cards, n being the
    number of players, taken from the top of the deck, and sorts every
    hand by rank; the other data of the players are untouched, the cards
    left in the deck are those below the dealt ones, and the hands and
    the deck together hold the cards they held before.  On a deck with
    fewer than (52 / n) * n cards it throws. *)
Theorem dealCards_spec (players : list Player) (deck : list Card) :
  players <> [] ->
  let n := List.length players in
  let c := (52 / n)%nat in
  ((c * n <= List.length deck)%nat ->
   exists players',
     GameStateOps.dealCards players deck =
       Ok (players', firstn (List.length deck - c * n) deck) /\
     Forall2 (fun p p' =>
                samePlayer p p' /\
                Hand.size (hand_ p') = (Hand.size (hand_ p) + c)%nat /\
                sortedBy Hand.compareByRank (hand_ p'))
       players players' /\
     Permutation
       (allCards players' ++ firstn (List.length deck - c * n) deck)
       (allCards players ++ deck)) /\
  ((List.length deck < c * n)%nat ->
   GameStateOps.dealCards players deck =
   Throw (runtime_error "Cannot deal from empty deck")).
Proof.
  intros Hne n c. split.
  - intros Hle. exact (dealCards_ok players deck Hne Hle).
  - intros Hlt. rewrite dealCards_unfold by exact Hne.
    rewrite dealRounds_short by exact Hlt. reflexivity.
Qed.

Lemma dealCards_spec_witness :
  GameStateOps.dealCards [PlayerOps.newPlayer "You" Human] [threeOfDiamonds] =
  Throw (runtime_error "Cannot deal from empty deck").
Proof.
  apply (proj2 (dealCards_spec [PlayerOps.newPlayer "You" Human]
                  [threeOfDiamonds] ltac:(discriminate))).
  vm_compute. lia.
Defined.

(** ** Starting a game *)

Lemma Forall2_map_left {A B C : Type} (R : B -> C -> Prop) (f : A -> B)
    (l : list A) (l' : list C) :
  Forall2 R (map f l) l' -> Forall2 (fun a c => R (f a) c) l l'.
Proof.
  revert l'. induction l as [| a l IH]; intros l' H;
    inversion H; subst; constructor; auto.
Qed.

Lemma allCards_cleared (ps : list Player) :
  allCards (map (fun p => PlayerOps.resetPass (PlayerOps.clearHand p)) ps) = [].
Proof.
  unfold allCards. induction ps as [| p ps IH]; [reflexivity |].
  cbn [map flat_map]. rewrite IH. reflexivity.
Qed.

Lemma findThreeOfDiamonds_Some (ps : list Player) : forall i k : N,
  GameStateOps.findThreeOfDiamonds i ps = Some k ->
  exists (j : nat) (p : Player),
    k = (i + N.of_nat j)%N /\ nth_error ps j = Some p /\
    In threeOfDiamonds (hand_ p).
Proof.
  induction ps as [| q ps IH]; intros i k H; [discriminate H |].
  cbn [GameStateOps.findThreeOfDiamonds] in H.
  destruct (Hand.hasThreeOfDiamonds (hand_ q)) eqn:E.
  - injection H as <-. exists 0%nat, q. split; [lia |].
    split; [reflexivity |]. now apply hasCard_In.
  - destruct (IH _ _ H) as (j & p & -> & Hj & Hp).
    exists (S j), p. split; [lia |]. split; assumption.
Qed.

Lemma findThreeOfDiamonds_None (ps : list Player) : forall i : N,
  GameStateOps.findThreeOfDiamonds i ps = None ->
  ~ In threeOfDiamonds (allCards ps).
Proof.
  unfold allCards.
  induction ps as [| q ps IH]; intros i H; [intros [] |].
  cbn [GameStateOps.findThreeOfDiamonds] in H.
  destruct (Hand.hasThreeOfDiamonds (hand_ q)) eqn:E; [discriminate H |].
  cbn [flat_map]. intros Hin. apply in_app_or in Hin.
  destruct Hin as [Hin | Hin].
  - apply hasCard_In in Hin. unfold Hand.hasThreeOfDiamonds in E.
    unfold threeOfDiamonds in Hin. congruence.
  - exact (IH _ H Hin).
Qed.

Lemma findStartingPlayer_bound (ps : list Player) :
  ps <> [] ->
  (GameStateOps.findStartingPlayer ps < N.of_nat (List.length ps))%N.
Proof.
  intros Hne. unfold GameStateOps.findStartingPlayer.
  destruct (GameStateOps.findThreeOfDiamonds 0 ps) as [k |] eqn:E.
  - destruct (findThreeOfDiamonds_Some _ _ _ E) as (j & p & -> & Hj & _).
    assert (j < List.length ps)%nat
      by (apply nth_error_Some; congruence).
    lia.
  - destruct ps; [contradiction | simpl; lia].
Qed.

Lemma startNewGame_ok (rng : list Card -> list Card) (g : GameState) :
  permutes rng -> players_ g <> [] ->
  exists players',
    GameStateOps.startNewGame rng g =
      Ok (mkGameState players'
            (firstn (52 mod List.length (players_ g))
               (rng Deck.initializeDeck))
            (GameStateOps.findStartingPlayer players') []
            (GameStateOps.findStartingPlayer players') InProgress 0 true) /\
    Forall2 (dealtPlayer (52 / List.length (players_ g)))
      (players_ g) players' /\
    Permutation
      (allCards players' ++
       firstn (52 mod List.length (players_ g)) (rng Deck.initializeDeck))
      Deck.initializeDeck.
Proof.
  intros Hrng Hne. unfold GameStateOps.startNewGame, Deck.shuffle, Deck.reset.
  set (n := List.length (players_ g)).
  set (ps0 := map (fun p => PlayerOps.resetPass (PlayerOps.clearHand p))
                (players_ g)).
  set (deck := rng Deck.initializeDeck).
  assert (List.length deck = 52%nat) as Hdeck
      by (subst deck; rewrite (Permutation_length (Hrng _)); reflexivity).
  assert (List.length ps0 = n) as Hn0 by (subst ps0; apply length_map).
  assert (ps0 <> []) as Hne0
      by (intros E; apply (f_equal (@List.length Player)) in E;
          rewrite Hn0 in E; subst n; destruct (players_ g);
          [contradiction | discriminate E]).
  assert (0 < n)%nat as Hpos
      by (subst n; destruct (players_ g); [contradiction | simpl; lia]).
  pose proof (Nat.div_mod_eq 52 n) as Hdm.
  destruct (dealCards_ok ps0 deck Hne0) as (ps' & E & F & P).
  { rewrite Hn0, Hdeck. lia. }
  rewrite Hn0 in E, F, P. rewrite Hdeck in E, P.
  replace (52 - 52 / n * n)%nat with (52 mod n)%nat in E, P by lia.
  rewrite E. cbn [bind fst snd]. exists ps'.
  split; [reflexivity |]. split.
  - subst ps0. apply Forall2_map_left in F.
    eapply Forall2_impl; [| exact F].
    intros p p' ((N1 & T1 & S1 & P1) & Hsz & Hs).
    unfold dealtPlayer. repeat split; try assumption.
  - eapply perm_trans; [exact P |].
    subst ps0. rewrite allCards_cleared. apply Hrng.
Qed.

Lemma NoDup_app_disjoint {A : Type} (l1 l2 : list A) (a : A) :
  NoDup (l1 ++ l2) -> In a l1 -> In a l2 -> False.
Proof.
  induction l1 as [| x l1 IH]; intros Hnd H1 H2; [destruct H1 |].
  cbn [List.app] in Hnd. inversion Hnd as [| ? ? Hx Hrest]; subst.
  destruct H1 as [-> | H1].
  - apply Hx, in_or_app. now right.
  - exact (IH Hrest H1 H2).
Qed.

Lemma initializeDeck_NoDup : NoDup Deck.initializeDeck.
Proof.
  apply (NoDup_map_inv (fun c => Z.to_nat (cardKey c))).
  rewrite initializeDeck_keys. apply seq_NoDup.
Qed.

Lemma initializeDeck_In (c : Card) : In c Deck.initializeDeck.
Proof.
  apply hasCard_In. destruct c as [r s]; destruct r, s; reflexivity.
Qed.

Lemma hand_in_allCards (ps : list Player) (p : Player) (c : Card) :
  In p ps -> In c (hand_ p) -> In c (allCards ps).
Proof.
  intros Hp Hc. unfold allCards. apply in_flat_map. now exists p.
Qed.

Lemma holder_unique (ps : list Player) : forall (j j' : nat) (p q : Player)
    (c : Card),
  NoDup (allCards ps) ->
  nth_error ps j = Some p -> nth_error ps j' = Some q ->
  In c (hand_ p) -> In c (hand_ q) -> j = j'.
Proof.
  unfold allCards.
  induction ps as [| x ps IH]; intros j j' p q c Hnd Hj Hj' Hp Hq.
  - destruct j; discriminate Hj.
  - cbn [flat_map] in Hnd.
    destruct j as [| j]; destruct j' as [| j']; simpl in Hj, Hj'.
    + reflexivity.
    + injection Hj as ->. exfalso.
      apply (NoDup_app_disjoint _ _ c Hnd Hp).
      apply in_flat_map. exists q. split; [| exact Hq].
      eapply nth_error_In, Hj'.
    + injection Hj' as ->. exfalso.
      apply (NoDup_app_disjoint _ _ c Hnd Hq).
      apply in_flat_map. exists p. split; [| exact Hp].
      eapply nth_error_In, Hj.
    + f_equal. apply (IH j j' p q c); try assumption.
      eapply NoDup_app_remove_l, Hnd.
Qed.

(** X22: [startNewGame], whatever permutation the shuffle makes, does
    not throw when there are players: every player keeps name, type and
    score, has no pass recorded, and holds 52 / n cards sorted by rank;
    hands and deck together are the 52 cards, each once, 52 mod n of
    them left in the deck; the table is empty, the game in progress, the
    first play pending, and the starting player is a valid index who is
    also recorded as the last to have played. *)
Theorem startNewGame_spec (rng : list Card -> list Card) (g : GameState) :
  permutes rng -> players_ g <> [] ->
  let n := List.length (players_ g) in
  exists g',
    GameStateOps.startNewGame rng g = Ok g' /\
    Forall2 (dealtPlayer (52 / n)) (players_ g) (players_ g') /\
    Permutation (allCards (players_ g') ++ deck_ g') Deck.initializeDeck /\
    NoDup (allCards (players_ g') ++ deck_ g') /\
    Deck.size (deck_ g') = (52 mod n)%nat /\
    lastPlay_ g' = [] /\ phase_ g' = InProgress /\
    firstPlayOfGame_ g' = true /\ consecutivePasses_ g' = 0 /\
    lastPlayingPlayerIndex_ g' = currentPlayerIndex_ g' /\
    (currentPlayerIndex_ g' < N.of_nat n)%N.
Proof.
  intros Hrng Hne n.
  destruct (startNewGame_ok rng g Hrng Hne) as (ps' & E & F & P).
  fold n in E, F, P.
  eexists. split; [exact E |].
  cbn [players_ deck_ lastPlay_ phase_ firstPlayOfGame_ consecutivePasses_
         lastPlayingPlayerIndex_ currentPlayerIndex_].
  split; [exact F |]. split; [exact P |]. split.
  { eapply Permutation_NoDup; [apply Permutation_sym, P |].
    apply initializeDeck_NoDup. }
  split.
  { unfold Deck.size. rewrite length_firstn.
    rewrite (Permutation_length (Hrng _)).
    change (List.length Deck.initializeDeck) with 52%nat.
    pose proof (Nat.Div0.mod_le 52 n). lia. }
  repeat (split; [reflexivity |]).
  subst n. rewrite (Forall2_length F). apply findStartingPlayer_bound.
  intros ->. inversion F as [Hnil |]. now apply Hne.
Qed.

Lemma startNewGame_spec_witness :
  exists g',
    GameStateOps.startNewGame (@rev Card) (gameOf 4) = Ok g' /\
    Forall2 (dealtPlayer 13) (players_ (gameOf 4)) (players_ g') /\
    Permutation (allCards (players_ g') ++ deck_ g') Deck.initializeDeck /\
    NoDup (allCards (players_ g') ++ deck_ g') /\
    Deck.size (deck_ g') = 0%nat /\
    lastPlay_ g' = [] /\ phase_ g' = InProgress /\
    firstPlayOfGame_ g' = true /\ consecutivePasses_ g' = 0 /\
    lastPlayingPlayerIndex_ g' = currentPlayerIndex_ g' /\
    (currentPlayerIndex_ g' < 4)%N.
Proof.
  apply (startNewGame_spec (@rev Card) (gameOf 4)).
  - intros l. apply Permutation_sym, Permutation_rev.
  - discriminate.
Defined.

(** X23: when the 3 of Diamonds is not left in the deck - in particular
    whenever the number of players divides 52, as with two or four
    players, for then the deck is dealt out - the starting player chosen
    by [startNewGame] holds the 3 of Diamonds, and nobody else does. *)
Theorem starting_player_holds_opening_card
    (rng : list Card -> list Card) (g g' : GameState) :
  permutes rng -> players_ g <> [] ->
  GameStateOps.startNewGame rng g = Ok g' ->
  ((52 mod List.length (players_ g) = 0)%nat -> deck_ g' = []) /\
  (~ In threeOfDiamonds (deck_ g') ->
   exists p,
     GameStateOps.getCurrentPlayer g' = Some p /\
     In threeOfDiamonds (hand_ p) /\
     forall (j : nat) (q : Player),
       nth_error (players_ g') j = Some q ->
       In threeOfDiamonds (hand_ q) ->
       N.of_nat j = currentPlayerIndex_ g').
Proof.
  intros Hrng Hne Hstart.
  destruct (startNewGame_ok rng g Hrng Hne) as (ps' & E & F & P).
  rewrite E in Hstart. injection Hstart as <-.
  cbn [players_ deck_ currentPlayerIndex_]. split.
  - intros ->. reflexivity.
  - intros Hout.
    assert (In threeOfDiamonds (allCards ps')) as Hin.
    { pose proof (Permutation_in _ (Permutation_sym P)
                    (initializeDeck_In threeOfDiamonds)) as H.
      apply in_app_or in H. destruct H; [assumption | contradiction]. }
    assert (NoDup (allCards ps')) as Hnd.
    { eapply NoDup_app_remove_r, Permutation_NoDup;
        [apply Permutation_sym, P | apply initializeDeck_NoDup]. }
    unfold GameStateOps.getCurrentPlayer, GameStateOps.getPlayer,
      GameStateOps.findStartingPlayer.
    cbn [players_ currentPlayerIndex_].
    destruct (GameStateOps.findThreeOfDiamonds 0 ps') as [k |] eqn:Ek.
    + destruct (findThreeOfDiamonds_Some _ _ _ Ek) as (j & p & -> & Hj & Hp).
      assert (j < List.length ps')%nat as Hlt
          by (apply nth_error_Some; congruence).
      exists p. split.
      * rewrite (proj2 (N.leb_gt _ _)) by lia.
        replace (N.to_nat (0 + N.of_nat j)) with j by lia. exact Hj.
      * split; [exact Hp |]. intros j' q Hj' Hq.
        rewrite (holder_unique ps' j' j q p threeOfDiamonds Hnd Hj' Hj Hq Hp).
        lia.
    + exfalso. exact (findThreeOfDiamonds_None _ _ Ek Hin).
Qed.

Lemma starting_player_holds_opening_card_witness :
  deck_ (started (@rev Card) (gameOf 4)) = [].
Proof.
  apply (proj1 (starting_player_holds_opening_card (@rev Card) (gameOf 4)
                  (started (@rev Card) (gameOf 4))
                  (fun l => Permutation_sym (Permutation_rev l))
                  ltac:(discriminate) ltac:(vm_compute; reflexivity))).
  vm_compute. reflexivity.
Defined.

(** X24: when the 3 of Diamonds is left in the deck - as happens with
    three players, one card staying undealt - the game starts with
    player 0 and the first play pending, and then no play made of cards
    of any player's hand is accepted while the 3 of Diamonds is
    required. *)
Theorem opening_card_left_in_deck
    (rng : list Card -> list Card) (g g' : GameState) :
  permutes rng -> players_ g <> [] ->
  GameStateOps.startNewGame rng g = Ok g' ->
  In threeOfDiamonds (deck_ g') ->
  currentPlayerIndex_ g' = 0%N /\ firstPlayOfGame_ g' = true /\
  forall (p : Player) (cards lastPlay : list Card) (isFirstPlay : bool),
    In p (players_ g') -> incl cards (hand_ p) ->
    ~ accepted (GameRules.validatePlay cards lastPlay isFirstPlay
                  (firstPlayOfGame_ g')).
Proof.
  intros Hrng Hne Hstart Hdeck.
  destruct (startNewGame_ok rng g Hrng Hne) as (ps' & E & F & P).
  rewrite E in Hstart. injection Hstart as <-.
  cbn [players_ deck_ currentPlayerIndex_ firstPlayOfGame_] in *.
  assert (~ In threeOfDiamonds (allCards ps')) as Hout.
  { intros Hin. eapply NoDup_app_disjoint; [| exact Hin | exact Hdeck].
    eapply Permutation_NoDup;
      [apply Permutation_sym, P | apply initializeDeck_NoDup]. }
  split; [| split; [reflexivity |]].
  - unfold GameStateOps.findStartingPlayer.
    destruct (GameStateOps.findThreeOfDiamonds 0 ps') as [k |] eqn:Ek;
      [| reflexivity].
    destruct (findThreeOfDiamonds_Some _ _ _ Ek) as (j & p & _ & Hj & Hp).
    exfalso. apply Hout.
    eapply hand_in_allCards; [eapply nth_error_In, Hj | exact Hp].
  - intros p cards lastPlay isFirstPlay Hp Hincl.
    unfold GameRules.validatePlay. rewrite validatePlayWith_cases.
    destruct (GameRules.empty cards); [apply not_accepted_invalid |].
    destruct (GameRules.containsThreeOfDiamonds cards) eqn:E3.
    + exfalso. apply containsThreeOfDiamonds_In in E3.
      apply Hout. eapply hand_in_allCards; [exact Hp | now apply Hincl].
    + cbn [andb negb]. apply not_accepted_invalid.
Qed.

Lemma opening_card_left_in_deck_witness :
  currentPlayerIndex_ (started noShuffle (gameOf 3)) = 0%N /\
  deck_ (started noShuffle (gameOf 3)) = [threeOfDiamonds].
Proof.
  split; [| vm_compute; reflexivity].
  apply (opening_card_left_in_deck noShuffle (gameOf 3)
           (started noShuffle (gameOf 3))
           (fun l => Permutation_refl l) ltac:(discriminate)
           ltac:(vm_compute; reflexivity)).
  vm_compute. left. reflexivity.
Defined.

(** ** Turns and passes *)

Lemma withCurrent_same (g : GameState) :
  withCurrent g (currentPlayerIndex_ g) = g.
Proof. destruct g. reflexivity. Qed.

Lemma nextTurn_withCurrent (g : GameState) :
  players_ g <> [] ->
  (currentPlayerIndex_ g < N.of_nat (List.length (players_ g)))%N ->
  (N.of_nat (List.length (players_ g)) < 2 ^ 64)%N ->
  GameStateOps.nextTurn g =
  Some (withCurrent g ((currentPlayerIndex_ g + 1)
                       mod N.of_nat (List.length (players_ g)))).
Proof.
  intros Hne Hcur Hn. unfold GameStateOps.nextTurn, withCurrent.
  destruct (players_ g) as [| p ps] eqn:E; [contradiction |].
  rewrite (N.mod_small (currentPlayerIndex_ g + 1) (2 ^ 64)) by lia.
  reflexivity.
Qed.

Lemma turns_formula (k : nat) : forall g : GameState,
  players_ g <> [] ->
  (currentPlayerIndex_ g < N.of_nat (List.length (players_ g)))%N ->
  (N.of_nat (List.length (players_ g)) < 2 ^ 64)%N ->
  turns k g =
  Some (withCurrent g ((currentPlayerIndex_ g + N.of_nat k)
                       mod N.of_nat (List.length (players_ g)))).
Proof.
  induction k as [| k IH]; intros g Hne Hcur Hn.
  - cbn [turns]. rewrite N.add_0_r, N.mod_small by exact Hcur.
    rewrite withCurrent_same. reflexivity.
  - cbn [turns]. rewrite nextTurn_withCurrent by assumption.
    rewrite IH.
    + unfold withCurrent. cbn [players_ deck_ currentPlayerIndex_ lastPlay_
        lastPlayingPlayerIndex_ phase_ consecutivePasses_ firstPlayOfGame_].
      rewrite N.Div0.add_mod_idemp_l. do 3 f_equal. lia.
    + exact Hne.
    + cbn [withCurrent players_ currentPlayerIndex_].
      apply N.mod_upper_bound. lia.
    + exact Hn.
Qed.

(** X25: from a state whose current player is a valid index,
    [nextTurn] moves to the next player, wrapping from the last to the
    first, and changes nothing else; the index stays valid; each player
    gets the turn within one round, and after as many turns as there are
    players the state is what it was.  With no players the operation is
    undefined. *)
Theorem nextTurn_cycle (g : GameState) :
  let n := N.of_nat (List.length (players_ g)) in
  (players_ g = [] -> GameStateOps.nextTurn g = None) /\
  (players_ g <> [] -> (currentPlayerIndex_ g < n)%N -> (n < 2 ^ 64)%N ->
   GameStateOps.nextTurn g =
     Some (withCurrent g (if N.eqb (currentPlayerIndex_ g + 1) n
                          then 0%N else (currentPlayerIndex_ g + 1)%N)) /\
   turns (List.length (players_ g)) g = Some g /\
   forall j : N, (j < n)%N ->
     exists k : nat,
       (k < List.length (players_ g))%nat /\
       turns k g = Some (withCurrent g j)).
Proof.
  intros n. split.
  - intros E. unfold GameStateOps.nextTurn. rewrite E. reflexivity.
  - intros Hne Hcur Hn. split; [| split].
    + rewrite nextTurn_withCurrent by assumption. fold n. do 2 f_equal.
      destruct (N.eqb_spec (currentPlayerIndex_ g + 1) n) as [E | E].
      * rewrite E. apply N.Div0.mod_same.
      * apply N.mod_small. lia.
    + rewrite turns_formula by assumption. fold n.
      replace (currentPlayerIndex_ g + n)%N
        with (currentPlayerIndex_ g + 1 * n)%N by lia.
      rewrite N.Div0.mod_add, N.mod_small by exact Hcur.
      rewrite withCurrent_same. reflexivity.
    + intros j Hj.
      destruct (N.le_gt_cases (currentPlayerIndex_ g) j) as [L | L].
      * exists (N.to_nat (j - currentPlayerIndex_ g)). split; [lia |].
        rewrite turns_formula by assumption. fold n. do 2 f_equal.
        replace (currentPlayerIndex_ g
                 + N.of_nat (N.to_nat (j - currentPlayerIndex_ g)))%N
          with j by lia.
        apply N.mod_small. exact Hj.
      * exists (N.to_nat (j + n - currentPlayerIndex_ g)). split; [lia |].
        rewrite turns_formula by assumption. fold n. do 2 f_equal.
        replace (currentPlayerIndex_ g
                 + N.of_nat (N.to_nat (j + n - currentPlayerIndex_ g)))%N
          with (j + 1 * n)%N by lia.
        rewrite N.Div0.mod_add. apply N.mod_small. exact Hj.
Qed.

Lemma nextTurn_cycle_witness :
  GameStateOps.nextTurn (withCurrent (gameOf 4) 3) =
  Some (withCurrent (withCurrent (gameOf 4) 3) 0).
Proof.
  apply (proj2 (nextTurn_cycle (withCurrent (gameOf 4) 3))).
  - discriminate.
  - vm_compute. reflexivity.
  - vm_compute. reflexivity.
Defined.

Lemma inRange_cons (lastPlaying i : N) (len : nat) :
  inRange lastPlaying i (S len) =
  (N.eqb i lastPlaying || inRange lastPlaying (i + 1) len)%bool.
Proof.
  unfold inRange.
  destruct (N.eqb_spec i lastPlaying);
    destruct (N.leb_spec i lastPlaying);
    destruct (N.ltb_spec lastPlaying (i + N.of_nat (S len)));
    destruct (N.leb_spec (i + 1) lastPlaying);
    destruct (N.ltb_spec lastPlaying (i + 1 + N.of_nat len));
    cbn [andb orb]; try reflexivity; lia.
Qed.

Lemma othersPassed_cons (lastPlaying i : N) (p : Player) (ps : list Player) :
  othersPassed lastPlaying i (p :: ps) <->
  (i <> lastPlaying -> hasPassed_ p = true) /\
  othersPassed lastPlaying (i + 1) ps.
Proof.
  unfold othersPassed. split.
  - intros H. split.
    + intros Hi. apply (H 0%nat p eq_refl). lia.
    + intros j q Hj Hne. apply (H (S j) q Hj). lia.
  - intros [H0 H] [| j] q Hj Hne.
    + injection Hj as <-. apply H0. lia.
    + apply (H j q Hj). lia.
Qed.

Lemma countPassed_spec (ps : list Player) : forall (lastPlaying i : N) (acc : Z),
  let cnt := GameStateOps.countPassed lastPlaying i acc ps - acc in
  let most := Z.of_nat (List.length ps)
              - (if inRange lastPlaying i (List.length ps) then 1 else 0) in
  0 <= cnt <= most /\ (cnt = most <-> othersPassed lastPlaying i ps).
Proof.
  induction ps as [| p ps IH]; intros lastPlaying i acc.
  - cbn [GameStateOps.countPassed List.length].
    assert (inRange lastPlaying i 0 = false) as ->.
    { unfold inRange. destruct (N.leb_spec i lastPlaying);
        destruct (N.ltb_spec lastPlaying (i + N.of_nat 0));
        cbn [andb]; try reflexivity; lia. }
    cbn zeta. split; [lia |]. split; [| lia].
    intros _ j q Hj. destruct j; discriminate Hj.
  - cbn [GameStateOps.countPassed List.length]. rewrite inRange_cons.
    rewrite othersPassed_cons.
    specialize (IH lastPlaying (i + 1)%N).
    destruct (N.eqb_spec i lastPlaying) as [E | E]; cbn [negb andb orb].
    + specialize (IH acc). cbn zeta in IH |- *.
      assert (inRange lastPlaying (i + 1) (List.length ps) = false) as R.
      { unfold inRange. destruct (N.leb_spec (i + 1) lastPlaying);
          cbn [andb]; [lia | reflexivity]. }
      rewrite R in IH. destruct IH as [Hb Hiff].
      split; [lia |]. rewrite <- Hiff. split.
      * intros H. split; [contradiction | lia].
      * intros [_ H]. lia.
    + destruct (hasPassed_ p) eqn:Hp.
      * specialize (IH (acc + 1)). cbn zeta in IH |- *.
        destruct IH as [Hb Hiff].
        destruct (inRange lastPlaying (i + 1) (List.length ps));
          (split; [lia |]); rewrite <- Hiff;
          (split; [intros H; split; [reflexivity | lia] | intros [_ H]; lia]).
      * specialize (IH acc). cbn zeta in IH |- *.
        destruct IH as [Hb Hiff].
        destruct (inRange lastPlaying (i + 1) (List.length ps));
          (split; [lia |]);
          (split; [intros H; lia |
                   intros [H _]; specialize (H E); discriminate H]).
Qed.

(** X26: with at most one player [allOthersHavePassed] answers true;
    with two or more (fewer than 2^31) and the last player to have
    played a valid index, it answers true exactly when every other
    player has passed, whether or not that last player has. *)
Theorem allOthersHavePassed_spec (g : GameState) :
  let n := List.length (players_ g) in
  ((n <= 1)%nat -> GameStateOps.allOthersHavePassed g = true) /\
  ((2 <= n)%nat -> Z.of_nat n < 2 ^ 31 ->
   (lastPlayingPlayerIndex_ g < N.of_nat n)%N ->
   (GameStateOps.allOthersHavePassed g = true <->
    othersPassed (lastPlayingPlayerIndex_ g) 0 (players_ g))).
Proof.
  intros n. unfold GameStateOps.allOthersHavePassed. fold n. split.
  - intros H. rewrite (proj2 (Nat.leb_le _ _) H). reflexivity.
  - intros H2 H31 Hlast.
    rewrite (proj2 (Nat.leb_gt _ _)) by lia.
    assert (GameStateOps.static_cast_int (Z.of_nat n) = Z.of_nat n) as ->.
    { unfold GameStateOps.static_cast_int.
      rewrite Z.mod_small by lia. lia. }
    pose proof (countPassed_spec (players_ g) (lastPlayingPlayerIndex_ g) 0 0)
      as Hc.
    cbn zeta in Hc. fold n in Hc.
    assert (inRange (lastPlayingPlayerIndex_ g) 0 n = true) as R.
    { unfold inRange. rewrite (proj2 (N.leb_le _ _)) by lia.
      rewrite (proj2 (N.ltb_lt _ _)) by lia. reflexivity. }
    rewrite R in Hc. destruct Hc as [Hb Hiff]. rewrite <- Hiff.
    rewrite Z.geb_le. lia.
Qed.

Lemma allOthersHavePassed_spec_witness :
  GameStateOps.allOthersHavePassed (gameOf 1) = true <->
  othersPassed (lastPlayingPlayerIndex_ (gameOf 1)) 0 (players_ (gameOf 1)).
Proof.
  apply (proj2 (allOthersHavePassed_spec (gameOf 1)));
    vm_compute; (reflexivity || discriminate).
Defined.

Lemma countPassed_none (ps : list Player) : forall (lastPlaying i : N) (acc : Z),
  Forall (fun p => hasPassed_ p = false) ps ->
  GameStateOps.countPassed lastPlaying i acc ps = acc.
Proof.
  induction ps as [| p ps IH]; intros lastPlaying i acc H; [reflexivity |].
  inversion H as [| ? ? Hp Hrest]; subst.
  cbn [GameStateOps.countPassed]. rewrite Hp, andb_false_r.
  now apply IH.
Qed.

(** X27: [clearLastPlay] empties the table, clears every pass flag and
    the pass counter, and leaves hands, deck and turn as they were; in a
    game of two or more players (fewer than 2^31) the round is then not
    held to be passed out: [allOthersHavePassed] answers false. *)
Theorem clearLastPlay_spec (g : GameState) :
  let g' := GameStateOps.clearLastPlay g in
  lastPlay_ g' = [] /\ consecutivePasses_ g' = 0 /\
  Forall (fun p => hasPassed_ p = false) (players_ g') /\
  map hand_ (players_ g') = map hand_ (players_ g) /\
  map name_ (players_ g') = map name_ (players_ g) /\
  deck_ g' = deck_ g /\
  currentPlayerIndex_ g' = currentPlayerIndex_ g /\
  lastPlayingPlayerIndex_ g' = lastPlayingPlayerIndex_ g /\
  firstPlayOfGame_ g' = firstPlayOfGame_ g /\
  ((2 <= List.length (players_ g))%nat ->
   Z.of_nat (List.length (players_ g)) < 2 ^ 31 ->
   GameStateOps.allOthersHavePassed g' = false).
Proof.
  intros g'. subst g'.
  assert (Forall (fun p => hasPassed_ p = false)
            (map PlayerOps.resetPass (players_ g))) as Hall
      by (apply Forall_map, Forall_forall; reflexivity).
  split; [reflexivity |]. split; [reflexivity |]. split; [exact Hall |].
  split; [cbn; rewrite map_map; reflexivity |].
  split; [cbn; rewrite map_map; reflexivity |].
  repeat (split; [reflexivity |]).
  intros H2 H31. unfold GameStateOps.allOthersHavePassed.
  cbn [GameStateOps.clearLastPlay GameStateOps.resetPasses
         GameStateOps.resetAllPasses players_ lastPlayingPlayerIndex_].
  rewrite length_map, countPassed_none by exact Hall.
  rewrite (proj2 (Nat.leb_gt _ _)) by lia.
  unfold GameStateOps.static_cast_int. rewrite Z.mod_small by lia.
  destruct (Z.geb_spec 0 (Z.of_nat (List.length (players_ g)) + 2 ^ 31
                          - 2 ^ 31 - 1)); [lia | reflexivity].
Qed.

Lemma clearLastPlay_spec_witness :
  GameStateOps.allOthersHavePassed (GameStateOps.clearLastPlay (gameOf 4))
  = false.
Proof.
  apply (proj2 (proj2 (proj2 (proj2 (proj2 (proj2 (proj2 (proj2 (proj2
           (clearLastPlay_spec (gameOf 4)))))))))));
    vm_compute; (reflexivity || lia).
Defined.
